(** * l3tc: the data plane of [src/io.c]

    A shallow embedding of the ring buffers, the drain/fill protocol, the
    IO handlers and data pushers, the tun framer and the address filter of
    peer reconciliation, followed by the properties established about them.

    Conventions.
    - [ssize_t] and [int] values are integers [Z]; every quantity of these
      types that the modelled code computes is bounded by a buffer size
      (at most 4 MiB), so no wrap-around is written for them.  [uint8_t],
      [uint16_t] and [uint64_t] values carry their wrap-around explicitly.
    - A pointer into a byte buffer is the list of bytes readable from the
      pointed address up to the end of its allocation; [None] is [NULL].
    - System calls are answered by the environment ([world]); every call
      is appended to a trace.
    - A loop of the source is run by [do_while] with a bound on the number
      of iterations; the state reached is returned together with the way
      the loop was left. *)

From Stdlib Require Import ZArith List Bool Lia.
From stdpp Require Import base gmap.
Import ListNotations.
Open Scope Z_scope.

(** ** Outcomes of a call *)

(** [Abort]: a failed [assert] or an access the model gives no value to.
    [Timeout]: a loop inside the callee did not finish within its bound. *)
Inductive outcome (A : Type) : Type :=
| Done (a : A)
| Abort
| Timeout.
Arguments Done {A} a.
Arguments Abort {A}.
Arguments Timeout {A}.

Definition bind {A B : Type} (m : outcome A) (k : A -> outcome B) : outcome B :=
  match m with
  | Done a => k a
  | Abort => Abort
  | Timeout => Timeout
  end.

Notation "'let*' x ':=' m 'in' k" := (bind m (fun x => k))
  (at level 10, x pattern, m at level 100, k at level 200).

Definition assert (b : bool) : outcome unit := if b then Done tt else Abort.

Definition of_option {A : Type} (o : option A) : outcome A :=
  match o with
  | Some a => Done a
  | None => Abort
  end.

(** ** The do-while loops of the source *)

(** What one run of a loop body does: [Next] reaches the loop condition
    (by falling off the end of the body or by [continue]), [Break] leaves
    the loop, [Crash] and [Stall] stop the body on an [Abort] or a
    [Timeout] of a callee. *)
Inductive step (St : Type) : Type :=
| Next (s : St)
| Break (s : St)
| Crash (s : St)
| Stall (s : St).
Arguments Next {St} s.
Arguments Break {St} s.
Arguments Crash {St} s.
Arguments Stall {St} s.

Inductive exit : Type := Returned | Aborted | OutOfFuel.

(** [do { body } while (cond)], at most [fuel] runs of the body. *)
Fixpoint do_while {St : Type} (fuel : nat) (body : St -> step St)
    (cond : St -> bool) (s : St) : exit * St :=
  match fuel with
  | O => (OutOfFuel, s)
  | S fuel' =>
      match body s with
      | Next s' => if cond s' then do_while fuel' body cond s' else (Returned, s')
      | Break s' => (Returned, s')
      | Crash s' => (Aborted, s')
      | Stall s' => (OutOfFuel, s')
      end
  end.

(** ** Constants *)

(** io.c:724-728. *)
Definition CONN_IO_OK : Z := 0.
Definition CONN_IO_OK_EXHAUSTED : Z := 1.
Definition CONN_KILL : Z := -1.
Definition CONN_UNKNOWN_ERR : Z := -2.
Definition CONN_IO_OK_NOT_ENOUGH_SPACE : Z := -3.

(** io.c:30-31, 88-89, 282-283. *)
Definition TUN_RING_SZ : Z := 4 * 1024 * 1024.
Definition CONN_RING_SZ : Z := 128 * 1024.
Definition USING_IPV4 : Z := 1.
Definition USING_IPV6 : Z := 2.
Definition INITIAL_TUN_PKT_BUFF_SZ : Z := 4096.
Definition MAX_L3_PKT_SZ : Z := 65535.
Definition IPv4_ADDR_LEN : Z := 4.
Definition IPv6_ADDR_LEN : Z := 16.
Definition MAX_NW_ADDR_LEN : Z := 16.

(** Values of the system headers ([<errno.h>], [<sys/socket.h>],
    [<sys/epoll.h>]) on Linux, the platform of [epoll]. *)
Definition EAGAIN : Z := 11.
Definition EWOULDBLOCK : Z := 11.
Definition EPIPE : Z := 32.
Definition ECONNRESET : Z := 104.
Definition ENOTCONN : Z := 107.
Definition ECONNREFUSED : Z := 111.
Definition AF_INET : Z := 2.
Definition AF_INET6 : Z := 10.
Definition EPOLLIN : Z := 1.
Definition EPOLLOUT : Z := 4.

(** ** The environment *)

Inductive log_msg : Type :=
| LogUnknownIpVersion (ip_v : Z)
| LogUnexpectedTunReadError
| LogTunWriteFailed (fd : Z)
| LogFailedWriteToTunDev
| LogUnexpectedAddressFamily (family : Z)
| LogCouldNotAllocate.

Inductive event : Type :=
| EvSend (fd : Z) (bytes : list Z)
| EvRecv (fd : Z) (max_sz : Z)
| EvRead (fd : Z) (count : Z)
| EvWrite (fd : Z) (bytes : list Z)
| EvWritev (fd : Z) (bytes1 bytes2 : list Z)
| EvAlloc (size : Z)
| EvLog (msg : log_msg).

(** The answer to a system call: its return value, [errno] when the
    value is negative, and the bytes a receiving call stored. *)
Record sys_ans : Type := SysAns { rv : Z; errno : Z; data : list Z }.

(** [sock_ans]: the answers the kernel will give to the coming [send],
    [recv], [write] and [writev] calls, in order.  [tun_rx]: the packets
    queued in the tun device.  [allocs]: what the coming [malloc] and
    [realloc] calls return, [NULL] or a fresh block.  [trace]: the calls
    made so far. *)
Record world : Type := World {
  sock_ans : list sys_ans;
  tun_rx : list (list Z);
  allocs : list (option (list Z));
  trace : list event
}.

Definition would_block : sys_ans := SysAns (-1) EAGAIN [].

Definition emit (e : event) (w : world) : world :=
  World (sock_ans w) (tun_rx w) (allocs w) (trace w ++ [e]).

(** A call on a socket or on the tun device for writing: the next
    answer, "would block" when none is left. *)
Definition sys_call (e : event) (w : world) : sys_ans * world :=
  match sock_ans w with
  | [] => (would_block, emit e w)
  | a :: rest => (a, World rest (tun_rx w) (allocs w) (trace w ++ [e]))
  end.

(** [read] on the tun device: one queued packet per call, cut to [count]
    bytes (the device drops what does not fit); "would block" on an empty
    queue. *)
Definition sys_read_tun (fd count : Z) (w : world) : sys_ans * world :=
  match tun_rx w with
  | [] => (would_block, emit (EvRead fd count) w)
  | p :: rest =>
      let got := firstn (Z.to_nat count) p in
      (SysAns (Z.of_nat (length got)) 0 got,
       World (sock_ans w) rest (allocs w) (trace w ++ [EvRead fd count]))
  end.

(** [malloc] and [realloc] of [size] bytes: [NULL] when the environment
    has no block left to give. *)
Definition sys_alloc (size : Z) (w : world) : option (list Z) * world :=
  match allocs w with
  | [] => (None, emit (EvAlloc size) w)
  | b :: rest => (b, World (sock_ans w) (tun_rx w) rest (trace w ++ [EvAlloc size]))
  end.

(** ** Bytes and pointers *)

Definition ptr : Type := option (list Z).

Definition ptr_add (b : list Z) (off : Z) : list Z := skipn (Z.to_nat off) b.

(** The buffer [b] after the bytes from offset [off] on were replaced by
    [region]. *)
Definition store_at (b : list Z) (off : Z) (region : list Z) : list Z :=
  firstn (Z.to_nat off) b ++ region.

(** [memcpy(dst, src, n)]; no value when a block is shorter than [n]. *)
Definition memcpy (dst src : list Z) (n : Z) : outcome (list Z) :=
  if (0 <=? n) && (n <=? Z.of_nat (length src)) && (n <=? Z.of_nat (length dst))
  then Done (firstn (Z.to_nat n) src ++ skipn (Z.to_nat n) dst)
  else Abort.

(** What the kernel stores for a receiving call that returned [n]. *)
Definition kernel_store (dst bytes : list Z) (n : Z) : list Z :=
  if 0 <? n then firstn (Z.to_nat n) bytes ++ skipn (Z.to_nat n) dst else dst.

Definition load_u8 (p : ptr) (i : nat) : outcome Z :=
  match p with
  | None => Abort
  | Some l => of_option (nth_error l i)
  end.

(** ** Ring buffers (io.c:38-42) *)

Record ring_buff_t : Type := Ring {
  buff : list Z;
  sz : Z;
  start : Z;
  end_ : Z;
  wraped : bool
}.

Definition set_start (r : ring_buff_t) (v : Z) : ring_buff_t :=
  Ring (buff r) (sz r) v (end_ r) (wraped r).
Definition set_end (r : ring_buff_t) (v : Z) : ring_buff_t :=
  Ring (buff r) (sz r) (start r) v (wraped r).
Definition set_wraped (r : ring_buff_t) (v : bool) : ring_buff_t :=
  Ring (buff r) (sz r) (start r) (end_ r) v.
Definition set_buff (r : ring_buff_t) (b : list Z) : ring_buff_t :=
  Ring b (sz r) (start r) (end_ r) (wraped r).

(** io.c:272-280: the return value, the ring and the environment. *)
Definition init_backlog_ring (rbuff : ring_buff_t) (size : Z) (w : world)
    : Z * ring_buff_t * world :=
  match sys_alloc size w with
  | (None, w') => (-1, set_buff rbuff [], w')
  | (Some block, w') => (0, Ring block size 0 0 false, w')
  end.

(** io.c:830-832. *)
Definition ring_empty (r : ring_buff_t) : bool :=
  negb (wraped r) && (start r =? end_ r).

(** ** IO handlers and data pushers (io.c:745, 780) *)

(** What a handler leaves behind: its return value, the bytes at the
    presented pointer, the value of the tracker it was given a pointer
    to, its context and the environment. *)
Record hres (C : Type) : Type := HRes {
  h_ret : Z;
  h_buff : list Z;
  h_tracker : Z;
  h_ctx : C;
  h_world : world
}.
Arguments HRes {C} _ _ _ _ _.
Arguments h_ret {C} _.
Arguments h_buff {C} _.
Arguments h_tracker {C} _.
Arguments h_ctx {C} _.
Arguments h_world {C} _.

(** [io_hdlr fd buff len tracker hdlr_ctx additional_len], in an
    environment; [tracker] is the value the pointer argument points to. *)
Definition io_handler_fn_t (C : Type) : Type :=
  Z -> list Z -> Z -> Z -> C -> Z -> world -> outcome (hres C).

(** [data_pusher b1 len1 b2 len2 hdlr_ctx]: the bytes moved, the context
    and the environment. *)
Definition data_push_fn_t (C : Type) : Type :=
  ptr -> Z -> ptr -> Z -> C -> world -> outcome (Z * C * world).

(** ** drain_ring (io.c:747-763) *)

Record dstate (C : Type) : Type := DState {
  d_ring : ring_buff_t;
  d_ctx : C;
  d_world : world;
  d_ret : Z
}.
Arguments DState {C} _ _ _ _.
Arguments d_ring {C} _.
Arguments d_ctx {C} _.
Arguments d_world {C} _.
Arguments d_ret {C} _.

(** The call [io_hdlr(fd, r->buff + r->start, len, &r->start, hdlr_ctx, additional)]. *)
Definition drain_call {C : Type} (fd : Z) (io_hdlr : io_handler_fn_t C)
    (s : dstate C) (len additional : Z) : step (dstate C) :=
  let r := d_ring s in
  match io_hdlr fd (ptr_add (buff r) (start r)) len (start r) (d_ctx s) additional (d_world s) with
  | Done h =>
      Next (DState (set_start (set_buff r (store_at (buff r) (start r) (h_buff h))) (h_tracker h))
                   (h_ctx h) (h_world h) (h_ret h))
  | Abort => Crash s
  | Timeout => Stall s
  end.

Definition drain_body {C : Type} (fd : Z) (io_hdlr : io_handler_fn_t C)
    (s : dstate C) : step (dstate C) :=
  let r := d_ring s in
  if wraped r then
    if sz r =? start r then
      Next (DState (set_wraped (set_start r 0) false) (d_ctx s) (d_world s) (d_ret s))
    else drain_call fd io_hdlr s (sz r - start r) (end_ r)
  else
    if end_ r =? start r then Break s
    else drain_call fd io_hdlr s (end_ r - start r) 0.

Definition drain_ring {C : Type} (fuel : nat) (fd : Z) (r : ring_buff_t)
    (io_hdlr : io_handler_fn_t C) (hdlr_ctx : C) (w : world) : exit * dstate C :=
  do_while fuel (drain_body fd io_hdlr) (fun s => CONN_IO_OK =? d_ret s)
    (DState r hdlr_ctx w CONN_IO_OK).

(** ** fill_ring (io.c:782-828) *)

Record fstate (C : Type) : Type := FState {
  f_ring : ring_buff_t;
  f_ctx : C;
  f_world : world;
  f_ret : Z;
  f_full : bool
}.
Arguments FState {C} _ _ _ _ _.
Arguments f_ring {C} _.
Arguments f_ctx {C} _.
Arguments f_world {C} _.
Arguments f_ret {C} _.
Arguments f_full {C} _.

(** io.c:798-825: the pusher is offered the occupied region. *)
Definition fill_push {C : Type} (data_pusher : option (data_push_fn_t C))
    (s : fstate C) : step (fstate C) :=
  match data_pusher with
  | None => Next s
  | Some pusher =>
      let r := f_ring s in
      if wraped r then
        let len1 := sz r - start r in
        let len2 := end_ r in
        let pushed :=
          if len1 =? 0 then pusher (Some (buff r)) len2 None 0 (f_ctx s) (f_world s)
          else pusher (Some (ptr_add (buff r) (start r))) len1 (Some (buff r)) len2
                 (f_ctx s) (f_world s) in
        match pushed with
        | Done (moved, c, w) =>
            if 0 <? moved then
              if len1 <? moved
              then Next (FState (set_wraped (set_start r (moved - len1)) false) c w (f_ret s) false)
              else Next (FState (set_start r (start r + moved)) c w (f_ret s) false)
            else Next (FState r c w (f_ret s) (f_full s))
        | Abort => Crash s
        | Timeout => Stall s
        end
      else
        let len1 := end_ r - start r in
        match pusher (Some (ptr_add (buff r) (start r))) len1 None 0 (f_ctx s) (f_world s) with
        | Done (moved, c, w) =>
            if 0 <? moved
            then Next (FState (set_start r (start r + moved)) c w (f_ret s) false)
            else Next (FState r c w (f_ret s) (f_full s))
        | Abort => Crash s
        | Timeout => Stall s
        end
  end.

(** The call [io_hdlr(fd, r->buff + r->end, len, &r->end, hdlr_ctx, additional)],
    followed by the pusher. *)
Definition fill_call {C : Type} (fd : Z) (io_hdlr : io_handler_fn_t C)
    (data_pusher : option (data_push_fn_t C)) (s : fstate C)
    (len additional : Z) (full : bool) : step (fstate C) :=
  let r := f_ring s in
  match io_hdlr fd (ptr_add (buff r) (end_ r)) len (end_ r) (f_ctx s) additional (f_world s) with
  | Done h =>
      fill_push data_pusher
        (FState (set_end (set_buff r (store_at (buff r) (end_ r) (h_buff h))) (h_tracker h))
                (h_ctx h) (h_world h) (h_ret h) full)
  | Abort => Crash s
  | Timeout => Stall s
  end.

Definition fill_body {C : Type} (fd : Z) (io_hdlr : io_handler_fn_t C)
    (data_pusher : option (data_push_fn_t C)) (s : fstate C) : step (fstate C) :=
  let r := f_ring s in
  if wraped r then
    let full := if start r =? end_ r then true else f_full s in
    fill_call fd io_hdlr data_pusher s (start r - end_ r) 0 full
  else
    if sz r =? end_ r then
      Next (FState (set_wraped (set_end r 0) true) (f_ctx s) (f_world s) (f_ret s) (f_full s))
    else fill_call fd io_hdlr data_pusher s (sz r - end_ r) (start r) (f_full s).

Definition fill_ring {C : Type} (fuel : nat) (fd : Z) (r : ring_buff_t)
    (io_hdlr : io_handler_fn_t C) (data_pusher : option (data_push_fn_t C))
    (hdlr_ctx : C) (w : world) : exit * fstate C :=
  do_while fuel (fill_body fd io_hdlr data_pusher)
    (fun s => (CONN_IO_OK =? f_ret s) || f_full s)
    (FState r hdlr_ctx w CONN_IO_OK false).

(** ** Pointers to a tracker *)

(** A pointer to an [ssize_t] object: the value of the object and how
    far (in elements) the pointer has been moved away from it. *)
Record ssize_ptr : Type := SsizePtr { pointee : Z; displacement : Z }.

Definition ptr_to (v : Z) : ssize_ptr := SsizePtr v 0.

(** [p += n] on the pointer itself. *)
Definition ptr_advance (p : ssize_ptr) (n : Z) : ssize_ptr :=
  SsizePtr (pointee p) (displacement p + n).

(** [*p += n]; a pointer moved off its object has no object to update. *)
Definition add_through (p : ssize_ptr) (n : Z) : outcome ssize_ptr :=
  if displacement p =? 0 then Done (SsizePtr (pointee p + n) 0) else Abort.

Definition deref (p : ptr) : list Z :=
  match p with
  | None => []
  | Some l => l
  end.

(** ** The socket handlers *)

(** io.c:730-740.  The [else] branch is [start += sent]: [start] is the
    pointer parameter, so the statement moves the parameter. *)
Definition send_bl_batch {C : Type} : io_handler_fn_t C :=
  fun fd buff len start_v ignore ignore_ w =>
    let start := ptr_to start_v in
    let '(a, w') := sys_call (EvSend fd (firstn (Z.to_nat len) buff)) w in
    let sent := rv a in
    if sent <? 0 then
      if (errno a =? EAGAIN) || (errno a =? EWOULDBLOCK)
      then Done (HRes CONN_IO_OK_EXHAUSTED buff (pointee start) ignore w')
      else if (errno a =? ECONNRESET) || (errno a =? ENOTCONN) || (errno a =? EPIPE)
      then Done (HRes CONN_KILL buff (pointee start) ignore w')
      else Done (HRes CONN_UNKNOWN_ERR buff (pointee start) ignore w')
    else
      let start := ptr_advance start sent in
      Done (HRes CONN_IO_OK buff (pointee start) ignore w').

(** io.c:765-778.  The last branch is [end += rcvd], on the pointer
    parameter as well. *)
Definition recv_batch {C : Type} : io_handler_fn_t C :=
  fun fd buff max_sz end_v ignore ignore_ w =>
    let end_p := ptr_to end_v in
    let '(a, w') := sys_call (EvRecv fd max_sz) w in
    let rcvd := rv a in
    let buff' := kernel_store buff (data a) rcvd in
    if rcvd =? 0 then Done (HRes CONN_KILL buff' (pointee end_p) ignore w')
    else if rcvd <? 0 then
      if (errno a =? EAGAIN) || (errno a =? EWOULDBLOCK)
      then Done (HRes CONN_IO_OK_EXHAUSTED buff' (pointee end_p) ignore w')
      else if (errno a =? ECONNREFUSED) || (errno a =? ENOTCONN)
      then Done (HRes CONN_KILL buff' (pointee end_p) ignore w')
      else Done (HRes CONN_UNKNOWN_ERR buff' (pointee end_p) ignore w')
    else
      let end_p := ptr_advance end_p rcvd in
      Done (HRes CONN_IO_OK buff' (pointee end_p) ignore w').

(** ** Packets on their way from the tun device to a connection *)

(** io.c:44-47. *)
Record tun_pkt_buff_t : Type := TunPktBuff {
  tpb_buff : list Z;
  capacity : Z;
  len : Z;
  current_pkt_len : Z
}.

(** io.c:1073-1077. *)
Record conn_bound_pkt_t : Type := ConnBoundPkt {
  pkt_buff : tun_pkt_buff_t;
  dest_fd : Z;
  already_written : Z
}.

(** io.c:1081-1096. *)
Definition read_from_tun_buff : io_handler_fn_t conn_bound_pkt_t :=
  fun fd to_buff cap end_v pkt additional_capacity w =>
    let available_content := len (pkt_buff pkt) - already_written pkt in
    let to_write := if cap <? available_content then cap else available_content in
    if (already_written pkt =? 0) && (to_write + additional_capacity <? len (pkt_buff pkt))
    then Done (HRes CONN_IO_OK_NOT_ENOUGH_SPACE to_buff end_v pkt w)
    else
      let* to_buff' :=
        memcpy to_buff (ptr_add (tpb_buff (pkt_buff pkt)) (already_written pkt)) to_write in
      let* end_p := add_through (ptr_to end_v) to_write in
      let pkt' := ConnBoundPkt (pkt_buff pkt) (dest_fd pkt) (already_written pkt + to_write) in
      Done (HRes (if already_written pkt' =? len (pkt_buff pkt)
                  then CONN_IO_OK_EXHAUSTED else CONN_IO_OK)
                 to_buff' (pointee end_p) pkt' w).

(** io.c:1098-1109. *)
Definition write_passthru_to_conn : data_push_fn_t conn_bound_pkt_t :=
  fun b1 len1 b2 len2 pkt w =>
    let written := 0 in
    let* (written, w) :=
      if 0 <? len1 then
        let* h := send_bl_batch (dest_fd pkt) (deref b1) len1 written tt 0 w in
        Done (h_tracker h, h_world h)
      else Done (written, w) in
    let* (written, w) :=
      if (written =? len1) && (0 <? len2) then
        let* h := send_bl_batch (dest_fd pkt) (deref b2) len2 written tt 0 w in
        Done (h_tracker h, h_world h)
      else Done (written, w) in
    Done (written, pkt, w).

(** ** Packets on their way to the tun backlog *)

(** io.c:834-837; [backlog] is the ring [ctx->tun_tx] points to. *)
Record tun_tx_t : Type := TunTx { backlog : ring_buff_t; tt_fd : Z }.

(** io.c:841-844. *)
Record tun_write_buff_t : Type := TunWriteBuff {
  twb_b1 : ptr;
  twb_b2 : ptr;
  twb_len1 : Z;
  twb_len2 : Z
}.

(** io.c:848-857: the target bytes and the three objects written
    through the pointer arguments. *)
Definition playback_tun_write_single_src_buf (playback_target_buff : list Z)
    (max_playback_len : Z) (actual_playback_len : ssize_ptr) (src_buf : ptr)
    (src_len : Z) : outcome (list Z * Z * ssize_ptr * Z) :=
  let write_sz := if src_len <=? max_playback_len then src_len else max_playback_len in
  if 0 <? write_sz then
    let* src := of_option src_buf in
    let* target := memcpy playback_target_buff src write_sz in
    let* actual := add_through actual_playback_len write_sz in
    Done (target, max_playback_len - write_sz, actual, src_len - write_sz)
  else Done (playback_target_buff, max_playback_len, actual_playback_len, src_len).

(** io.c:859-871. *)
Definition playback_tun_write_buf : io_handler_fn_t tun_write_buff_t :=
  fun ignore_fd playback_target_buff max_playback_len actual_v b promised_future_playback_len w =>
    if max_playback_len + promised_future_playback_len <? twb_len1 b + twb_len2 b
    then Done (HRes CONN_IO_OK_EXHAUSTED playback_target_buff actual_v b w)
    else
      let actual := ptr_to actual_v in
      let* (target1, max1, actual1, l1) :=
        if 0 <? twb_len1 b
        then playback_tun_write_single_src_buf playback_target_buff max_playback_len
               actual (twb_b1 b) (twb_len1 b)
        else Done (playback_target_buff, max_playback_len, actual, twb_len1 b) in
      let b' := TunWriteBuff (twb_b1 b) (twb_b2 b) l1 (twb_len2 b) in
      if (0 <? twb_len1 b) && (0 <? l1)
      then Done (HRes CONN_IO_OK target1 (pointee actual1) b' w)
      else
        let* (target2, max2, actual2, l2) :=
          if 0 <? twb_len2 b'
          then playback_tun_write_single_src_buf target1 max1 actual1 (twb_b2 b') (twb_len2 b')
          else Done (target1, max1, actual1, twb_len2 b') in
        let b'' := TunWriteBuff (twb_b1 b') (twb_b2 b') (twb_len1 b') l2 in
        if (0 <? twb_len2 b') && (0 <? l2)
        then Done (HRes CONN_IO_OK target2 (pointee actual2) b'' w)
        else Done (HRes CONN_IO_OK_EXHAUSTED target2 (pointee actual2) b'' w).

(** io.c:873-884: the bytes taken, the backlog, [*full] and the
    environment. *)
Definition push_pkt_to_tun_backlog_ring (fuel : nat) (tun_tx : tun_tx_t)
    (b1 : ptr) (len1 : Z) (b2 : ptr) (len2 : Z) (full : bool) (w : world)
    : outcome (Z * tun_tx_t * bool * world) :=
  let tun_write_buf := TunWriteBuff b1 b2 len1 len2 in
  match fill_ring fuel (-1) (backlog tun_tx) playback_tun_write_buf None tun_write_buf w with
  | (Returned, s) =>
      let tun_tx' := TunTx (f_ring s) (tt_fd tun_tx) in
      let total := len1 + len2 in
      let remaining := twb_len1 (f_ctx s) + twb_len2 (f_ctx s) in
      if negb (remaining =? 0) then
        let* _ := assert (remaining =? total) in
        Done (0, tun_tx', true, f_world s)
      else Done (total, tun_tx', full, f_world s)
  | (Aborted, _) => Abort
  | (OutOfFuel, _) => Timeout
  end.

(** ** The L3 length field (io.c:905-920) *)

(** A [uint16_t] read from two bytes, as the host orders them. *)
Definition load_u16 (host_le : bool) (p : ptr) (i : nat) : outcome Z :=
  let* first := load_u8 p i in
  let* second := load_u8 p (S i) in
  Done (if host_le then first + 256 * second else 256 * first + second).

Definition ntohs (host_le : bool) (x : Z) : Z :=
  if host_le then (x mod 256) * 256 + x / 256 else x.

Definition parse_l3_packet_len (host_le : bool) (b1 : ptr) (len1 : Z)
    (b2 : ptr) (len2 : Z) : outcome Z :=
  match b1, b2 with
  | None, None => Done 0
  | _, _ =>
      let* pkt_len :=
        if 4 <=? len1 then load_u16 host_le b1 2
        else if (len1 =? 3) && (1 <=? len2) then
          let* hi := load_u8 b1 2 in
          let* lo := load_u8 b2 0 in
          Done (Z.lor (Z.shiftl hi 8 mod 65536) lo)
        else if (len1 <=? 2) && (4 <=? len1 + len2) then load_u16 host_le b2 0
        else Done 0 in
      Done (ntohs host_le pkt_len)
  end.

(** ** Sockets and the IO context (io.c:51-110) *)

Inductive sock_typ : Type := lstn | conn | tun.

Record conn_data : Type := ConnData {
  c_peer : list Z;
  c_af : Z;
  c_outbound : Z;
  c_rx : ring_buff_t;
  c_tx : ring_buff_t
}.

Record tun_data : Type := TunData {
  t_tx : ring_buff_t;
  t_r_buff : tun_pkt_buff_t;
  t_w_buff : tun_pkt_buff_t
}.

(** The union [d]: the zero bytes [calloc] left, or the member last
    written. *)
Inductive sock_d : Type :=
| DZero
| DConn (c : conn_data)
| DTun (t : tun_data).

Record io_sock_t : Type := IoSock { fd : Z; typ : sock_typ; d : sock_d }.

Definition zero_ring : ring_buff_t := Ring [] 0 0 0 false.
Definition zero_pkt_buff : tun_pkt_buff_t := TunPktBuff [] 0 0 0.

(** Reading [d.conn] and [d.tun] as a whole, on a socket whose union
    holds that member or the zeros of [calloc]: the functions for
    connections are called on connection sockets, those for the tun
    device on the tun socket.  Read as a whole through the other member,
    the bytes would be those of pointers and padding, which the model
    does not hold: [Abort].  The one place where the source reaches
    through the other member, [&tun->d.conn.tx] in [tun_io], is
    modelled field by field ([tun_drain_body]). *)
Definition d_conn (u : sock_d) : outcome conn_data :=
  match u with
  | DZero => Done (ConnData (repeat 0 16) 0 0 zero_ring zero_ring)
  | DConn c => Done c
  | DTun _ => Abort
  end.

Definition d_tun (u : sock_d) : outcome tun_data :=
  match u with
  | DZero => Done (TunData zero_ring zero_pkt_buff zero_pkt_buff)
  | DTun t => Done t
  | DConn _ => Abort
  end.

(** The ring members of a socket, and pointers to them
    ([&sock->d.conn.tx] is [(sock, conn_tx)]). *)
Inductive ring_member : Type := conn_rx | conn_tx | tun_tx_member.

Definition ring_ptr : Type := (Z * ring_member)%type.

(** Where the ring members lie inside the union [d] when pointers and
    [ssize_t] have 8 bytes and [int] has 4 (io.c:38-42, 62-73): a ring
    takes 40 bytes; [d.conn] starts with 16 address bytes and two [int]s. *)
Definition sizeof_ring_buff_t : Z := 40.

Definition ring_member_offset (m : ring_member) : Z :=
  match m with
  | conn_rx => 24
  | conn_tx => 24 + sizeof_ring_buff_t
  | tun_tx_member => 0
  end.

Record io_ctr_t : Type := IoCtr { ctr_b : Z; ctr_p : Z; drop_b : Z; drop_p : Z }.

(** The fields of [io_ctx_s] the modelled functions use.  [sockets] holds
    the socket objects of [all_sockets] by address; [live_sockets] maps a
    peer address to the address of its socket. *)
Record io_ctx_t : Type := IoCtx {
  sockets : gmap Z io_sock_t;
  live_sockets : gmap (list Z) Z;
  self_v4 : list Z;
  self_v6 : list Z;
  using_af : Z;
  tun_tx : option ring_ptr;
  c_world_tx : io_ctr_t
}.

Definition set_sockets (ctx : io_ctx_t) (m : gmap Z io_sock_t) : io_ctx_t :=
  IoCtx m (live_sockets ctx) (self_v4 ctx) (self_v6 ctx) (using_af ctx) (tun_tx ctx)
    (c_world_tx ctx).
Definition set_tun_tx (ctx : io_ctx_t) (p : option ring_ptr) : io_ctx_t :=
  IoCtx (sockets ctx) (live_sockets ctx) (self_v4 ctx) (self_v6 ctx) (using_af ctx) p
    (c_world_tx ctx).
Definition set_c_world_tx (ctx : io_ctx_t) (c : io_ctr_t) : io_ctx_t :=
  IoCtx (sockets ctx) (live_sockets ctx) (self_v4 ctx) (self_v6 ctx) (using_af ctx)
    (tun_tx ctx) c.

Definition load_sock (ctx : io_ctx_t) (p : Z) : outcome io_sock_t :=
  of_option (sockets ctx !! p).

Definition load_ring (ctx : io_ctx_t) (p : ring_ptr) : outcome ring_buff_t :=
  let* sock := load_sock ctx (fst p) in
  match snd p with
  | conn_rx => let* c := d_conn (d sock) in Done (c_rx c)
  | conn_tx => let* c := d_conn (d sock) in Done (c_tx c)
  | tun_tx_member => let* t := d_tun (d sock) in Done (t_tx t)
  end.

Definition store_ring (ctx : io_ctx_t) (p : ring_ptr) (r : ring_buff_t) : outcome io_ctx_t :=
  let* sock := load_sock ctx (fst p) in
  let* u :=
    match snd p with
    | conn_rx =>
        let* c := d_conn (d sock) in
        Done (DConn (ConnData (c_peer c) (c_af c) (c_outbound c) r (c_tx c)))
    | conn_tx =>
        let* c := d_conn (d sock) in
        Done (DConn (ConnData (c_peer c) (c_af c) (c_outbound c) (c_rx c) r))
    | tun_tx_member =>
        let* t := d_tun (d sock) in
        Done (DTun (TunData r (t_r_buff t) (t_w_buff t)))
    end in
  Done (set_sockets ctx (<[fst p := IoSock (fd sock) (typ sock) u]> (sockets ctx))).

Definition uint64 (x : Z) : Z := x mod 2 ^ 64.

(** [ctx->c_world_tx.drop_p++; ctx->c_world_tx.drop_b += pkt_buff->len;] *)
Definition count_drop (ctx : io_ctx_t) (pkt_buff : tun_pkt_buff_t) : io_ctx_t :=
  let c := c_world_tx ctx in
  set_c_world_tx ctx
    (IoCtr (ctr_b c) (ctr_p c) (uint64 (drop_b c + len pkt_buff)) (uint64 (drop_p c + 1))).

(** io.c:1111-1129; [conn] is the address of the destination socket. *)
Definition write_to_conn (fuel : nat) (ctx : io_ctx_t) (conn : option Z)
    (pkt_buff : tun_pkt_buff_t) (w : world) : outcome (io_ctx_t * world) :=
  match conn with
  | None => Done (count_drop ctx pkt_buff, w)
  | Some c =>
      let* sock := load_sock ctx c in
      let* tx := load_ring ctx (c, conn_tx) in
      let pkt := ConnBoundPkt pkt_buff (fd sock) 0 in
      match fill_ring fuel (-1) tx read_from_tun_buff (Some write_passthru_to_conn) pkt w with
      | (Returned, s) =>
          let* ctx' := store_ring ctx (c, conn_tx) (f_ring s) in
          if CONN_IO_OK_NOT_ENOUGH_SPACE =? f_ret s
          then Done (count_drop ctx' pkt_buff, f_world s)
          else
            let* _ := assert (f_ret s =? CONN_IO_OK_EXHAUSTED) in
            Done (ctx', f_world s)
      | (Aborted, _) => Abort
      | (OutOfFuel, _) => Timeout
      end
  end.

(** ** The tun socket *)

Definition set_sock_d (ctx : io_ctx_t) (p : Z) (sock : io_sock_t) (u : sock_d) : io_ctx_t :=
  set_sockets ctx (<[p := IoSock (fd sock) (typ sock) u]> (sockets ctx)).

(** io.c:285-309, for the socket object at address [self]: the return
    value, the socket, the context and the environment.  A freed block
    is left as the empty block. *)
Definition init_tun_tx_backlog_ring (self : Z) (sock : io_sock_t) (ctx : io_ctx_t)
    (w : world) : outcome (Z * io_sock_t * io_ctx_t * world) :=
  let* t := d_tun (d sock) in
  let '(rc, ring, w) := init_backlog_ring (t_tx t) TUN_RING_SZ w in
  let t := TunData ring (t_r_buff t) (t_w_buff t) in
  if negb (rc =? 0) then Done (-1, IoSock (fd sock) (typ sock) (DTun t), ctx, w)
  else
    let '(w_block, w) := sys_alloc INITIAL_TUN_PKT_BUFF_SZ w in
    match w_block with
    | None =>
        let t := TunData (set_buff (t_tx t) []) (t_r_buff t)
                   (TunPktBuff [] (capacity (t_w_buff t)) (len (t_w_buff t))
                      (current_pkt_len (t_w_buff t))) in
        Done (-1, IoSock (fd sock) (typ sock) (DTun t), ctx, w)
    | Some w_bytes =>
        let '(r_block, w) := sys_alloc MAX_L3_PKT_SZ w in
        match r_block with
        | None =>
            let t := TunData (set_buff (t_tx t) [])
                       (TunPktBuff [] (capacity (t_r_buff t)) (len (t_r_buff t))
                          (current_pkt_len (t_r_buff t)))
                       (TunPktBuff [] (capacity (t_w_buff t)) (len (t_w_buff t))
                          (current_pkt_len (t_w_buff t))) in
            Done (-1, IoSock (fd sock) (typ sock) (DTun t), ctx, w)
        | Some r_bytes =>
            let t := TunData (t_tx t)
                       (TunPktBuff r_bytes INITIAL_TUN_PKT_BUFF_SZ 0 0)
                       (TunPktBuff w_bytes INITIAL_TUN_PKT_BUFF_SZ 0 0) in
            Done (0, IoSock (fd sock) (typ sock) (DTun t),
                  set_tun_tx ctx (Some (self, tun_tx_member)), w)
        end
    end.

(** io.c:224-270 for the tun socket (io.c:375), when [fcntl], [calloc]
    and [epoll_ctl] succeed: the zeroed object at address [self] is
    initialised and linked into [all_sockets]. *)
Definition add_tun_sock (self fd_ : Z) (ctx : io_ctx_t) (w : world)
    : outcome (Z * io_ctx_t * world) :=
  let* (rc, sock, ctx, w) := init_tun_tx_backlog_ring self (IoSock fd_ tun DZero) ctx w in
  if negb (rc =? 0) then Done (-1, ctx, w)
  else Done (0, set_sockets ctx (<[self := sock]> (sockets ctx)), w).

(** io.c:1131-1162. *)
Record rstate : Type := RState {
  rs_ctx : io_ctx_t;
  rs_world : world;
  rs_nw_addr : list Z;
  rs_prev_ip_v : Z
}.

(** One run of the loop body, for the tun socket at address [tun]. *)
Definition read_tun_body (fuel : nat) (tun : Z) (s : rstate) : outcome (step rstate) :=
  let ctx := rs_ctx s in
  let* sock := load_sock ctx tun in
  let* t := d_tun (d sock) in
  let pkt_buff := t_r_buff t in
  let '(a, w) := sys_read_tun (fd sock) (capacity pkt_buff) (rs_world s) in
  let pkt_buff :=
    TunPktBuff (kernel_store (tpb_buff pkt_buff) (data a) (rv a)) (capacity pkt_buff)
      (rv a) (current_pkt_len pkt_buff) in
  let ctx := set_sock_d ctx tun sock (DTun (TunData (t_tx t) pkt_buff (t_w_buff t))) in
  if len pkt_buff <? 0 then
    let w :=
      if negb (errno a =? EAGAIN) && negb (errno a =? EWOULDBLOCK)
      then emit (EvLog LogUnexpectedTunReadError) w else w in
    Done (Break (RState ctx w (rs_nw_addr s) (rs_prev_ip_v s)))
  else
    let* octet := load_u8 (Some (tpb_buff pkt_buff)) 0 in
    let ip_v := Z.land octet 240 in
    let '(nw_addr, prev_ip_v) :=
      if ip_v <? rs_prev_ip_v s then (repeat 0 16, ip_v)
      else (rs_nw_addr s, rs_prev_ip_v s) in
    if ip_v =? 64 then
      let* _ := assert (20 <? len pkt_buff) in
      let* nw_addr := memcpy nw_addr (ptr_add (tpb_buff pkt_buff) 16) 4 in
      let dest_sock := live_sockets ctx !! nw_addr in
      let* (ctx, w) := write_to_conn fuel ctx dest_sock pkt_buff w in
      (* no [break]: control runs into [case 0x60] and [default] *)
      let w := emit (EvLog (LogUnknownIpVersion ip_v)) w in
      Done (Next (RState ctx w nw_addr prev_ip_v))
    else
      let w := emit (EvLog (LogUnknownIpVersion ip_v)) w in
      Done (Next (RState ctx w nw_addr prev_ip_v)).

Definition read_tun_step (fuel : nat) (tun : Z) (s : rstate) : step rstate :=
  match read_tun_body fuel tun s with
  | Done st => st
  | Abort => Crash s
  | Timeout => Stall s
  end.

(** [nw_addr0] is what the 16 bytes of the local [nw_addr] hold when the
    function is entered. *)
Definition read_tun_and_xmit (fuel : nat) (tun : Z) (ctx : io_ctx_t)
    (nw_addr0 : list Z) (w : world) : exit * rstate :=
  do_while fuel (read_tun_step fuel tun) (fun _ => true) (RState ctx w nw_addr0 0).

(** io.c:999-1014. *)
Definition expand_tun_wbuff_if_necessary (wbuff : tun_pkt_buff_t)
    (additional_space_required : Z) (w : world) : Z * tun_pkt_buff_t * world :=
  if capacity wbuff - len wbuff <? additional_space_required then
    let new_cap := capacity wbuff * 2 in
    let new_cap :=
      if new_cap <? additional_space_required + len wbuff
      then additional_space_required + len wbuff else new_cap in
    match sys_alloc new_cap w with
    | (None, w') => (-1, wbuff, emit (EvLog LogCouldNotAllocate) w')
    | (Some block, w') =>
        (0, TunPktBuff (tpb_buff wbuff ++ skipn (length (tpb_buff wbuff)) block) new_cap
              (len wbuff) (current_pkt_len wbuff), w')
    end
  else (0, wbuff, w).

(** io.c:1016-1071. *)
Record wstate : Type := WState {
  wt_buff : list Z;
  wt_len : Z;
  wt_wbuff : tun_pkt_buff_t;
  wt_ret : Z;
  wt_pkt_len : Z;
  wt_world : world
}.

(** io.c:1060-1067, after a [write] or [writev] answered [a]. *)
Definition write_to_tun_check (written : Z) (a : sys_ans) (s : wstate) : wstate :=
  if written <? 0 then
    if (errno a =? EAGAIN) || (errno a =? EWOULDBLOCK)
    then WState (wt_buff s) (wt_len s) (wt_wbuff s) CONN_IO_OK_EXHAUSTED (wt_pkt_len s)
           (wt_world s)
    else WState (wt_buff s) (wt_len s) (wt_wbuff s) CONN_UNKNOWN_ERR (wt_pkt_len s)
           (emit (EvLog LogFailedWriteToTunDev) (wt_world s))
  else s.

Definition write_to_tun_body (host_le : bool) (fd : Z) (s : wstate) : outcome (step wstate) :=
  let wbuff := wt_wbuff s in
  let buff := wt_buff s in
  let len_ := wt_len s in
  if current_pkt_len wbuff =? 0 then
    let* pkt_len := parse_l3_packet_len host_le (Some buff) len_ None 0 in
    if 0 <? pkt_len then
      if pkt_len <=? len_ then
        let '(a, w) := sys_call (EvWrite fd (firstn (Z.to_nat pkt_len) buff)) (wt_world s) in
        let written := rv a in
        let* (buff, len_) :=
          if 0 <? written then
            let* _ := assert (written =? pkt_len) in
            Done (ptr_add buff written, len_ - written)
          else Done (buff, len_) in
        Done (Next (write_to_tun_check written a
                      (WState buff len_ wbuff (wt_ret s) pkt_len w)))
      else
        let '(rc, wbuff, w) := expand_tun_wbuff_if_necessary wbuff pkt_len (wt_world s) in
        if negb (rc =? 0)
        then Done (Break (WState buff len_ wbuff CONN_UNKNOWN_ERR pkt_len w))
        else
          let* bytes := memcpy (tpb_buff wbuff) buff len_ in
          let wbuff := TunPktBuff bytes (capacity wbuff) (len wbuff + len_) pkt_len in
          Done (Next (WState buff 0 wbuff (wt_ret s) pkt_len w))
    else Done (Next (WState buff len_ wbuff (wt_ret s) pkt_len (wt_world s)))
  else
    let deficit := current_pkt_len wbuff - len wbuff in
    if deficit <=? len_ then
      let '(a, w) :=
        sys_call (EvWritev fd (firstn (Z.to_nat (len wbuff)) (tpb_buff wbuff))
                    (firstn (Z.to_nat deficit) buff)) (wt_world s) in
      let written := rv a in
      let* (buff, len_, wbuff) :=
        if 0 <? written then
          let* _ := assert (written =? len wbuff + deficit) in
          Done (ptr_add buff deficit, len_ - deficit,
                TunPktBuff (tpb_buff wbuff) (capacity wbuff) 0 0)
        else Done (buff, len_, wbuff) in
      Done (Next (write_to_tun_check written a
                    (WState buff len_ wbuff (wt_ret s) (wt_pkt_len s) w)))
    else
      let* tail := memcpy (ptr_add (tpb_buff wbuff) (len wbuff)) buff len_ in
      let wbuff :=
        TunPktBuff (store_at (tpb_buff wbuff) (len wbuff) tail) (capacity wbuff)
          (len wbuff + len_) (current_pkt_len wbuff) in
      Done (Next (WState buff 0 wbuff (wt_ret s) (wt_pkt_len s) (wt_world s))).

Definition write_to_tun_step (host_le : bool) (fd : Z) (s : wstate) : step wstate :=
  match write_to_tun_body host_le fd s with
  | Done st => st
  | Abort => Crash s
  | Timeout => Stall s
  end.

(** [pkt_len0] is what the local [pkt_len] holds when the function is
    entered; the function never stores through [start]. *)
Definition write_to_tun (host_le : bool) (fuel : nat) (pkt_len0 : Z)
    : io_handler_fn_t tun_pkt_buff_t :=
  fun fd buff len_ start_v wbuff additional_len w =>
    match do_while fuel (write_to_tun_step host_le fd)
            (fun s => (wt_ret s =? CONN_IO_OK) && (0 <? wt_len s) && (0 <? wt_pkt_len s))
            (WState buff len_ wbuff CONN_IO_OK pkt_len0 w) with
    | (Returned, s) => Done (HRes (wt_ret s) buff start_v (wt_wbuff s) (wt_world s))
    | (Aborted, _) => Abort
    | (OutOfFuel, _) => Timeout
    end.

(** ** The ring [tun_io] drains (io.c:1166)

    [tun_io] hands [&tun->d.conn.tx] to [drain_ring], on the socket
    whose union holds [d.tun].  With pointers and [ssize_t] of 8 bytes
    and [int] of 4 (the layout of [ring_member_offset]), [d.conn.tx]
    starts 64 bytes into the union, where the last field of
    [d.tun.r_buff] lies, and its fields lie over those of the two
    scratch buffers:
    - [buff] over [r_buff.current_pkt_len],
    - [sz] over [w_buff.buff],
    - [start] over [w_buff.capacity],
    - [end] over [w_buff.len],
    - [wraped] over the first four bytes of [w_buff.current_pkt_len]. *)

Inductive ring_field : Type := rf_buff | rf_sz | rf_start | rf_end | rf_wraped.
Inductive pkt_buff_field : Type := pf_buff | pf_capacity | pf_len | pf_current_pkt_len.

(** io.c:38-47: the byte at which a field starts inside its struct. *)
Definition ring_field_offset (f : ring_field) : Z :=
  match f with
  | rf_buff => 0
  | rf_sz => 8
  | rf_start => 16
  | rf_end => 24
  | rf_wraped => 32
  end.

Definition pkt_buff_field_offset (f : pkt_buff_field) : Z :=
  match f with
  | pf_buff => 0
  | pf_capacity => 8
  | pf_len => 16
  | pf_current_pkt_len => 24
  end.

Definition sizeof_tun_pkt_buff_t : Z := 32.

(** io.c:68-71: [d.tun] is a ring followed by the two scratch buffers. *)
Definition tun_r_buff_offset : Z := sizeof_ring_buff_t.
Definition tun_w_buff_offset : Z := sizeof_ring_buff_t + sizeof_tun_pkt_buff_t.

Definition sint64 (x : Z) : Z :=
  let u := x mod 2 ^ 64 in if u <? 2 ^ 63 then u else u - 2 ^ 64.

(** The [int] that lies over the first four bytes of the [ssize_t] [x],
    and [x] after 0 was stored into that [int]. *)
Definition first_int (host_le : bool) (x : Z) : Z :=
  let u := x mod 2 ^ 64 in if host_le then u mod 2 ^ 32 else u / 2 ^ 32.

Definition clear_first_int (host_le : bool) (x : Z) : Z :=
  let u := x mod 2 ^ 64 in sint64 (if host_le then u - u mod 2 ^ 32 else u mod 2 ^ 32).

Record tdstate : Type := TDState {
  td_tun : tun_data;
  td_world : world;
  td_ret : Z
}.

(** The call [io_hdlr(fd, r->buff + r->start, len, &r->start, hdlr_ctx,
    additional)] of [drain_ring] with [r = &tun->d.conn.tx],
    [io_hdlr = write_to_tun] and [hdlr_ctx = &tun->d.tun.w_buff].
    [r->buff + r->start] is made from the integers
    [r_buff.current_pkt_len] and [w_buff.capacity] and points into no
    block: no byte can be read behind it.  [&r->start] is the address of
    [w_buff.capacity]; [write_to_tun] never stores through it, so what
    the call leaves in the scratch buffer is the buffer it returns. *)
Definition tun_drain_call (host_le : bool) (fuel : nat) (pkt_len0 : Z) (fd : Z)
    (s : tdstate) (len_ additional : Z) : step tdstate :=
  let t := td_tun s in
  match write_to_tun host_le fuel pkt_len0 fd [] len_ (capacity (t_w_buff t)) (t_w_buff t)
          additional (td_world s) with
  | Done h => Next (TDState (TunData (t_tx t) (t_r_buff t) (h_ctx h)) (h_world h) (h_ret h))
  | Abort => Crash s
  | Timeout => Stall s
  end.

(** The body of the loop of [drain_ring] (io.c:750-760) with every field
    of [r] read and written where it lies in [d.tun].  [w_buff_at] is
    the address of the block [w_buff.buff] points to, which [r->sz]
    reads as an integer. *)
Definition tun_drain_body (host_le : bool) (fuel : nat) (pkt_len0 : Z) (w_buff_at : Z)
    (fd : Z) (s : tdstate) : step tdstate :=
  let t := td_tun s in
  let wb := t_w_buff t in
  if negb (first_int host_le (current_pkt_len wb) =? 0) then
    if w_buff_at =? capacity wb then
      Next (TDState
              (TunData (t_tx t) (t_r_buff t)
                 (TunPktBuff (tpb_buff wb) 0 (len wb)
                    (clear_first_int host_le (current_pkt_len wb))))
              (td_world s) (td_ret s))
    else tun_drain_call host_le fuel pkt_len0 fd s (w_buff_at - capacity wb) (len wb)
  else
    if len wb =? capacity wb then Break s
    else tun_drain_call host_le fuel pkt_len0 fd s (len wb - capacity wb) 0.

(** [drain_ring(tun->fd, &tun->d.conn.tx, write_to_tun, &tun->d.tun.w_buff)]. *)
Definition tun_drain_ring (host_le : bool) (fuel : nat) (pkt_len0 : Z) (w_buff_at : Z)
    (fd : Z) (t : tun_data) (w : world) : exit * tdstate :=
  do_while fuel (tun_drain_body host_le fuel pkt_len0 w_buff_at fd)
    (fun s => CONN_IO_OK =? td_ret s) (TDState t w CONN_IO_OK).

(** io.c:1164-1172, for the tun socket at address [tun]. *)
Definition tun_io (host_le : bool) (fuel : nat) (pkt_len0 : Z) (nw_addr0 : list Z)
    (w_buff_at : Z) (event : Z) (tun : Z) (ctx : io_ctx_t) (w : world)
    : outcome (io_ctx_t * world) :=
  let* (ctx, w) :=
    if negb (Z.lor event EPOLLOUT =? 0) then
      let* sock := load_sock ctx tun in
      let* t := d_tun (d sock) in
      match tun_drain_ring host_le fuel pkt_len0 w_buff_at (fd sock) t w with
      | (Returned, s) =>
          let ctx := set_sock_d ctx tun sock (DTun (td_tun s)) in
          let w :=
            if CONN_UNKNOWN_ERR =? td_ret s
            then emit (EvLog (LogTunWriteFailed (fd sock))) (td_world s) else td_world s in
          Done (ctx, w)
      | (Aborted, _) => Abort
      | (OutOfFuel, _) => Timeout
      end
    else Done (ctx, w) in
  if negb (Z.lor event EPOLLIN =? 0) then
    match read_tun_and_xmit fuel tun ctx nw_addr0 w with
    | (Returned, s) => Done (rs_ctx s, rs_world s)
    | (Aborted, _) => Abort
    | (OutOfFuel, _) => Timeout
    end
  else Done (ctx, w).

(** ** Peer reconciliation: the scan of the resolved addresses *)

(** What [getaddrinfo] resolved: the family and the bytes of
    [sin_addr.s_addr] or [sin6_addr.s6_addr]. *)
Record addrinfo : Type := AddrInfo { ai_family : Z; ai_addr : list Z }.

(** io.c:79-84. *)
Record passive_peer_t : Type := PassivePeer { addr_info : addrinfo; addr : list Z }.

(** [sizeof(passive_peer_t)] where pointers have 8 bytes: two list
    links, [addr_info], 16 address bytes and 48 characters. *)
Definition sizeof_passive_peer_t : Z := 88.

(** [memcmp(a, b, n)]: the sign of the first difference. *)
Fixpoint memcmp (a b : list Z) (n : nat) : outcome Z :=
  match n with
  | O => Done 0
  | S n' =>
      match a, b with
      | x :: a', y :: b' =>
          if x <? y then Done (-1) else if y <? x then Done 1 else memcmp a' b' n'
      | _, _ => Abort
      end
  end.

(** Modelled from the spec: the table type [batab_t] and its operations
    ([ba_htab.h]) are not among the sources.  The spec (section 4.8) has
    the scan of [reset_peers] insert into a scratch table keyed by the
    network address, which removes duplicates: the table is a finite
    map from the 16 address bytes, [batab_get] finds what [batab_put]
    stored under them, and [batab_put] succeeds.  io.c:525 creates this
    table with key offset 0 where the other two tables are created with
    the offset of the address field; what the library makes of that
    offset cannot be read off the sources.  What is proved about this
    table below is about a capture into the empty table, or holds
    whichever key an entry is filed under. *)
Definition batab_get (tab : gmap (list Z) passive_peer_t) (key : list Z)
    : option passive_peer_t :=
  tab !! key.

Definition batab_put (tab : gmap (list Z) passive_peer_t) (key : list Z)
    (pp : passive_peer_t) : gmap (list Z) passive_peer_t :=
  <[key := pp]> tab.

(** io.c:497-513, with [create_passive_peer] (io.c:479-489); [r] is the
    last address of its resolution, as the assertion of io.c:482
    demands. *)
Definition capture_passive_peer (tab : gmap (list Z) passive_peer_t) (nw_addr : list Z)
    (r : addrinfo) (w : world) : Z * gmap (list Z) passive_peer_t * world :=
  match batab_get tab nw_addr with
  | Some _ => (0, tab, w)
  | None =>
      match sys_alloc sizeof_passive_peer_t w with
      | (None, w') => (1, tab, emit (EvLog LogCouldNotAllocate) w')
      | (Some _, w') => (0, batab_put tab nw_addr (PassivePeer r nw_addr), w')
      end
  end.

Record scan_state : Type := ScanState {
  updated_passive_peers : gmap (list Z) passive_peer_t;
  encountered_failure : Z;
  scan_world : world
}.

(** io.c:567-589: the body of the loop over the resolved addresses. *)
Definition reset_peers_addr (ctx : io_ctx_t) (s : scan_state) (r : addrinfo)
    : outcome scan_state :=
  let nw_addr := repeat 0 16 in
  if ai_family r =? AF_INET then
    if negb (Z.lor (using_af ctx) USING_IPV4 =? 0) then
      let client_addr := ai_addr r in
      let* c := memcmp client_addr (self_v4 ctx) (Z.to_nat IPv4_ADDR_LEN) in
      if 0 <? c then
        let* nw_addr := memcpy nw_addr client_addr IPv4_ADDR_LEN in
        let '(rc, tab, w) :=
          capture_passive_peer (updated_passive_peers s) nw_addr r (scan_world s) in
        Done (ScanState tab rc w)
      else Done s
    else Done s
  else if ai_family r =? AF_INET6 then
    if negb (Z.lor (using_af ctx) USING_IPV6 =? 0) then
      let client_addr := ai_addr r in
      let* c := memcmp client_addr (self_v6 ctx) (Z.to_nat IPv6_ADDR_LEN) in
      if 0 <? c then
        let* nw_addr := memcpy nw_addr client_addr IPv6_ADDR_LEN in
        let '(rc, tab, w) :=
          capture_passive_peer (updated_passive_peers s) nw_addr r (scan_world s) in
        Done (ScanState tab rc w)
      else Done s
    else Done s
  else
    Done (ScanState (updated_passive_peers s) (encountered_failure s)
            (emit (EvLog (LogUnexpectedAddressFamily (ai_family r))) (scan_world s))).

(** io.c:542-593 over all the addresses resolved from the peer file,
    from the empty table of io.c:525. *)
Fixpoint reset_peers_scan (ctx : io_ctx_t) (resolved : list addrinfo) (s : scan_state)
    : outcome scan_state :=
  match resolved with
  | [] => Done s
  | r :: rest =>
      let* s' := reset_peers_addr ctx s r in
      reset_peers_scan ctx rest s'
  end.

Definition reset_peers_updated (ctx : io_ctx_t) (resolved : list addrinfo) (w : world)
    : outcome scan_state :=
  reset_peers_scan ctx resolved (ScanState ∅ 0 w).

(** ** Packets on their way from a connection to the tun device *)

(** [p + n] on a byte pointer; [NULL] can only be moved by 0. *)
Definition ptr_offset (p : ptr) (n : Z) : outcome ptr :=
  match p with
  | Some l => Done (Some (ptr_add l n))
  | None => if n =? 0 then Done None else Abort
  end.

(** io.c:886-903: the bytes taken, the backlog, [*full] and the
    environment.  [LogFailedWriteToTunDev] also stands for the warning
    of io.c:894. *)
Definition push_pkt_to_tun_or_ring (fuel : nat) (tun_tx : tun_tx_t)
    (b1 : ptr) (len1 : Z) (b2 : ptr) (len2 : Z) (full : bool) (w : world)
    : outcome (Z * tun_tx_t * bool * world) :=
  if ring_empty (backlog tun_tx) then
    let '(a, w') :=
      sys_call (EvWritev (tt_fd tun_tx) (firstn (Z.to_nat len1) (deref b1))
                  (firstn (Z.to_nat len2) (deref b2))) w in
    let written := rv a in
    if written <? 0 then
      if (errno a =? EAGAIN) || (errno a =? EWOULDBLOCK)
      then push_pkt_to_tun_backlog_ring fuel tun_tx b1 len1 b2 len2 full w'
      else Done (0, tun_tx, full, emit (EvLog LogFailedWriteToTunDev) w')
    else
      let* _ := assert (written =? len1 + len2) in
      Done (written, tun_tx, full, w')
  else push_pkt_to_tun_backlog_ring fuel tun_tx b1 len1 b2 len2 full w.

(** io.c:922-954. *)
Record pstate : Type := PState {
  ps_b1 : ptr;
  ps_len1 : Z;
  ps_b2 : ptr;
  ps_len2 : Z;
  ps_overall_pushed : Z;
  ps_full : bool;
  ps_tun_tx : tun_tx_t;
  ps_world : world
}.

(** One run of the loop body; [Break] is [return overall_pushed]. *)
Definition push_to_tun_ipv4_body (host_le : bool) (fuel : nat) (s : pstate)
    : outcome (step pstate) :=
  let* pkt_len := parse_l3_packet_len host_le (ps_b1 s) (ps_len1 s) (ps_b2 s) (ps_len2 s) in
  if (pkt_len =? 0) || (ps_len1 s + ps_len2 s <? pkt_len) then Done (Break s)
  else if pkt_len <=? ps_len1 s then
    let* (pushed, tun_tx, full, w) :=
      push_pkt_to_tun_or_ring fuel (ps_tun_tx s) (ps_b1 s) pkt_len None 0 (ps_full s)
        (ps_world s) in
    let* b1 := ptr_offset (ps_b1 s) pushed in
    Done (Next (PState b1 (ps_len1 s - pushed) (ps_b2 s) (ps_len2 s)
                  (ps_overall_pushed s + pushed) full tun_tx w))
  else
    let buf2_to_be_pushed := pkt_len - ps_len1 s in
    let* _ := assert (0 <? ps_len2 s - buf2_to_be_pushed) in
    let* (pushed, tun_tx, full, w) :=
      push_pkt_to_tun_or_ring fuel (ps_tun_tx s) (ps_b1 s) (ps_len1 s) (ps_b2 s)
        buf2_to_be_pushed (ps_full s) (ps_world s) in
    if 0 <? pushed then
      let* b2 := ptr_offset (ps_b2 s) buf2_to_be_pushed in
      Done (Next (PState (ps_b1 s) 0 b2 (ps_len2 s - buf2_to_be_pushed)
                    (ps_overall_pushed s + pushed) full tun_tx w))
    else
      Done (Next (PState (ps_b1 s) (ps_len1 s) (ps_b2 s) (ps_len2 s)
                    (ps_overall_pushed s + pushed) full tun_tx w)).

Definition push_to_tun_ipv4_step (host_le : bool) (fuel : nat) (s : pstate) : step pstate :=
  match push_to_tun_ipv4_body host_le fuel s with
  | Done st => st
  | Abort => Crash s
  | Timeout => Stall s
  end.

Definition push_to_tun_ipv4 (host_le : bool) (fuel : nat) (tun_tx : tun_tx_t)
    (b1 : ptr) (len1 : Z) (b2 : ptr) (len2 : Z) (w : world)
    : outcome (Z * tun_tx_t * world) :=
  let* _ := assert (0 <? len1) in
  match do_while fuel (push_to_tun_ipv4_step host_le fuel) (fun s => negb (ps_full s))
          (PState b1 len1 b2 len2 0 false tun_tx w) with
  | (Returned, s) => Done (ps_overall_pushed s, ps_tun_tx s, ps_world s)
  | (Aborted, _) => Abort
  | (OutOfFuel, _) => Timeout
  end.

(** io.c:956-959; the message it logs is not among [log_msg]. *)
Definition push_to_tun_ipv6 (tun_tx : tun_tx_t) (b1 : ptr) (len1 : Z) (b2 : ptr) (len2 : Z)
    (w : world) : outcome (Z * tun_tx_t * world) :=
  Done (0, tun_tx, w).

(** io.c:961-979. *)
Definition push_to_tun (host_le : bool) (fuel : nat) : data_push_fn_t tun_tx_t :=
  fun b1 len1 b2 len2 tun_tx w =>
    let* _ := assert (0 <? len1 + len2) in
    let* octate_1 := if 0 <? len1 then load_u8 b1 0 else load_u8 b2 0 in
    let ip_v := Z.shiftr octate_1 4 in
    if ip_v =? 4 then
      push_to_tun_ipv4 host_le fuel tun_tx (if 0 <? len1 then b1 else b2)
        (if 0 <? len1 then len1 else len2) (if 0 <? len1 then b2 else None)
        (if 0 <? len1 then len2 else 0) w
    else if ip_v =? 6 then
      push_to_tun_ipv6 tun_tx (if 0 <? len1 then b1 else b2)
        (if 0 <? len1 then len1 else len2) (if 0 <? len1 then b2 else None)
        (if 0 <? len1 then len2 else 0) w
    else Done (0, tun_tx, emit (EvLog (LogUnknownIpVersion ip_v)) w).

(** ** Connection sockets *)

(** io.c:620-623. *)
Record conn_sock_info_t : Type := ConnSockInfo { csi_addr : list Z; csi_af : Z }.

(** io.c:627-640: the return value, the socket and the environment. *)
Definition init_conn_sock (sock : io_sock_t) (addr_info : conn_sock_info_t) (w : world)
    : outcome (Z * io_sock_t * world) :=
  let* c := d_conn (d sock) in
  let* peer := memcpy (c_peer c) (csi_addr addr_info) MAX_NW_ADDR_LEN in
  let c := ConnData peer (csi_af addr_info) (c_outbound c) (c_rx c) (c_tx c) in
  let '(rc, tx, w) := init_backlog_ring (c_tx c) CONN_RING_SZ w in
  let c := ConnData (c_peer c) (c_af c) (c_outbound c) (c_rx c) tx in
  if negb (rc =? 0)
  then Done (-1, IoSock (fd sock) (typ sock) (DConn c), emit (EvLog LogCouldNotAllocate) w)
  else
    let '(rc, rx, w) := init_backlog_ring (c_rx c) CONN_RING_SZ w in
    let c := ConnData (c_peer c) (c_af c) (c_outbound c) rx (c_tx c) in
    if negb (rc =? 0)
    then Done (-1, IoSock (fd sock) (typ sock) (DConn c), emit (EvLog LogCouldNotAllocate) w)
    else Done (0, IoSock (fd sock) (typ sock) (DConn c), w).

(** ** Events on a connection *)

Section ConnIo.

(** [destroy_sock] (io.c:184-211) works on the socket list, the maps
    and the polling context; here it is any function of the address
    of the socket, the context and the environment. *)
Variable destroy_sock : Z -> io_ctx_t -> world -> outcome (io_ctx_t * world).

(** io.c:981-997, for the connection socket at address [conn];
    [tun_fd] is the value of [ctx->tun_fd].  The ring [ctx->tun_tx]
    points to is read when the pointer is copied into [tun_tx] and
    written back after the fill; a [NULL] pointer has no value.  The
    two warnings are not among [log_msg]. *)
Definition conn_io (host_le : bool) (fuel : nat) (tun_fd : Z) (event : Z) (conn : Z)
    (ctx : io_ctx_t) (w : world) : outcome (io_ctx_t * world) :=
  let* (ctx, w) :=
    if negb (Z.lor event EPOLLOUT =? 0) then
      let* sock := load_sock ctx conn in
      let* tx := load_ring ctx (conn, conn_tx) in
      match drain_ring fuel (fd sock) tx send_bl_batch tt w with
      | (Returned, s) =>
          let* ctx := store_ring ctx (conn, conn_tx) (d_ring s) in
          if CONN_KILL =? d_ret s then destroy_sock conn ctx (d_world s)
          else Done (ctx, d_world s)
      | (Aborted, _) => Abort
      | (OutOfFuel, _) => Timeout
      end
    else Done (ctx, w) in
  if negb (Z.lor event EPOLLIN =? 0) then
    let* sock := load_sock ctx conn in
    let* rx := load_ring ctx (conn, conn_rx) in
    let* backlog_ptr := of_option (tun_tx ctx) in
    let* backlog_ring := load_ring ctx backlog_ptr in
    let tun_tx_ := TunTx backlog_ring tun_fd in
    match fill_ring fuel (fd sock) rx recv_batch (Some (push_to_tun host_le fuel)) tun_tx_ w with
    | (Returned, s) =>
        let* ctx := store_ring ctx backlog_ptr (backlog (f_ctx s)) in
        let* ctx := store_ring ctx (conn, conn_rx) (f_ring s) in
        if CONN_KILL =? f_ret s then destroy_sock conn ctx (f_world s)
        else Done (ctx, f_world s)
    | (Aborted, _) => Abort
    | (OutOfFuel, _) => Timeout
    end
  else Done (ctx, w).

End ConnIo.

(** ** Notions the properties are stated with *)

(** The number of occupied and of free bytes of a ring. *)
Definition ring_occupied (r : ring_buff_t) : Z :=
  if wraped r then sz r - start r + end_ r else end_ r - start r.

Definition ring_free (r : ring_buff_t) : Z :=
  if wraped r then start r - end_ r else sz r - end_ r + start r.

(** The occupied bytes, oldest first. *)
Definition ring_bytes (r : ring_buff_t) : list Z :=
  if wraped r
  then skipn (Z.to_nat (start r)) (firstn (Z.to_nat (sz r)) (buff r))
       ++ firstn (Z.to_nat (end_ r)) (buff r)
  else firstn (Z.to_nat (end_ r - start r)) (skipn (Z.to_nat (start r)) (buff r)).

(** The invariants of a ring (spec, section 3). *)
Definition ring_inv (r : ring_buff_t) : Prop :=
  0 <= start r <= sz r /\
  0 <= end_ r <= sz r /\
  (wraped r = true -> end_ r <= start r) /\
  (wraped r = false -> start r <= end_ r) /\
  ring_occupied r <= sz r.

(** A ring whose block has the size the ring records. *)
Definition ring_wf (r : ring_buff_t) : Prop :=
  ring_inv r /\ Z.of_nat (length (buff r)) = sz r.

(** A packet buffer holding [len] bytes. *)
Definition pkt_wf (p : tun_pkt_buff_t) : Prop :=
  0 <= len p <= Z.of_nat (length (tpb_buff p)).

(** The contract of a handler: the tracker moves forward by at most the
    presented length. *)
Definition handler_contract {C : Type} (io_hdlr : io_handler_fn_t C) : Prop :=
  forall fd b n t c additional w res,
    0 <= n ->
    io_hdlr fd b n t c additional w = Done res ->
    t <= h_tracker res <= t + n.

(** The contract of a pusher: it reports at most the bytes it was
    offered. *)
Definition pusher_contract {C : Type} (data_pusher : data_push_fn_t C) : Prop :=
  forall b1 n1 b2 n2 c w moved c' w',
    0 <= n1 -> 0 <= n2 ->
    data_pusher b1 n1 b2 n2 c w = Done (moved, c', w') ->
    moved <= n1 + n2.

(** One [drain_ring] or [fill_ring] call on a ring, with its bound on
    the iterations, its callbacks and the context it hands them. *)
Inductive ring_op : Type :=
| OpDrain (C : Type) (fuel : nat) (fd : Z) (io_hdlr : io_handler_fn_t C) (hdlr_ctx : C)
| OpFill (C : Type) (fuel : nat) (fd : Z) (io_hdlr : io_handler_fn_t C)
    (data_pusher : option (data_push_fn_t C)) (hdlr_ctx : C).

Definition op_respects_contracts (op : ring_op) : Prop :=
  match op with
  | OpDrain C _ _ io_hdlr _ => handler_contract io_hdlr
  | OpFill C _ _ io_hdlr data_pusher _ =>
      handler_contract io_hdlr /\
      match data_pusher with
      | Some p => pusher_contract p
      | None => True
      end
  end.

(** The ring and the environment an operation leaves, however its loop
    is left (also when it is cut after [fuel] iterations). *)
Definition run_op (op : ring_op) (st : ring_buff_t * world) : ring_buff_t * world :=
  match op with
  | OpDrain C fuel fd io_hdlr hdlr_ctx =>
      let s := snd (drain_ring fuel fd (fst st) io_hdlr hdlr_ctx (snd st)) in
      (d_ring s, d_world s)
  | OpFill C fuel fd io_hdlr data_pusher hdlr_ctx =>
      let s := snd (fill_ring fuel fd (fst st) io_hdlr data_pusher hdlr_ctx (snd st)) in
      (f_ring s, f_world s)
  end.

Definition run_ops (ops : list ring_op) (st : ring_buff_t * world) : ring_buff_t * world :=
  fold_left (fun st op => run_op op st) ops st.

(** The IPv4 total-length field of a byte stream: bytes 2 and 3, most
    significant first. *)
Definition l3_total_length (stream : list Z) : Z :=
  256 * nth 2 stream 0 + nth 3 stream 0.

(** ** Auxiliary definitions of the proofs *)

(** [b] with [x] written at offset [e]. *)
Definition splice (b : list Z) (e : nat) (x : list Z) : list Z :=
  firstn e b ++ x ++ skipn (e + length x) b.

Definition is_byte (x : Z) : Prop := 0 <= x < 256.

(** What the fill of [write_to_conn] leaves when it returns: the ring
    untouched and the packet refused, or the packet appended whole. *)
Definition enqueue_post (r : ring_buff_t) (pkt : tun_pkt_buff_t)
    (s : fstate conn_bound_pkt_t) : Prop :=
  ring_wf (f_ring s) /\ sz (f_ring s) = sz r /\
  ((f_ret s = CONN_IO_OK_NOT_ENOUGH_SPACE /\ ring_free r < len pkt /\
    buff (f_ring s) = buff r /\ ring_bytes (f_ring s) = ring_bytes r) \/
   (f_ret s = CONN_IO_OK_EXHAUSTED /\ len pkt <= ring_free r /\
    ring_bytes (f_ring s)
    = ring_bytes r ++ firstn (Z.to_nat (len pkt)) (tpb_buff pkt))).

(** [ctx] with another [using_af]. *)
Definition set_using_af (ctx : io_ctx_t) (af : Z) : io_ctx_t :=
  IoCtx (sockets ctx) (live_sockets ctx) (self_v4 ctx) (self_v6 ctx) af (tun_tx ctx)
    (c_world_tx ctx).

(** [tun->d.tun.r_buff] of the socket at address [p]. *)
Definition r_buff_of (ctx : io_ctx_t) (p : Z) : outcome tun_pkt_buff_t :=
  let* sock := load_sock ctx p in
  let* t := d_tun (d sock) in
  Done (t_r_buff t).

(** *** Concrete inputs *)

(** A connection to 10.0.0.2 whose tx ring of 8 bytes holds 3. *)
Definition example_conn : conn_data :=
  ConnData ([10; 0; 0; 2] ++ repeat 0 12) AF_INET 1
    (Ring (repeat 0 8) 8 0 0 false) (Ring [0; 0; 0; 1; 2; 3; 0; 0] 8 3 6 false).

Definition example_ctx : io_ctx_t :=
  IoCtx (<[7 := IoSock 7 conn (DConn example_conn)]> ∅) ∅ ([10; 0; 0; 1] ++ repeat 0 12)
    (repeat 0 16) USING_IPV4 None (IoCtr 0 0 0 0).

Definition example_pkt : tun_pkt_buff_t := TunPktBuff [69; 0; 0; 5; 9] 4096 5 0.

Definition example_ops : list ring_op :=
  [OpFill conn_bound_pkt_t 5 (-1) read_from_tun_buff (Some write_passthru_to_conn)
     (ConnBoundPkt example_pkt 7 0);
   OpDrain unit 5 7 send_bl_batch tt;
   OpFill unit 5 7 recv_batch None tt;
   OpFill tun_write_buff_t 5 (-1) playback_tun_write_buf None
     (TunWriteBuff (Some [69; 0; 0; 4]) None 4 0)].

(** The context of a daemon started with the IPv4 self-address 10.0.0.1
    only, and of one started with the IPv6 self-address 2001:db8::1
    only ([self_v4] is then the zero bytes [calloc] left). *)
Definition ipv4_ctx : io_ctx_t :=
  IoCtx ∅ ∅ ([10; 0; 0; 1] ++ repeat 0 12) (repeat 0 16) USING_IPV4 None (IoCtr 0 0 0 0).

Definition ipv6_only_ctx : io_ctx_t :=
  IoCtx ∅ ∅ (repeat 0 16) [32; 1; 13; 184; 0; 0; 0; 0; 0; 0; 0; 0; 0; 0; 0; 1]
    USING_IPV6 None (IoCtr 0 0 0 0).

(** The blocks [malloc] returns to [init_tun_tx_backlog_ring], of the
    sizes it asks for; the ring block is any block. *)
Definition tun_blocks (ring_block : list Z) : list (option (list Z)) :=
  [Some ring_block;
   Some (repeat 0 (Z.to_nat INITIAL_TUN_PKT_BUFF_SZ));
   Some (repeat 0 (Z.to_nat MAX_L3_PKT_SZ))].

(** A 24-byte IPv4 packet from 10.0.0.1 to 10.0.0.2. *)
Definition ipv4_pkt : list Z :=
  [69; 0; 0; 24; 0; 0; 0; 0; 64; 17; 0; 0; 10; 0; 0; 1; 10; 0; 0; 2; 1; 2; 3; 4].

(** An IPv4 packet of 4097 bytes (total length 0x1001). *)
Definition ipv4_pkt_4097 : list Z := 69 :: 0 :: 16 :: 1 :: repeat 0 4093.

(** A tun socket as [init_tun_tx_backlog_ring] sets it up, with one
    packet queued in its backlog. *)
Definition tun_with_backlog : tun_data :=
  TunData (Ring (ipv4_pkt ++ repeat 0 8) 32 0 24 false)
    (TunPktBuff (repeat 0 8) INITIAL_TUN_PKT_BUFF_SZ 0 0)
    (TunPktBuff (repeat 0 8) INITIAL_TUN_PKT_BUFF_SZ 0 0).

(** *** Tactics and abbreviations *)

Ltac ring_fields :=
  unfold ring_inv, ring_occupied, set_start, set_end, set_wraped, set_buff in *;
  simpl in *.

Ltac proj_simpl :=
  cbn [f_ring f_ctx f_world f_ret f_full buff sz start end_ wraped
       pkt_buff dest_fd already_written] in *.

Abbreviation passthru := (Some write_passthru_to_conn).
Abbreviation fill_cond :=
  (fun s : fstate conn_bound_pkt_t => (CONN_IO_OK =? f_ret s) || f_full s).
Abbreviation fill_step := (fill_body (-1) read_from_tun_buff passthru).

(** *** Notions of the further properties *)

(** An L3 packet as the framer reads it: at least the four header bytes
    that hold the length, and a total-length field that gives the
    number of bytes of the packet. *)
Definition l3_packet (p : list Z) : Prop :=
  Forall is_byte p /\ (4 <= length p)%nat /\ l3_total_length p = Z.of_nat (length p).

(** The answer of a tun device that takes the whole packet. *)
Definition accepts (p : list Z) : sys_ans := SysAns (Z.of_nat (length p)) 0 [].

(** The free bytes that follow [end] without a wrap. *)
Definition contiguous_room (r : ring_buff_t) : Z :=
  if wraped r then start r - end_ r else sz r - end_ r.

(** The IP version in the first octet of a packet. *)
Definition ip_version (p : list Z) : Z := Z.shiftr (nth 0 p 0) 4.

(** The key under which [reset_peers] files a resolved address: its
    network address in 16 bytes, an IPv4 address followed by zeros. *)
Definition peer_key (r : addrinfo) : list Z :=
  if ai_family r =? AF_INET then firstn 4 (ai_addr r) ++ repeat 0 12
  else firstn 16 (ai_addr r).

(** The resolved address is an IPv4 or IPv6 address that [memcmp] finds
    greater than the node's own address of that family. *)
Definition above_self (ctx : io_ctx_t) (r : addrinfo) : bool :=
  if ai_family r =? AF_INET then
    match memcmp (ai_addr r) (self_v4 ctx) 4 with
    | Done c => 0 <? c
    | _ => false
    end
  else if ai_family r =? AF_INET6 then
    match memcmp (ai_addr r) (self_v6 ctx) 16 with
    | Done c => 0 <? c
    | _ => false
    end
  else false.


(** The number of bytes one [read] with a buffer of [cap] bytes takes
    of a queued packet. *)
Definition read_len (cap : Z) (p : list Z) : Z :=
  Z.of_nat (length (firstn (Z.to_nat cap) p)).

(** The first octet has version 4 in its high nibble. *)
Definition is_ipv4 (p : list Z) : bool := Z.land (nth 0 p 0) 240 =? 64.

(** The IPv4 packets among [pkts], and the bytes read of them. *)
Definition ipv4_count (pkts : list (list Z)) : Z :=
  Z.of_nat (length (List.filter is_ipv4 pkts)).

Definition ipv4_read_total (cap : Z) (pkts : list (list Z)) : Z :=
  fold_right (fun p acc => (if is_ipv4 p then read_len cap p else 0) + acc) 0 pkts.

(** A queued packet [read_tun_and_xmit] gets through: it is not empty,
    and an IPv4 packet passes the assertion of io.c:1153. *)
Definition readable (cap : Z) (p : list Z) : Prop :=
  p <> [] /\ (is_ipv4 p = true -> 20 < read_len cap p).

(** No live socket is filed under a key whose bytes from the fifth on
    are those of [nw]. *)
Definition unreachable_keys (ctx : io_ctx_t) (nw : list Z) : Prop :=
  forall key, skipn 4 key = skipn 4 nw -> live_sockets ctx !! key = None.

(** * Proofs *)

(** ** Loops *)

Lemma do_while_unfold {St : Type} (fuel : nat) (body : St -> step St) (cond : St -> bool) (s : St) :
  do_while (S fuel) body cond s =
  match body s with
  | Next s' => if cond s' then do_while fuel body cond s' else (Returned, s')
  | Break s' => (Returned, s')
  | Crash s' => (Aborted, s')
  | Stall s' => (OutOfFuel, s')
  end.
Proof. reflexivity. Qed.

(** A property every run of the body keeps holds however the loop is left. *)
Lemma do_while_inv {St : Type} (P : St -> Prop) (body : St -> step St) (cond : St -> bool) :
  (forall s, P s ->
     match body s with Next s' | Break s' | Crash s' | Stall s' => P s' end) ->
  forall fuel s, P s -> P (snd (do_while fuel body cond s)).
Proof.
  intros Hbody fuel.
  induction fuel as [|n IH]; intros s Hs; simpl; [exact Hs|].
  specialize (Hbody s Hs).
  destruct (body s) as [s'|s'|s'|s']; simpl; auto.
  destruct (cond s'); simpl; auto.
Qed.

(** A loop that returned within its bound returns the same with a larger one. *)
Lemma do_while_mono {St : Type} (body : St -> step St) (cond : St -> bool) :
  forall fuel s s' (k : nat),
    do_while fuel body cond s = (Returned, s') ->
    do_while (fuel + k) body cond s = (Returned, s').
Proof.
  induction fuel as [|n IH]; intros s s' k H; simpl in *; [discriminate|].
  destruct (body s) as [t|t|t|t]; try exact H.
  destruct (cond t); [apply IH; exact H|exact H].
Qed.

(** A loop whose body always reaches a true condition never returns. *)
Lemma do_while_diverges {St : Type} (P : St -> Prop) (body : St -> step St) (cond : St -> bool) :
  (forall s, P s -> exists s', body s = Next s' /\ cond s' = true /\ P s') ->
  forall fuel s, P s -> fst (do_while fuel body cond s) = OutOfFuel.
Proof.
  intros Hstep fuel. induction fuel as [|n IH]; intros s Hs; simpl; [reflexivity|].
  destruct (Hstep s Hs) as (s' & Hb & Hc & Hs').
  rewrite Hb, Hc. apply IH. exact Hs'.
Qed.

Lemma do_while_stuck {St : Type} (body : St -> step St) (cond : St -> bool) (s : St) :
  body s = Next s -> cond s = true ->
  forall fuel, do_while fuel body cond s = (OutOfFuel, s).
Proof.
  intros Hb Hc fuel. induction fuel as [|n IH]; simpl; [reflexivity|].
  rewrite Hb, Hc. exact IH.
Qed.

(** ** Bytes *)

Lemma memcpy_ok (dst src : list Z) (n : Z) :
  0 <= n -> n <= Z.of_nat (length src) -> n <= Z.of_nat (length dst) ->
  memcpy dst src n = Done (firstn (Z.to_nat n) src ++ skipn (Z.to_nat n) dst).
Proof.
  intros H0 H1 H2. unfold memcpy.
  destruct (Z.leb_spec 0 n); [|lia].
  destruct (Z.leb_spec n (Z.of_nat (length src))); [|lia].
  destruct (Z.leb_spec n (Z.of_nat (length dst))); [|lia].
  reflexivity.
Qed.

Lemma memcpy_done (dst src : list Z) (n : Z) (res : list Z) :
  memcpy dst src n = Done res ->
  0 <= n /\ n <= Z.of_nat (length src) /\ n <= Z.of_nat (length dst) /\
  res = firstn (Z.to_nat n) src ++ skipn (Z.to_nat n) dst.
Proof.
  unfold memcpy.
  destruct (Z.leb_spec 0 n); simpl; [|discriminate].
  destruct (Z.leb_spec n (Z.of_nat (length src))); simpl; [|discriminate].
  destruct (Z.leb_spec n (Z.of_nat (length dst))); simpl; [|discriminate].
  intros [= <-]. auto.
Qed.

Lemma splice_length b e x :
  (e + length x <= length b)%nat -> length (splice b e x) = length b.
Proof.
  intros H. unfold splice.
  rewrite !length_app, length_firstn, length_skipn. lia.
Qed.

Lemma splice_firstn b e x :
  (e + length x <= length b)%nat -> firstn (e + length x) (splice b e x) = firstn e b ++ x.
Proof.
  intros H. unfold splice.
  rewrite app_assoc, firstn_app.
  rewrite length_app, length_firstn.
  replace (e + length x - (Init.Nat.min e (length b) + length x))%nat with 0%nat by lia.
  rewrite firstn_0, app_nil_r.
  apply firstn_all2. rewrite length_app, length_firstn. lia.
Qed.

Lemma splice_skipn_after b e x s :
  (e + length x <= s)%nat -> (e + length x <= length b)%nat ->
  skipn s (splice b e x) = skipn s b.
Proof.
  intros H Hb. unfold splice.
  rewrite app_assoc, skipn_app.
  rewrite (skipn_all2 (firstn e b ++ x)) by (rewrite length_app, length_firstn; lia).
  rewrite length_app, length_firstn. simpl.
  rewrite skipn_skipn. f_equal. lia.
Qed.

Lemma splice_skipn_before b e x s :
  (s <= e)%nat -> (e + length x <= length b)%nat ->
  skipn s (splice b e x) = skipn s (firstn e b) ++ x ++ skipn (e + length x) b.
Proof.
  intros H Hb. unfold splice.
  rewrite skipn_app. f_equal.
  rewrite length_firstn.
  replace (s - Init.Nat.min e (length b))%nat with 0%nat by lia.
  reflexivity.
Qed.

Lemma splice_nil (b : list Z) (e : nat) : splice b e [] = b.
Proof. unfold splice. simpl. rewrite Nat.add_0_r. apply firstn_skipn. Qed.

Lemma store_memcpy_splice (b src : list Z) (e n : Z) :
  0 <= e -> 0 <= n -> n <= Z.of_nat (length src) ->
  store_at b e (firstn (Z.to_nat n) src ++ skipn (Z.to_nat n) (ptr_add b e))
  = splice b (Z.to_nat e) (firstn (Z.to_nat n) src).
Proof.
  intros He Hn Hs. unfold store_at, ptr_add, splice.
  rewrite skipn_skipn, length_firstn.
  do 3 f_equal. lia.
Qed.

Lemma firstn_add_split {A : Type} (a b : nat) (l : list A) :
  firstn (a + b) l = firstn a l ++ firstn b (skipn a l).
Proof.
  revert l. induction a as [|a IH]; intros l; simpl; [reflexivity|].
  destruct l as [|x l]; simpl.
  - rewrite firstn_nil. reflexivity.
  - rewrite IH. reflexivity.
Qed.

Lemma firstn_len_Z (l : list Z) (n : Z) :
  0 <= n <= Z.of_nat (length l) -> length (firstn (Z.to_nat n) l) = Z.to_nat n.
Proof. intros H. rewrite length_firstn. lia. Qed.

Lemma ring_restore (r : ring_buff_t) :
  set_end (set_buff r (store_at (buff r) (end_ r) (ptr_add (buff r) (end_ r)))) (end_ r) = r.
Proof.
  destruct r as [b z s e wr]. unfold set_end, set_buff, store_at, ptr_add; simpl.
  rewrite firstn_skipn. reflexivity.
Qed.

Lemma ring_restore_start (r : ring_buff_t) :
  set_start (set_buff r (store_at (buff r) (start r) (ptr_add (buff r) (start r)))) (start r) = r.
Proof.
  destruct r as [b z s e wr]. unfold set_start, set_buff, store_at, ptr_add; simpl.
  rewrite firstn_skipn. reflexivity.
Qed.

Lemma kernel_store_head (dst : list Z) (n : Z) (o : Z) (rest : list Z) :
  0 < n -> kernel_store dst (o :: rest) n = o :: firstn (Z.to_nat n - 1) rest ++ skipn (Z.to_nat n) dst.
Proof.
  intros Hn. unfold kernel_store.
  destruct (Z.ltb_spec 0 n); [|lia].
  destruct (Z.to_nat n) as [|k] eqn:E; [lia|].
  simpl. rewrite Nat.sub_0_r. reflexivity.
Qed.

Lemma lor_flag_nonzero (x flag : Z) : flag <> 0 -> (Z.lor x flag =? 0) = false.
Proof.
  intros Hf. apply Z.eqb_neq. intros H.
  apply Z.lor_eq_0_iff in H. tauto.
Qed.

(** ** The ring invariants under drain_ring and fill_ring *)

Lemma drain_body_inv {C : Type} (fd : Z) (io_hdlr : io_handler_fn_t C) :
  handler_contract io_hdlr ->
  forall s, ring_inv (d_ring s) ->
    match drain_body fd io_hdlr s with
    | Next s' | Break s' | Crash s' | Stall s' => ring_inv (d_ring s')
    end.
Proof.
  intros Hh [[b z st en wr] c w ret] Hinv.
  unfold drain_body, drain_call; simpl.
  destruct wr.
  - destruct (Z.eqb_spec z st) as [->|Hne].
    + ring_fields. intuition (try discriminate; lia).
    + destruct (io_hdlr _ _ _ _ _ _ _) as [res| |] eqn:E; simpl; auto.
      apply Hh in E; [|ring_fields; lia].
      ring_fields. intuition (try discriminate; lia).
  - destruct (Z.eqb_spec en st) as [->|Hne]; [exact Hinv|].
    destruct (io_hdlr _ _ _ _ _ _ _) as [res| |] eqn:E; simpl; auto.
    apply Hh in E; [|ring_fields; lia].
    ring_fields. intuition (try discriminate; lia).
Qed.

Lemma fill_push_inv {C : Type} (data_pusher : option (data_push_fn_t C)) :
  match data_pusher with Some p => pusher_contract p | None => True end ->
  forall s, ring_inv (f_ring s) ->
    match fill_push data_pusher s with
    | Next s' | Break s' | Crash s' | Stall s' => ring_inv (f_ring s')
    end.
Proof.
  intros Hp [[b z st en wr] c w ret full] Hinv.
  unfold fill_push; simpl.
  destruct data_pusher as [p|]; [|exact Hinv].
  destruct wr.
  - destruct (z - st =? 0) eqn:E0.
    + destruct (p _ _ _ _ _ _) as [[[moved c'] w']| |] eqn:E; simpl; auto.
      apply Hp in E; [|ring_fields; lia..].
      apply Z.eqb_eq in E0.
      destruct (Z.ltb_spec 0 moved); [|exact Hinv].
      destruct (Z.ltb_spec (z - st) moved); ring_fields; intuition (try discriminate; lia).
    + destruct (p _ _ _ _ _ _) as [[[moved c'] w']| |] eqn:E; simpl; auto.
      apply Hp in E; [|ring_fields; lia..].
      destruct (Z.ltb_spec 0 moved); [|exact Hinv].
      destruct (Z.ltb_spec (z - st) moved); ring_fields; intuition (try discriminate; lia).
  - destruct (p _ _ _ _ _ _) as [[[moved c'] w']| |] eqn:E; simpl; auto.
    apply Hp in E; [|ring_fields; lia..].
    destruct (Z.ltb_spec 0 moved); [|exact Hinv].
    ring_fields; intuition (try discriminate; lia).
Qed.

Lemma fill_body_inv {C : Type} (fd : Z) (io_hdlr : io_handler_fn_t C)
    (data_pusher : option (data_push_fn_t C)) :
  handler_contract io_hdlr ->
  match data_pusher with Some p => pusher_contract p | None => True end ->
  forall s, ring_inv (f_ring s) ->
    match fill_body fd io_hdlr data_pusher s with
    | Next s' | Break s' | Crash s' | Stall s' => ring_inv (f_ring s')
    end.
Proof.
  intros Hh Hp [[b z st en wr] c w ret full] Hinv.
  unfold fill_body, fill_call; simpl.
  destruct wr.
  - destruct (io_hdlr _ _ _ _ _ _ _) as [res| |] eqn:E; simpl; auto.
    apply Hh in E; [|ring_fields; lia].
    apply fill_push_inv; [exact Hp|].
    ring_fields. intuition (try discriminate; lia).
  - destruct (Z.eqb_spec z en) as [->|Hne].
    + ring_fields. intuition (try discriminate; lia).
    + destruct (io_hdlr _ _ _ _ _ _ _) as [res| |] eqn:E; simpl; auto.
      apply Hh in E; [|ring_fields; lia].
      apply fill_push_inv; [exact Hp|].
      ring_fields. intuition (try discriminate; lia).
Qed.

Lemma run_op_inv (op : ring_op) (st : ring_buff_t * world) :
  op_respects_contracts op -> ring_inv (fst st) -> ring_inv (fst (run_op op st)).
Proof.
  destruct op as [C fuel fd h c|C fuel fd h p c]; simpl; intros Hc Hinv.
  - unfold drain_ring.
    apply (do_while_inv (fun s => ring_inv (d_ring s))); [|exact Hinv].
    apply drain_body_inv; exact Hc.
  - unfold fill_ring. destruct Hc as [Hh Hp].
    apply (do_while_inv (fun s => ring_inv (f_ring s))); [|exact Hinv].
    apply fill_body_inv; assumption.
Qed.

Lemma run_ops_inv (ops : list ring_op) :
  Forall op_respects_contracts ops ->
  forall st, ring_inv (fst st) -> ring_inv (fst (run_ops ops st)).
Proof.
  unfold run_ops.
  induction ops as [|op ops IH]; intros Hops st Hinv; simpl in *.
  - exact Hinv.
  - inversion Hops as [|? ? Hop Hrest]; subst.
    apply IH; [exact Hrest|].
    apply run_op_inv; assumption.
Qed.

(** Claim C9.  For every ring and every sequence of [drain_ring] and
    [fill_ring] calls whose handlers move their tracker forward by at most
    the presented length and whose pushers report at most the bytes they
    were offered, the ring invariants are preserved: [0 <= start <= sz],
    [0 <= end <= sz], wrapped implies [end <= start], not wrapped implies
    [start <= end], and the occupied bytes never exceed [sz].  They hold
    in whatever state a call leaves the ring, also when its loop is cut
    short or a callback aborts. *)
Theorem ring_invariants_preserved (ops : list ring_op) (r : ring_buff_t) (w : world) :
  Forall op_respects_contracts ops ->
  ring_inv r ->
  ring_inv (fst (run_ops ops (r, w))).
Proof.
  intros Hops Hinv. apply (run_ops_inv ops Hops (r, w)). exact Hinv.
Qed.

(** ** What the handlers do to their tracker *)

Lemma send_bl_batch_tracker {C : Type} fd buff n t (c : C) additional w :
  exists ret w', send_bl_batch fd buff n t c additional w = Done (HRes ret buff t c w').
Proof.
  unfold send_bl_batch.
  destruct (sys_call _ w) as [a w'].
  destruct (rv a <? 0); [|eauto].
  destruct ((errno a =? EAGAIN) || (errno a =? EWOULDBLOCK)); [eauto|].
  destruct ((errno a =? ECONNRESET) || (errno a =? ENOTCONN) || (errno a =? EPIPE)); eauto.
Qed.

Lemma recv_batch_tracker {C : Type} fd buff n t (c : C) additional w :
  exists ret b' w', recv_batch fd buff n t c additional w = Done (HRes ret b' t c w').
Proof.
  unfold recv_batch.
  destruct (sys_call _ w) as [a w'].
  destruct (rv a =? 0); [eauto|].
  destruct (rv a <? 0); [|eauto].
  destruct ((errno a =? EAGAIN) || (errno a =? EWOULDBLOCK)); [eauto|].
  destruct ((errno a =? ECONNREFUSED) || (errno a =? ENOTCONN)); eauto.
Qed.

Lemma write_passthru_to_conn_moves_nothing b1 n1 b2 n2 pkt w :
  exists w', write_passthru_to_conn b1 n1 b2 n2 pkt w = Done (0, pkt, w').
Proof.
  unfold write_passthru_to_conn.
  destruct (0 <? n1).
  - destruct (send_bl_batch_tracker (C := unit) (dest_fd pkt) (deref b1) n1 0 tt 0 w)
      as (ret & w1 & ->); cbn [bind h_tracker h_world].
    destruct ((0 =? n1) && (0 <? n2)); cbn [bind]; [|eauto].
    destruct (send_bl_batch_tracker (C := unit) (dest_fd pkt) (deref b2) n2 0 tt 0 w1)
      as (ret2 & w2 & ->); cbn [bind h_tracker h_world]. eauto.
  - cbn [bind].
    destruct ((0 =? n1) && (0 <? n2)); cbn [bind]; [|eauto].
    destruct (send_bl_batch_tracker (C := unit) (dest_fd pkt) (deref b2) n2 0 tt 0 w)
      as (ret2 & w2 & ->); cbn [bind h_tracker h_world]. eauto.
Qed.

Lemma fill_push_passthru (s : fstate conn_bound_pkt_t) :
  exists w', fill_push (Some write_passthru_to_conn) s
             = Next (FState (f_ring s) (f_ctx s) w' (f_ret s) (f_full s)).
Proof.
  unfold fill_push.
  destruct (wraped (f_ring s)).
  - destruct (sz (f_ring s) - start (f_ring s) =? 0).
    + destruct (write_passthru_to_conn_moves_nothing (Some (buff (f_ring s)))
                  (end_ (f_ring s)) None 0 (f_ctx s) (f_world s)) as (w' & ->).
      simpl. eauto.
    + destruct (write_passthru_to_conn_moves_nothing
                  (Some (ptr_add (buff (f_ring s)) (start (f_ring s))))
                  (sz (f_ring s) - start (f_ring s)) (Some (buff (f_ring s)))
                  (end_ (f_ring s)) (f_ctx s) (f_world s)) as (w' & ->).
      simpl. eauto.
  - destruct (write_passthru_to_conn_moves_nothing
                (Some (ptr_add (buff (f_ring s)) (start (f_ring s))))
                (end_ (f_ring s) - start (f_ring s)) None 0 (f_ctx s) (f_world s)) as (w' & ->).
    simpl. eauto.
Qed.

(** The handlers and pushers of the source meet the contracts of [ring_invariants_preserved]. *)
Lemma send_bl_batch_contract {C : Type} : handler_contract (@send_bl_batch C).
Proof.
  intros fd b n t c additional w res Hn H.
  destruct (send_bl_batch_tracker fd b n t c additional w) as (ret & w' & E).
  rewrite E in H. injection H as <-. simpl. lia.
Qed.

Lemma recv_batch_contract {C : Type} : handler_contract (@recv_batch C).
Proof.
  intros fd b n t c additional w res Hn H.
  destruct (recv_batch_tracker fd b n t c additional w) as (ret & b' & w' & E).
  rewrite E in H. injection H as <-. simpl. lia.
Qed.

Lemma read_from_tun_buff_contract : handler_contract read_from_tun_buff.
Proof.
  intros fd b n t c additional w res Hn H.
  unfold read_from_tun_buff in H.
  destruct ((already_written c =? 0) && _).
  - injection H as <-. simpl. lia.
  - destruct (memcpy _ _ _) as [b'| |] eqn:E; simpl in H; try discriminate.
    apply memcpy_done in E. destruct E as (E0 & _).
    injection H as <-. simpl.
    destruct (Z.ltb_spec n (len (pkt_buff c) - already_written c)); lia.
Qed.

Lemma write_passthru_to_conn_contract : pusher_contract write_passthru_to_conn.
Proof.
  intros b1 n1 b2 n2 c w moved c' w' H1 H2 H.
  destruct (write_passthru_to_conn_moves_nothing b1 n1 b2 n2 c w) as (w1 & E).
  rewrite E in H. injection H as <- _ _. lia.
Qed.

Lemma playback_single_tracker target m a src n target' m' a' n' :
  playback_tun_write_single_src_buf target m a src n = Done (target', m', a', n') ->
  displacement a = 0 -> 0 <= m ->
  displacement a' = 0 /\ pointee a <= pointee a' /\
  pointee a' - pointee a = m - m' /\ 0 <= m'.
Proof.
  unfold playback_tun_write_single_src_buf. intros H Ha Hm.
  set (ws := if n <=? m then n else m) in *.
  assert (Hws : ws <= m) by (subst ws; destruct (Z.leb_spec n m); lia).
  destruct (Z.ltb_spec 0 ws).
  - destruct src as [l|]; simpl in H; [|discriminate].
    destruct (memcpy _ _ _); simpl in H; try discriminate.
    unfold add_through in H. rewrite Ha in H. simpl in H.
    injection H as <- <- <- <-. simpl. lia.
  - injection H as <- <- <- <-. lia.
Qed.

Lemma playback_tun_write_buf_contract : handler_contract playback_tun_write_buf.
Proof.
  intros fd b n t c additional w res Hn H.
  unfold playback_tun_write_buf in H.
  destruct (_ <? _).
  - injection H as <-. simpl. lia.
  - destruct (0 <? twb_len1 c) eqn:E1.
    + destruct (playback_tun_write_single_src_buf b n (ptr_to t) _ _)
        as [[[[t1 m1] a1] l1]| |] eqn:S1; cbn [bind] in H; try discriminate.
      apply playback_single_tracker in S1; [|reflexivity|exact Hn].
      cbn [andb] in H.
      destruct (0 <? l1).
      * injection H as <-. simpl in *. lia.
      * cbn [twb_len1 twb_len2 twb_b1 twb_b2] in H.
        destruct (0 <? twb_len2 c) eqn:E2.
        -- destruct (playback_tun_write_single_src_buf t1 m1 a1 _ _)
             as [[[[t2 m2] a2] l2]| |] eqn:S2; cbn [bind] in H; try discriminate.
           apply playback_single_tracker in S2; [|tauto|lia].
           cbn [andb] in H.
           destruct (0 <? l2); injection H as <-; simpl in *; lia.
        -- cbn [bind andb] in H. injection H as <-. simpl in *. lia.
    + cbn [bind andb twb_len1 twb_len2 twb_b1 twb_b2] in H.
      destruct (0 <? twb_len2 c) eqn:E2.
      * destruct (playback_tun_write_single_src_buf b n (ptr_to t) _ _)
          as [[[[t2 m2] a2] l2]| |] eqn:S2; cbn [bind] in H; try discriminate.
        apply playback_single_tracker in S2; [|reflexivity|exact Hn].
        cbn [andb] in H.
        destruct (0 <? l2); injection H as <-; simpl in *; lia.
      * cbn [bind andb] in H. injection H as <-. simpl in *. lia.
Qed.

Create HintDb contracts.
#[local] Hint Resolve send_bl_batch_contract recv_batch_contract read_from_tun_buff_contract
  write_passthru_to_conn_contract playback_tun_write_buf_contract : contracts.

(** [ring_invariants_preserved] on a ring of 8 bytes driven by the handlers
    of the source. *)
Lemma ring_invariants_preserved_witness :
  ring_inv (fst (run_ops example_ops (c_tx example_conn, World [SysAns 2 0 []] [] [] []))).
Proof.
  apply ring_invariants_preserved.
  - unfold example_ops.
    constructor;
      [split; [apply read_from_tun_buff_contract|apply write_passthru_to_conn_contract]|].
    constructor; [apply send_bl_batch_contract|].
    constructor; [split; [apply recv_batch_contract|exact I]|].
    constructor; [split; [apply playback_tun_write_buf_contract|exact I]|].
    constructor.
  - unfold ring_inv, ring_occupied; simpl. intuition (try discriminate; lia).
Defined.

(** Claim C2.  The claim is that a send-batch call that returns OK has
    advanced the ring's [start] by the bytes [send] took, and a recv-batch
    call that returns OK the ring's [end] by the bytes [recv] stored.  In
    the source both calls return [CONN_IO_OK] and leave the tracker as it
    was, whatever the count: [start += sent] and [end += rcvd] move the
    pointer parameters. *)
Theorem send_recv_batch_leave_tracker :
  (forall (C : Type) fd buff n start_v (c : C) additional (sent : nat) e dat rest q al tr,
     send_bl_batch fd buff n start_v c additional
       (World (SysAns (Z.of_nat sent) e dat :: rest) q al tr)
     = Done (HRes CONN_IO_OK buff start_v c
               (World rest q al (tr ++ [EvSend fd (firstn (Z.to_nat n) buff)])))) /\
  (forall (C : Type) fd buff max_sz end_v (c : C) additional (rcvd : positive) e dat rest q al tr,
     recv_batch fd buff max_sz end_v c additional
       (World (SysAns (Z.pos rcvd) e dat :: rest) q al tr)
     = Done (HRes CONN_IO_OK (kernel_store buff dat (Z.pos rcvd)) end_v c
               (World rest q al (tr ++ [EvRecv fd max_sz])))).
Proof.
  split; intros.
  - unfold send_bl_batch, sys_call; simpl.
    destruct (Z.ltb_spec (Z.of_nat sent) 0) as [Hneg|_]; [lia|reflexivity].
  - unfold recv_batch, sys_call; simpl. reflexivity.
Qed.

(** The consequence for [drain_ring]: while [send] takes bytes the same
    region is sent again, and [start] is where it was when the loop
    returns. *)
Example drain_ring_send_makes_no_progress :
  let r := Ring [1; 2; 3; 4; 5; 6; 7; 8] 8 2 6 false in
  let w := World [SysAns 3 0 []; SysAns 3 0 []] [] [] [] in
  let '(e, s) := drain_ring 10 3 r (@send_bl_batch unit) tt w in
  e = Returned /\ d_ret s = CONN_IO_OK_EXHAUSTED /\ d_ring s = r /\
  trace (d_world s) = [EvSend 3 [3; 4; 5; 6]; EvSend 3 [3; 4; 5; 6]; EvSend 3 [3; 4; 5; 6]].
Proof. vm_compute. repeat split. Qed.

(** [drain_ring] with [send_bl_batch] leaves a ring that is not wrapped
    exactly as it found it, whatever [send] answers. *)
Lemma drain_ring_send_bl_batch_no_progress {C : Type} fuel fd_ (r : ring_buff_t) (c : C) w :
  wraped r = false ->
  d_ring (snd (drain_ring fuel fd_ r send_bl_batch c w)) = r.
Proof.
  intros Hw. unfold drain_ring.
  apply (do_while_inv (fun s => d_ring s = r)); [|reflexivity].
  intros [r' c' w' ret] Hr. simpl in Hr. subst r'.
  unfold drain_body, drain_call. cbn [d_ring d_ctx d_world d_ret]. rewrite Hw.
  destruct (end_ r =? start r); [reflexivity|].
  destruct (send_bl_batch_tracker fd_ (ptr_add (buff r) (start r)) (end_ r - start r)
              (start r) c' 0 w') as (ret' & w'' & ->).
  cbn [h_buff h_tracker h_ctx h_world h_ret d_ring]. apply ring_restore_start.
Qed.

(** [fill_ring] with [recv_batch] leaves [end] of a ring that is not
    wrapped where it found it, whatever [recv] stores. *)
Lemma fill_ring_recv_batch_no_progress {C : Type} fuel fd_ (r : ring_buff_t) (c : C) w :
  wraped r = false -> end_ r < sz r ->
  end_ (f_ring (snd (fill_ring fuel fd_ r recv_batch None c w))) = end_ r.
Proof.
  intros Hw Hlt. unfold fill_ring.
  apply (do_while_inv
           (fun s => wraped (f_ring s) = false /\ sz (f_ring s) = sz r /\
                     end_ (f_ring s) = end_ r)); [|auto].
  intros [r' c' w' ret full] (Hw' & Hsz & He). simpl in Hw', Hsz, He.
  unfold fill_body, fill_call. cbn [f_ring f_ctx f_world f_ret f_full]. rewrite Hw'.
  destruct (Z.eqb_spec (sz r') (end_ r')) as [Heq|_]; [lia|].
  destruct (recv_batch_tracker fd_ (ptr_add (buff r') (end_ r')) (sz r' - end_ r')
              (end_ r') c' (start r') w') as (ret' & b' & w'' & ->).
  cbn [h_buff h_tracker h_ctx h_world h_ret fill_push f_ring].
  destruct r'; simpl in *. auto.
Qed.

(** The value [recv_batch] returns, for every answer of [recv]. *)
Lemma recv_batch_ret {C : Type} fd buff max_sz end_v (c : C) additional w res :
  recv_batch fd buff max_sz end_v c additional w = Done res ->
  let a := fst (sys_call (EvRecv fd max_sz) w) in
  h_ret res =
    if rv a =? 0 then CONN_KILL
    else if rv a <? 0 then
      if (errno a =? EAGAIN) || (errno a =? EWOULDBLOCK) then CONN_IO_OK_EXHAUSTED
      else if (errno a =? ECONNREFUSED) || (errno a =? ENOTCONN) then CONN_KILL
      else CONN_UNKNOWN_ERR
    else CONN_IO_OK.
Proof.
  unfold recv_batch. destruct (sys_call _ w) as [a w']. simpl.
  destruct (rv a =? 0); [intros [= <-]; reflexivity|].
  destruct (rv a <? 0); [|intros [= <-]; reflexivity].
  destruct ((errno a =? EAGAIN) || (errno a =? EWOULDBLOCK)); [intros [= <-]; reflexivity|].
  destruct ((errno a =? ECONNREFUSED) || (errno a =? ENOTCONN)); intros [= <-]; reflexivity.
Qed.

(** Claim C5.  The claim is that recv-batch returns KILL exactly when
    [recv] returns 0 or fails with ECONNRESET, ENOTCONN or EPIPE.  In the
    source a [recv] that fails with ECONNRESET or EPIPE yields
    [CONN_UNKNOWN_ERR], and one that fails with ECONNREFUSED yields
    [CONN_KILL]; [send_bl_batch] kills on ECONNRESET. *)
Theorem recv_batch_kill_set :
  forall (C : Type) fd buff max_sz end_v (c : C) additional dat rest q al tr,
    let w e := World (SysAns (-1) e dat :: rest) q al tr in
    let w' := World rest q al (tr ++ [EvRecv fd max_sz]) in
    recv_batch fd buff max_sz end_v c additional (w ECONNRESET)
      = Done (HRes CONN_UNKNOWN_ERR buff end_v c w') /\
    recv_batch fd buff max_sz end_v c additional (w EPIPE)
      = Done (HRes CONN_UNKNOWN_ERR buff end_v c w') /\
    recv_batch fd buff max_sz end_v c additional (w ECONNREFUSED)
      = Done (HRes CONN_KILL buff end_v c w') /\
    send_bl_batch fd buff max_sz end_v c additional (w ECONNRESET)
      = Done (HRes CONN_KILL buff end_v c
                (World rest q al (tr ++ [EvSend fd (firstn (Z.to_nat max_sz) buff)]))).
Proof. intros. repeat split. Qed.

(** ** The L3 length field *)

Lemma ntohs_load_u16 (host_le : bool) (p : ptr) (i : nat) (x y : Z) :
  load_u8 p i = Done x -> load_u8 p (S i) = Done y ->
  0 <= x < 256 -> 0 <= y < 256 ->
  (let* v := load_u16 host_le p i in Done (ntohs host_le v)) = Done (256 * x + y).
Proof.
  intros Hx Hy Rx Ry. unfold load_u16. rewrite Hx, Hy. cbn [bind].
  unfold ntohs. destruct host_le; [|reflexivity]. f_equal.
  rewrite Z.add_comm, Z.mul_comm, Z.mod_add by lia.
  rewrite Z.div_add by lia. rewrite Z.mod_small, Z.div_small by lia. lia.
Qed.

(** Where [parse_l3_packet_len] is right: bytes 2 and 3 both in the
    first span, or both in the second with the first span two bytes long. *)
Lemma parse_l3_packet_len_unsplit_field (host_le : bool) (b1 b2 : list Z) :
  Forall is_byte b1 -> Forall is_byte b2 ->
  (4 <= length b1)%nat \/ (length b1 = 2%nat /\ 2 <= length b2)%nat ->
  parse_l3_packet_len host_le (Some b1) (Z.of_nat (length b1)) (Some b2) (Z.of_nat (length b2))
  = Done (l3_total_length (b1 ++ b2)).
Proof.
  intros F1 F2 [H4|(H2 & H2')].
  - destruct b1 as [|a0 [|a1 [|a2 [|a3 rest]]]]; simpl in H4; try lia.
    unfold parse_l3_packet_len.
    destruct (Z.leb_spec 4 (Z.of_nat (length (a0 :: a1 :: a2 :: a3 :: rest)))) as [_|Hlt];
      [|simpl length in Hlt; lia].
    inversion F1 as [|? ? _ F]; inversion F as [|? ? _ F']; inversion F' as [|? ? B2 F''];
      inversion F'' as [|? ? B3 _]; subst.
    apply (ntohs_load_u16 host_le (Some (a0 :: a1 :: a2 :: a3 :: rest)) 2 a2 a3);
      try reflexivity; assumption.
  - destruct b1 as [|a0 [|a1 [|a2 rest]]]; simpl in H2; try lia.
    destruct b2 as [|c0 [|c1 rest2]]; simpl in H2'; try lia.
    unfold parse_l3_packet_len.
    change (Z.of_nat (length [a0; a1])) with 2. cbn [Z.leb Z.eqb Z.compare Pos.compare Pos.compare_cont andb].
    destruct (Z.leb_spec 4 (2 + Z.of_nat (length (c0 :: c1 :: rest2)))) as [_|Hlt];
      [|simpl length in Hlt; lia].
    inversion F2 as [|? ? B2 F]; inversion F as [|? ? B3 _]; subst.
    apply (ntohs_load_u16 host_le (Some (c0 :: c1 :: rest2)) 0 c0 c1);
      try reflexivity; assumption.
Qed.

(** Claim C6.  The claim is that for every split of the header over the
    two spans, [len1] of 1, 2 and 3 included, the function returns the
    total-length field of the concatenated stream.  For the stream
    45 00 05 dc (total length 1500) split after its first byte the source
    returns 5 on every host, and split after its third byte it returns
    56325 on a little-endian host. *)
Theorem parse_l3_packet_len_split_header :
  (forall host_le, parse_l3_packet_len host_le (Some [69]) 1 (Some [0; 5; 220]) 3 = Done 5) /\
  l3_total_length ([69] ++ [0; 5; 220]) = 1500 /\
  parse_l3_packet_len true (Some [69; 0; 5]) 3 (Some [220]) 1 = Done 56325 /\
  l3_total_length ([69; 0; 5] ++ [220]) = 1500.
Proof. repeat split. intros []; reflexivity. Qed.

(** ** fill_ring on a full ring *)

(** On a full backlog (wrapped, [start = end]) the handler refuses the
    packet, nothing changes, and [full] keeps the loop running. *)
Lemma fill_ring_playback_full_diverges (r : ring_buff_t) (b : tun_write_buff_t) w fuel :
  wraped r = true -> start r = end_ r -> 0 < twb_len1 b + twb_len2 b ->
  fst (fill_ring fuel (-1) r playback_tun_write_buf None b w) = OutOfFuel.
Proof.
  destruct r as [bb z st en wr]. cbn [wraped start end_].
  intros -> -> Hlen. unfold fill_ring.
  apply (do_while_diverges
           (fun s => f_ring s = Ring bb z en en true /\ f_ctx s = b /\ f_world s = w)).
  - intros [r' b' w' ret full] (Hr & Hb & Hw'). simpl in Hr, Hb, Hw'. subst r' b' w'.
    unfold fill_body, fill_call. proj_simpl.
    rewrite Z.eqb_refl, Z.sub_diag.
    unfold playback_tun_write_buf.
    destruct (Z.ltb_spec (0 + 0) (twb_len1 b + twb_len2 b)) as [_|Hge]; [|lia].
    cbn [h_buff h_tracker h_ctx h_world h_ret fill_push].
    eexists. split; [reflexivity|]. proj_simpl.
    rewrite orb_true_r.
    split; [reflexivity|]. split; [|auto].
    apply (ring_restore (Ring bb z en en true)).
  - auto.
Qed.

(** Claim C10.  The claim is that [fill_ring] terminates once the handler
    returns a non-OK status, also on a full ring with no pusher.  On the
    full backlog ring of 8 bytes, [push_pkt_to_tun_backlog_ring] of a
    4-byte packet does not return within any number of iterations: the
    handler answers [CONN_IO_OK_EXHAUSTED] each time and [full] is never
    cleared. *)
Theorem push_pkt_to_full_backlog_never_returns :
  forall fuel,
    let r := Ring [1; 2; 3; 4; 5; 6; 7; 8] 8 3 3 true in
    let w := World [] [] [] [] in
    fst (fill_ring fuel (-1) r playback_tun_write_buf None
           (TunWriteBuff (Some [69; 0; 0; 4]) None 4 0) w) = OutOfFuel /\
    push_pkt_to_tun_backlog_ring fuel (TunTx r 9) (Some [69; 0; 0; 4]) 4 None 0 false w
      = Timeout.
Proof.
  intros fuel r w.
  assert (H : fill_ring fuel (-1) r playback_tun_write_buf None
                (TunWriteBuff (Some [69; 0; 0; 4]) None 4 0) w
              = (OutOfFuel,
                 match fuel with
                 | O => FState r (TunWriteBuff (Some [69; 0; 0; 4]) None 4 0) w CONN_IO_OK false
                 | S _ => FState r (TunWriteBuff (Some [69; 0; 0; 4]) None 4 0) w
                            CONN_IO_OK_EXHAUSTED true
                 end)).
  { destruct fuel as [|n]; [reflexivity|].
    unfold fill_ring. simpl do_while.
    change (fill_body (-1) playback_tun_write_buf None
              (FState r (TunWriteBuff (Some [69; 0; 0; 4]) None 4 0) w CONN_IO_OK false))
      with (Next (FState r (TunWriteBuff (Some [69; 0; 0; 4]) None 4 0) w
                    CONN_IO_OK_EXHAUSTED true)).
    cbv iota beta. simpl orb.
    apply do_while_stuck; reflexivity. }
  split.
  - rewrite H. reflexivity.
  - unfold push_pkt_to_tun_backlog_ring. simpl backlog. rewrite H. reflexivity.
Qed.

(** ** Packets from the tun device to a connection *)

Lemma fill_call_refuse (s : fstate conn_bound_pkt_t) n additional full :
  already_written (f_ctx s) = 0 ->
  (if n <? len (pkt_buff (f_ctx s)) then n else len (pkt_buff (f_ctx s))) + additional
    < len (pkt_buff (f_ctx s)) ->
  exists w', fill_call (-1) read_from_tun_buff passthru s n additional full
    = Next (FState (f_ring s) (f_ctx s) w' CONN_IO_OK_NOT_ENOUGH_SPACE full).
Proof.
  intros Haw Hlt. unfold fill_call, read_from_tun_buff.
  rewrite Haw, Z.sub_0_r. cbn [Z.eqb andb].
  destruct (Z.ltb_spec ((if n <? len (pkt_buff (f_ctx s)) then n else len (pkt_buff (f_ctx s)))
                        + additional) (len (pkt_buff (f_ctx s)))) as [_|Hge]; [|lia].
  cbn [h_buff h_tracker h_ctx h_world h_ret].
  rewrite ring_restore.
  destruct (fill_push_passthru
              (FState (f_ring s) (f_ctx s) (f_world s) CONN_IO_OK_NOT_ENOUGH_SPACE full))
    as (w' & E).
  exists w'. exact E.
Qed.

Lemma fill_call_copy (s : fstate conn_bound_pkt_t) n additional full :
  let pkt := f_ctx s in
  let r := f_ring s in
  let aw := already_written pkt in
  let tw := if n <? len (pkt_buff pkt) - aw then n else len (pkt_buff pkt) - aw in
  (aw = 0 -> len (pkt_buff pkt) <= tw + additional) ->
  0 <= end_ r -> 0 <= aw -> 0 <= tw ->
  aw + tw <= Z.of_nat (length (tpb_buff (pkt_buff pkt))) ->
  end_ r + tw <= Z.of_nat (length (buff r)) ->
  exists w', fill_call (-1) read_from_tun_buff passthru s n additional full
    = Next (FState
              (Ring (splice (buff r) (Z.to_nat (end_ r))
                       (firstn (Z.to_nat tw) (skipn (Z.to_nat aw) (tpb_buff (pkt_buff pkt)))))
                    (sz r) (start r) (end_ r + tw) (wraped r))
              (ConnBoundPkt (pkt_buff pkt) (dest_fd pkt) (aw + tw)) w'
              (if aw + tw =? len (pkt_buff pkt) then CONN_IO_OK_EXHAUSTED else CONN_IO_OK)
              full).
Proof.
  intros pkt r aw tw Hfit He Haw Htw Hsrc Hdst.
  unfold fill_call, read_from_tun_buff.
  fold pkt r aw. fold tw.
  assert (Hc : (aw =? 0) && (tw + additional <? len (pkt_buff pkt)) = false).
  { destruct (Z.eqb_spec aw 0) as [H0|_]; [|reflexivity].
    specialize (Hfit H0). simpl.
    destruct (Z.ltb_spec (tw + additional) (len (pkt_buff pkt))); [lia|reflexivity]. }
  rewrite Hc.
  rewrite memcpy_ok; cycle 1.
  { exact Htw. }
  { unfold ptr_add. rewrite length_skipn. lia. }
  { unfold ptr_add. rewrite length_skipn. lia. }
  cbn [bind]. unfold add_through, ptr_to. cbn [displacement pointee Z.eqb bind].
  cbn [h_buff h_tracker h_ctx h_world h_ret already_written].
  unfold ptr_add at 1.
  rewrite store_memcpy_splice; cycle 1.
  { exact He. }
  { exact Htw. }
  { rewrite length_skipn. lia. }
  match goal with
  | |- context [fill_push _ ?st] => destruct (fill_push_passthru st) as (w' & E)
  end.
  exists w'. rewrite E. destruct r as [b z st en wr]; reflexivity.
Qed.

(** The wrapped ring with room: one call of the handler. *)
Lemma fill_wrapped_with_room b z st en pkt dfd aw w ret0 fuel :
  let r := Ring b z st en true in
  ring_wf r -> pkt_wf pkt -> en < st ->
  0 <= aw -> (aw = 0 \/ len pkt - aw <= st - en) ->
  aw <= len pkt ->
  exists s,
    do_while (S fuel) (fill_body (-1) read_from_tun_buff passthru)
      (fun s => (CONN_IO_OK =? f_ret s) || f_full s)
      (FState r (ConnBoundPkt pkt dfd aw) w ret0 false) = (Returned, s) /\
    ((aw = 0 /\ st - en < len pkt /\ f_ring s = r /\ f_ret s = CONN_IO_OK_NOT_ENOUGH_SPACE) \/
     ((aw = 0 -> len pkt <= st - en) /\
      f_ring s = Ring (splice b (Z.to_nat en)
                         (firstn (Z.to_nat (len pkt - aw)) (skipn (Z.to_nat aw) (tpb_buff pkt))))
                      z st (en + (len pkt - aw)) true /\
      f_ret s = CONN_IO_OK_EXHAUSTED)).
Proof.
  intros r (Hinv & Hlen) Hpkt Hroom Haw Hprom Hawle.
  unfold ring_inv, ring_occupied, pkt_wf in *. subst r. proj_simpl.
  rewrite do_while_unfold. unfold fill_body. proj_simpl.
  destruct (Z.eqb_spec st en) as [Heq|_]; [lia|].
  destruct (Z.eq_dec aw 0) as [H0|Hn0].
  - destruct (Z.lt_ge_cases (st - en) (len pkt)) as [Hbig|Hfit].
    + destruct (fill_call_refuse (FState (Ring b z st en true) (ConnBoundPkt pkt dfd aw) w ret0 false)
                  (st - en) 0 false) as (w' & E).
      * exact H0.
      * proj_simpl. destruct (Z.ltb_spec (st - en) (len pkt)); lia.
      * rewrite E. cbn [f_ret f_full]. simpl orb.
        eexists. split; [reflexivity|]. left. proj_simpl. auto.
    + pose proof (fill_call_copy (FState (Ring b z st en true) (ConnBoundPkt pkt dfd aw) w ret0 false)
                    (st - en) 0 false) as Hc.
      cbv zeta in Hc. proj_simpl.
      destruct (Z.ltb_spec (st - en) (len pkt - aw)) as [Hx|Hx]; [lia|].
      destruct Hc as (w' & E); try lia.
      rewrite E. proj_simpl.
      replace (aw + (len pkt - aw)) with (len pkt) by lia.
      rewrite Z.eqb_refl. simpl orb.
      eexists. split; [reflexivity|]. right. proj_simpl. auto.
  - destruct Hprom as [H0|Hprom]; [contradiction|].
    pose proof (fill_call_copy (FState (Ring b z st en true) (ConnBoundPkt pkt dfd aw) w ret0 false)
                  (st - en) 0 false) as Hc.
    cbv zeta in Hc. proj_simpl.
    destruct (Z.ltb_spec (st - en) (len pkt - aw)) as [Hx|Hx]; [lia|].
    destruct Hc as (w' & E); try lia.
    rewrite E. proj_simpl.
    replace (aw + (len pkt - aw)) with (len pkt) by lia.
    rewrite Z.eqb_refl. simpl orb.
    eexists. split; [reflexivity|]. right. proj_simpl. intuition lia.
Qed.

(** The ring whose tail is used up: [end] wraps to 0 first. *)
Lemma fill_open_at_end b z st pkt dfd w fuel :
  let r := Ring b z st z false in
  ring_wf r -> pkt_wf pkt -> 0 < st ->
  exists s,
    do_while (S (S fuel)) fill_step fill_cond
      (FState r (ConnBoundPkt pkt dfd 0) w CONN_IO_OK false) = (Returned, s) /\
    ((st < len pkt /\ f_ring s = Ring b z st 0 true /\ f_ret s = CONN_IO_OK_NOT_ENOUGH_SPACE) \/
     (len pkt <= st /\
      f_ring s = Ring (splice b 0 (firstn (Z.to_nat (len pkt)) (tpb_buff pkt))) z st (len pkt) true /\
      f_ret s = CONN_IO_OK_EXHAUSTED)).
Proof.
  intros r Hwf Hpkt Hst.
  rewrite do_while_unfold. unfold fill_body at 1. subst r. proj_simpl.
  rewrite Z.eqb_refl. proj_simpl. simpl orb.
  unfold set_wraped, set_end. proj_simpl.
  destruct (fill_wrapped_with_room b z st 0 pkt dfd 0 w CONN_IO_OK fuel) as (s & E & Hs).
  - destruct Hwf as (Hinv & Hlen). unfold ring_wf, ring_inv, ring_occupied in *. proj_simpl.
    intuition (try discriminate; lia).
  - exact Hpkt.
  - lia.
  - lia.
  - left; reflexivity.
  - unfold pkt_wf in Hpkt. lia.
  - exists s. split; [exact E|].
    destruct Hs as [(_ & Hlt & Hr & Hret)|(Hfit & Hr & Hret)].
    + left. repeat split; try assumption. lia.
    + right. rewrite Z.sub_0_r, Z.add_0_l in Hr. simpl in Hr.
      specialize (Hfit eq_refl). repeat split; try assumption. lia.
Qed.

(** The ring with room at its tail. *)
Lemma fill_open_with_room b z st en pkt dfd w fuel :
  let r := Ring b z st en false in
  ring_wf r -> pkt_wf pkt -> en < z ->
  exists s,
    do_while (S (S (S fuel))) fill_step fill_cond
      (FState r (ConnBoundPkt pkt dfd 0) w CONN_IO_OK false) = (Returned, s) /\
    ((z - en + st < len pkt /\ f_ring s = r /\ f_ret s = CONN_IO_OK_NOT_ENOUGH_SPACE) \/
     (len pkt <= z - en /\
      f_ring s = Ring (splice b (Z.to_nat en) (firstn (Z.to_nat (len pkt)) (tpb_buff pkt)))
                   z st (en + len pkt) false /\
      f_ret s = CONN_IO_OK_EXHAUSTED) \/
     (z - en < len pkt <= z - en + st /\
      f_ring s = Ring (splice (splice b (Z.to_nat en) (firstn (Z.to_nat (z - en)) (tpb_buff pkt)))
                         0 (firstn (Z.to_nat (len pkt - (z - en)))
                              (skipn (Z.to_nat (z - en)) (tpb_buff pkt))))
                   z st (len pkt - (z - en)) true /\
      f_ret s = CONN_IO_OK_EXHAUSTED)).
Proof.
  intros r Hwf Hpkt Hroom.
  pose proof Hwf as (Hinv & Hlen).
  unfold ring_inv, ring_occupied, pkt_wf in *. subst r. proj_simpl.
  rewrite do_while_unfold. unfold fill_body at 1. proj_simpl.
  destruct (Z.eqb_spec z en) as [Heq|_]; [lia|].
  destruct (Z.lt_ge_cases (z - en + st) (len pkt)) as [Hbig|Hfit].
  - destruct (fill_call_refuse (FState (Ring b z st en false) (ConnBoundPkt pkt dfd 0) w CONN_IO_OK false)
                (z - en) st false) as (w' & E).
    + reflexivity.
    + proj_simpl. destruct (Z.ltb_spec (z - en) (len pkt)); lia.
    + rewrite E. cbn [f_ret f_full]. simpl orb.
      eexists. split; [reflexivity|]. left. proj_simpl. auto.
  - pose proof (fill_call_copy (FState (Ring b z st en false) (ConnBoundPkt pkt dfd 0) w CONN_IO_OK false)
                  (z - en) st false) as Hc.
    cbv zeta in Hc. proj_simpl. rewrite Z.sub_0_r in Hc.
    destruct (Z.ltb_spec (z - en) (len pkt)) as [Hsplit|Hone].
    + (* the packet goes around the end of the block *)
      destruct Hc as (w' & E); try lia.
      rewrite E. proj_simpl. rewrite Z.add_0_l.
      destruct (Z.eqb_spec (z - en) (len pkt)) as [Heq|_]; [lia|].
      simpl orb. cbv beta.
      rewrite do_while_unfold. unfold fill_body at 1. proj_simpl.
      replace (en + (z - en)) with z by lia.
      rewrite Z.eqb_refl. proj_simpl. simpl orb.
      unfold set_wraped, set_end. proj_simpl.
      simpl (skipn (Z.to_nat 0) _).
      set (b1 := splice b (Z.to_nat en) (firstn (Z.to_nat (z - en)) (tpb_buff pkt))).
      assert (Hb1 : length b1 = length b).
      { apply splice_length. rewrite length_firstn. lia. }
      destruct (fill_wrapped_with_room b1 z st 0 pkt dfd (z - en) w' CONN_IO_OK fuel)
        as (s & E2 & Hs).
      * unfold ring_wf, ring_inv, ring_occupied. proj_simpl.
        intuition (try discriminate; lia).
      * unfold pkt_wf. lia.
      * lia.
      * lia.
      * right. lia.
      * lia.
      * exists s. split; [exact E2|].
        destruct Hs as [(H0 & _)|(_ & Hr & Hret)]; [lia|].
        right. right. rewrite Z.add_0_l in Hr. simpl (Z.to_nat 0) in Hr.
        repeat split; try assumption; lia.
    + destruct Hc as (w' & E); try lia.
      rewrite E. proj_simpl. rewrite Z.add_0_l, Z.eqb_refl. simpl orb.
      eexists. split; [reflexivity|]. right. left. proj_simpl. auto.
Qed.

(** With a free byte the fill returns within three runs of the body. *)
Lemma fill_ring_read_returns (r : ring_buff_t) pkt dfd w fuel :
  ring_wf r -> pkt_wf pkt -> 0 < ring_free r -> (3 <= fuel)%nat ->
  exists s,
    fill_ring fuel (-1) r read_from_tun_buff passthru (ConnBoundPkt pkt dfd 0) w
    = (Returned, s) /\ enqueue_post r pkt s.
Proof.
  intros Hwf Hpkt Hfree Hfuel.
  destruct fuel as [|[|[|fuel]]]; try lia.
  destruct r as [b z st en wr].
  pose proof Hwf as (Hinv & Hlen). pose proof Hpkt as Hp.
  unfold ring_inv, ring_occupied, ring_free, pkt_wf in Hinv, Hlen, Hfree, Hp.
  proj_simpl. unfold fill_ring.
  set (P := tpb_buff pkt) in *.
  set (L := len pkt) in *.
  assert (HX : length (firstn (Z.to_nat L) P) = Z.to_nat L) by (apply firstn_len_Z; lia).
  destruct wr; cbv iota in Hinv, Hfree.
  - (* wrapped *)
    destruct (fill_wrapped_with_room b z st en pkt dfd 0 w CONN_IO_OK (S (S fuel)))
      as (s & E & Hs); try assumption; try lia.
    exists s. split; [exact E|].
    unfold enqueue_post, ring_free, ring_bytes. proj_simpl.
    destruct Hs as [(_ & Hlt & Hr & Hret)|(Hfit & Hr & Hret)]; rewrite Hr; proj_simpl.
    + split; [exact Hwf|]. split; [reflexivity|]. left. auto.
    + specialize (Hfit eq_refl). fold L P in Hr, Hfit |- *.
      rewrite Z.sub_0_r. simpl (Z.to_nat 0). rewrite skipn_0.
      assert (Hlen' : length (splice b (Z.to_nat en) (firstn (Z.to_nat L) P)) = length b).
      { apply splice_length. lia. }
      split; [|split; [reflexivity|right]].
      * unfold ring_wf, ring_inv, ring_occupied. proj_simpl.
        rewrite Hlen'. intuition (try discriminate; lia).
      * split; [exact Hret|]. split; [exact Hfit|].
        rewrite (firstn_all2 (n := Z.to_nat z)) by lia.
        rewrite (firstn_all2 (n := Z.to_nat z) b) by lia.
        rewrite splice_skipn_after by lia.
        replace (Z.to_nat (en + L)) with (Z.to_nat en + length (firstn (Z.to_nat L) P))%nat by lia.
        rewrite splice_firstn by lia.
        rewrite app_assoc. reflexivity.
  - (* not wrapped *)
    destruct (Z.eq_dec en z) as [->|Hne].
    + destruct (fill_open_at_end b z st pkt dfd w (S fuel)) as (s & E & Hs);
        try assumption; try lia.
      exists s. split; [exact E|].
      unfold enqueue_post, ring_free, ring_bytes. proj_simpl.
      assert (Hall : firstn (Z.to_nat (z - st)) (skipn (Z.to_nat st) b) = skipn (Z.to_nat st) b).
      { apply firstn_all2. rewrite length_skipn. lia. }
      destruct Hs as [(Hlt & Hr & Hret)|(Hfit & Hr & Hret)]; rewrite Hr; proj_simpl.
      * split; [|split; [reflexivity|left]].
        -- unfold ring_wf, ring_inv, ring_occupied. proj_simpl.
           intuition (try discriminate; lia).
        -- split; [exact Hret|]. split; [fold L; lia|]. split; [reflexivity|].
           rewrite Hall. simpl (Z.to_nat 0). rewrite firstn_0, app_nil_r.
           rewrite firstn_all2 by lia. reflexivity.
      * fold L P in Hr, Hfit |- *.
        assert (Hlen' : length (splice b 0 (firstn (Z.to_nat L) P)) = length b).
        { apply splice_length. lia. }
        split; [|split; [reflexivity|right]].
        -- unfold ring_wf, ring_inv, ring_occupied. proj_simpl.
           rewrite Hlen'. intuition (try discriminate; lia).
        -- split; [exact Hret|]. split; [lia|].
           rewrite Hall.
           rewrite (firstn_all2 (n := Z.to_nat z)) by lia.
           rewrite splice_skipn_after by lia.
           replace (Z.to_nat L) with (0 + length (firstn (Z.to_nat L) P))%nat at 1 by lia.
           rewrite splice_firstn by lia.
           reflexivity.
    + destruct (fill_open_with_room b z st en pkt dfd w fuel) as (s & E & Hs);
        try assumption; try lia.
      exists s. split; [exact E|].
      unfold enqueue_post, ring_free, ring_bytes. proj_simpl.
      assert (Hpre : firstn (Z.to_nat (en - st)) (skipn (Z.to_nat st) b)
                     = skipn (Z.to_nat st) (firstn (Z.to_nat en) b)).
      { rewrite firstn_skipn_comm. do 2 f_equal. lia. }
      destruct Hs as [(Hlt & Hr & Hret)|[(Hfit & Hr & Hret)|(Hsplit & Hr & Hret)]];
        rewrite Hr; proj_simpl.
      * split; [exact Hwf|]. split; [reflexivity|]. left. fold L. auto.
      * fold L P in Hr, Hfit |- *.
        assert (Hlen' : length (splice b (Z.to_nat en) (firstn (Z.to_nat L) P)) = length b).
        { apply splice_length. lia. }
        split; [|split; [reflexivity|right]].
        -- unfold ring_wf, ring_inv, ring_occupied. proj_simpl.
           rewrite Hlen'. intuition (try discriminate; lia).
        -- split; [exact Hret|]. split; [lia|].
           rewrite splice_skipn_before by lia.
           rewrite Hpre.
           replace (Z.to_nat (en + L - st))
             with (length (skipn (Z.to_nat st) (firstn (Z.to_nat en) b))
                   + length (firstn (Z.to_nat L) P))%nat
             by (rewrite length_skipn, length_firstn; lia).
           rewrite firstn_app.
           rewrite firstn_all2 by lia.
           f_equal.
           replace (_ + _ - _)%nat with (length (firstn (Z.to_nat L) P)) by lia.
           rewrite firstn_app, firstn_all2 by lia.
           rewrite Nat.sub_diag, firstn_0, app_nil_r. reflexivity.
      * fold L P in Hr, Hsplit |- *.
        set (c := z - en) in *.
        set (X1 := firstn (Z.to_nat c) P) in *.
        set (Y := firstn (Z.to_nat (L - c)) (skipn (Z.to_nat c) P)) in *.
        assert (HX1 : length X1 = Z.to_nat c) by (apply firstn_len_Z; lia).
        assert (HY : length Y = Z.to_nat (L - c)).
        { subst Y. rewrite length_firstn, length_skipn. lia. }
        assert (Hb1 : length (splice b (Z.to_nat en) X1) = length b).
        { apply splice_length. lia. }
        assert (Hb2 : length (splice (splice b (Z.to_nat en) X1) 0 Y) = length b).
        { rewrite splice_length; lia. }
        split; [|split; [reflexivity|right]].
        -- unfold ring_wf, ring_inv, ring_occupied. proj_simpl.
           rewrite Hb2. intuition (try discriminate; lia).
        -- split; [exact Hret|]. split; [lia|].
           rewrite (firstn_all2 (n := Z.to_nat z)) by lia.
           rewrite splice_skipn_after by lia.
           rewrite splice_skipn_before by lia.
           rewrite (skipn_all2 (n := (Z.to_nat en + length X1)%nat)) by lia.
           rewrite app_nil_r.
           replace (Z.to_nat (L - c)) with (0 + length Y)%nat at 1 by lia.
           rewrite splice_firstn by lia.
           rewrite firstn_0, app_nil_l.
           rewrite Hpre, <- app_assoc. f_equal.
           subst X1 Y.
           replace (Z.to_nat L) with (Z.to_nat c + Z.to_nat (L - c))%nat by lia.
           apply eq_sym, firstn_add_split.
Qed.

(** The full wrapped ring: every run of the body ends as it began. *)
Lemma fill_full_wrapped_step b z st pkt dfd (s : fstate conn_bound_pkt_t) :
  ring_wf (Ring b z st st true) -> pkt_wf pkt ->
  f_ring s = Ring b z st st true -> f_ctx s = ConnBoundPkt pkt dfd 0 ->
  exists s', fill_step s = Next s' /\ fill_cond s' = true /\
             f_ring s' = Ring b z st st true /\ f_ctx s' = ConnBoundPkt pkt dfd 0.
Proof.
  intros (Hinv & Hlen) Hpkt Hr Hc.
  unfold ring_inv, ring_occupied, pkt_wf in *. proj_simpl.
  destruct s as [r c w ret full]. proj_simpl. subst r c.
  unfold fill_body. proj_simpl. rewrite Z.eqb_refl, Z.sub_diag.
  destruct (Z.eq_dec (len pkt) 0) as [H0|Hpos].
  - pose proof (fill_call_copy (FState (Ring b z st st true) (ConnBoundPkt pkt dfd 0) w ret full)
                  0 0 true) as Hc.
    cbv zeta in Hc. proj_simpl. rewrite H0 in Hc. simpl in Hc.
    destruct Hc as (w' & E); try lia.
    rewrite E. rewrite splice_nil, Z.add_0_r.
    eexists. split; [reflexivity|]. proj_simpl.
    rewrite orb_true_r. auto.
  - destruct (fill_call_refuse (FState (Ring b z st st true) (ConnBoundPkt pkt dfd 0) w ret full)
                0 0 true) as (w' & E).
    + reflexivity.
    + proj_simpl. destruct (Z.ltb_spec 0 (len pkt)); lia.
    + rewrite E. eexists. split; [reflexivity|]. proj_simpl.
      rewrite orb_true_r. auto.
Qed.

(** Without a free byte the fill never returns. *)
Lemma fill_ring_read_full_diverges (r : ring_buff_t) pkt dfd w fuel :
  ring_wf r -> pkt_wf pkt -> ring_free r = 0 ->
  fst (fill_ring fuel (-1) r read_from_tun_buff passthru (ConnBoundPkt pkt dfd 0) w)
  = OutOfFuel.
Proof.
  intros Hwf Hpkt Hfree.
  destruct r as [b z st en wr].
  pose proof Hwf as (Hinv & Hlen).
  unfold ring_inv, ring_occupied, ring_free in Hinv, Hfree. proj_simpl.
  unfold fill_ring.
  destruct wr; cbv iota in Hinv, Hfree.
  - assert (en = st) by lia. subst en.
    apply (do_while_diverges
             (fun s => f_ring s = Ring b z st st true /\ f_ctx s = ConnBoundPkt pkt dfd 0)).
    + intros s (Hr & Hc).
      destruct (fill_full_wrapped_step b z st pkt dfd s Hwf Hpkt Hr Hc) as (s' & E & Hcond & Hs').
      exists s'. auto.
    + auto.
  - assert (en = z) by lia. assert (st = 0) by lia. subst en st.
    destruct fuel as [|fuel]; [reflexivity|].
    rewrite do_while_unfold. unfold fill_body at 1. proj_simpl.
    rewrite Z.eqb_refl. proj_simpl. simpl orb.
    unfold set_wraped, set_end. proj_simpl.
    assert (Hwf' : ring_wf (Ring b z 0 0 true)).
    { unfold ring_wf, ring_inv, ring_occupied. proj_simpl. intuition (try discriminate; lia). }
    apply (do_while_diverges
             (fun s => f_ring s = Ring b z 0 0 true /\ f_ctx s = ConnBoundPkt pkt dfd 0)).
    + intros s (Hr & Hc).
      destruct (fill_full_wrapped_step b z 0 pkt dfd s Hwf' Hpkt Hr Hc) as (s' & E & Hcond & Hs').
      exists s'. auto.
    + auto.
Qed.

Lemma ring_free_nonneg (r : ring_buff_t) : ring_inv r -> 0 <= ring_free r.
Proof.
  unfold ring_inv, ring_free, ring_occupied.
  destruct (wraped r); intuition lia.
Qed.

(** Whenever the fill of [write_to_conn] returns, it has refused the
    packet whole or enqueued it whole. *)
Lemma fill_ring_read_post (r : ring_buff_t) pkt dfd w fuel s :
  ring_wf r -> pkt_wf pkt ->
  fill_ring fuel (-1) r read_from_tun_buff passthru (ConnBoundPkt pkt dfd 0) w = (Returned, s) ->
  0 < ring_free r /\ enqueue_post r pkt s.
Proof.
  intros Hwf Hpkt E.
  assert (Hfree : 0 < ring_free r).
  { pose proof (ring_free_nonneg r (proj1 Hwf)) as Hnn.
    destruct (Z.eq_dec (ring_free r) 0) as [H0|Hn0]; [|lia].
    pose proof (fill_ring_read_full_diverges r pkt dfd w fuel Hwf Hpkt H0) as Hd.
    rewrite E in Hd. discriminate. }
  split; [exact Hfree|].
  destruct (fill_ring_read_returns r pkt dfd w (fuel + 3) Hwf Hpkt Hfree) as (s2 & E2 & Hpost);
    [lia|].
  unfold fill_ring in E, E2.
  rewrite (do_while_mono _ _ fuel _ s 3%nat E) in E2.
  injection E2 as <-. exact Hpost.
Qed.

Lemma load_ring_conn_tx (ctx : io_ctx_t) c sock cd :
  sockets ctx !! c = Some sock -> d sock = DConn cd ->
  load_sock ctx c = Done sock /\ load_ring ctx (c, conn_tx) = Done (c_tx cd).
Proof.
  intros Hs Hd. unfold load_ring, load_sock. simpl.
  rewrite Hs. simpl. rewrite Hd. simpl. auto.
Qed.

Lemma store_ring_conn_tx (ctx : io_ctx_t) c sock cd r :
  sockets ctx !! c = Some sock -> d sock = DConn cd ->
  exists ctx',
    store_ring ctx (c, conn_tx) r = Done ctx' /\
    c_world_tx ctx' = c_world_tx ctx /\
    load_ring ctx' (c, conn_tx) = Done r.
Proof.
  intros Hs Hd. unfold store_ring, load_sock. simpl.
  rewrite Hs. simpl. rewrite Hd. simpl.
  eexists. split; [reflexivity|]. split; [reflexivity|].
  unfold load_ring, load_sock. simpl.
  rewrite lookup_insert_eq. reflexivity.
Qed.

(** What [write_to_conn] does when it returns: with no live socket the
    world-tx drop counters are incremented ([drop_p] by 1, [drop_b] by
    the packet's length); when the fill of the connection's tx ring
    returns [CONN_IO_OK_NOT_ENOUGH_SPACE], which it does when the free
    bytes of the ring are fewer than the packet, they are incremented
    too and the block and the occupied bytes of the ring are as they
    were; when the fill returns [CONN_IO_OK_EXHAUSTED] the counters are
    unchanged and the packet's bytes follow the bytes the ring held.
    The call returns whenever the ring has a free byte. *)
Lemma write_to_conn_drop_accounting fuel ctx c sock cd pkt w :
  sockets ctx !! c = Some sock -> d sock = DConn cd ->
  ring_wf (c_tx cd) -> pkt_wf pkt ->
  write_to_conn fuel ctx None pkt w = Done (count_drop ctx pkt, w) /\
  (0 < ring_free (c_tx cd) -> (3 <= fuel)%nat ->
   exists res, write_to_conn fuel ctx (Some c) pkt w = Done res) /\
  (forall ctx' w',
     write_to_conn fuel ctx (Some c) pkt w = Done (ctx', w') ->
     exists s,
       fill_ring fuel (-1) (c_tx cd) read_from_tun_buff (Some write_passthru_to_conn)
         (ConnBoundPkt pkt (fd sock) 0) w = (Returned, s) /\
       w' = f_world s /\
       load_ring ctx' (c, conn_tx) = Done (f_ring s) /\
       ring_wf (f_ring s) /\
       ((f_ret s = CONN_IO_OK_NOT_ENOUGH_SPACE /\
         ring_free (c_tx cd) < len pkt /\
         drop_p (c_world_tx ctx') = uint64 (drop_p (c_world_tx ctx) + 1) /\
         drop_b (c_world_tx ctx') = uint64 (drop_b (c_world_tx ctx) + len pkt) /\
         buff (f_ring s) = buff (c_tx cd) /\
         ring_bytes (f_ring s) = ring_bytes (c_tx cd)) \/
        (f_ret s = CONN_IO_OK_EXHAUSTED /\
         len pkt <= ring_free (c_tx cd) /\
         c_world_tx ctx' = c_world_tx ctx /\
         ring_bytes (f_ring s)
         = ring_bytes (c_tx cd) ++ firstn (Z.to_nat (len pkt)) (tpb_buff pkt)))).
Proof.
  intros Hs Hd Hwf Hpkt.
  destruct (load_ring_conn_tx ctx c sock cd Hs Hd) as (Els & Elr).
  split; [reflexivity|]. split.
  - intros Hfree Hfuel.
    destruct (fill_ring_read_returns (c_tx cd) pkt (fd sock) w fuel Hwf Hpkt Hfree Hfuel)
      as (s & E & (_ & _ & Hpost)).
    destruct (store_ring_conn_tx ctx c sock cd (f_ring s) Hs Hd) as (ctx1 & Est & _).
    unfold write_to_conn. rewrite Els, Elr. cbn [bind]. rewrite E, Est. cbn [bind].
    destruct Hpost as [(Hret & _)|(Hret & _)]; rewrite Hret; simpl; eauto.
  - intros ctx' w' H.
    unfold write_to_conn in H. rewrite Els, Elr in H. cbn [bind] in H.
    destruct (fill_ring fuel (-1) (c_tx cd) read_from_tun_buff passthru
                (ConnBoundPkt pkt (fd sock) 0) w) as [[| |] s] eqn:E; try discriminate.
    destruct (fill_ring_read_post (c_tx cd) pkt (fd sock) w fuel s Hwf Hpkt E)
      as (Hfree & Hwf' & _ & Hpost).
    destruct (store_ring_conn_tx ctx c sock cd (f_ring s) Hs Hd) as (ctx1 & Est & Hctr & Hld).
    rewrite Est in H. cbn [bind] in H.
    exists s. split; [reflexivity|].
    destruct Hpost as [(Hret & Hlt & Hb & Hbytes)|(Hret & Hle & Hbytes)];
      rewrite Hret in H; simpl in H; injection H as <- <-.
    + split; [reflexivity|]. split; [exact Hld|]. split; [exact Hwf'|].
      left. simpl. rewrite Hctr. auto 10.
    + split; [reflexivity|]. split; [exact Hld|]. split; [exact Hwf'|].
      right. auto.
Qed.

(** [write_to_conn_drop_accounting] for a 5-byte packet and a ring of 8
    bytes holding 3. *)
Lemma write_to_conn_drop_accounting_witness :
  exists res,
    write_to_conn 3 example_ctx (Some 7) example_pkt (World [] [] [] []) = Done res.
Proof.
  assert (Hwf : ring_wf (c_tx example_conn)).
  { unfold ring_wf, ring_inv, ring_occupied; simpl. intuition (try discriminate; lia). }
  assert (Hpkt : pkt_wf example_pkt) by (unfold pkt_wf; simpl; lia).
  destruct (write_to_conn_drop_accounting 3 example_ctx 7 (IoSock 7 conn (DConn example_conn))
              example_conn example_pkt (World [] [] [] []) eq_refl eq_refl Hwf Hpkt)
    as (_ & Hret & _).
  apply Hret; [unfold ring_free; simpl; lia|lia].
Defined.

(** The occupied bytes of a ring are as many as [ring_occupied] says. *)
Lemma ring_bytes_length (r : ring_buff_t) :
  ring_wf r -> Z.of_nat (length (ring_bytes r)) = ring_occupied r.
Proof.
  destruct r as [b z st en wr]. intros (Hinv & Hlen).
  unfold ring_inv, ring_occupied, ring_bytes in *. proj_simpl.
  destruct wr.
  - rewrite length_app, length_skipn, !length_firstn. lia.
  - rewrite length_firstn, length_skipn. lia.
Qed.

Lemma ring_free_occupied (r : ring_buff_t) : ring_free r = sz r - ring_occupied r.
Proof. unfold ring_free, ring_occupied. destruct (wraped r); lia. Qed.

(** On a tx ring without a free byte [write_to_conn] does not return. *)
Lemma write_to_conn_full_ring_diverges fuel ctx c sock cd pkt w :
  sockets ctx !! c = Some sock -> d sock = DConn cd ->
  ring_wf (c_tx cd) -> pkt_wf pkt -> ring_free (c_tx cd) = 0 ->
  write_to_conn fuel ctx (Some c) pkt w = Timeout.
Proof.
  intros Hs Hd Hwf Hpkt Hfree.
  destruct (load_ring_conn_tx ctx c sock cd Hs Hd) as (Els & Elr).
  unfold write_to_conn. rewrite Els, Elr. cbn [bind].
  pose proof (fill_ring_read_full_diverges (c_tx cd) pkt (fd sock) w fuel Hwf Hpkt Hfree) as Hd'.
  destruct (fill_ring fuel (-1) (c_tx cd) read_from_tun_buff passthru
              (ConnBoundPkt pkt (fd sock) 0) w) as [e s].
  cbn [fst] in Hd'. rewrite Hd'. reflexivity.
Qed.

(** Claim C8.  The claim is that the drop counters are incremented
    exactly when a packet cannot be delivered, a tx ring that cannot hold
    the packet making the fill return [CONN_IO_OK_NOT_ENOUGH_SPACE].  In
    the source a packet that takes the last free bytes of the tx ring is
    enqueued, with the counters unchanged, and leaves the ring full.
    For every packet after it the handler does answer
    [CONN_IO_OK_NOT_ENOUGH_SPACE], but [fill_ring] has set [full], the
    pusher [write_passthru_to_conn] moves nothing, and the loop
    [while (CONN_IO_OK == ret || full)] goes on: whatever the bound on the
    iterations, [write_to_conn] has not returned, and the packet that
    cannot be enqueued is not counted as dropped. *)
Theorem write_to_conn_hangs_on_full_ring fuel ctx c sock cd pkt w :
  sockets ctx !! c = Some sock -> d sock = DConn cd ->
  ring_wf (c_tx cd) -> pkt_wf pkt ->
  0 < len pkt -> len pkt = ring_free (c_tx cd) -> (3 <= fuel)%nat ->
  exists ctx' w' sock' cd',
    write_to_conn fuel ctx (Some c) pkt w = Done (ctx', w') /\
    c_world_tx ctx' = c_world_tx ctx /\
    sockets ctx' !! c = Some sock' /\ d sock' = DConn cd' /\
    ring_wf (c_tx cd') /\ ring_free (c_tx cd') = 0 /\
    ring_bytes (c_tx cd') = ring_bytes (c_tx cd) ++ firstn (Z.to_nat (len pkt)) (tpb_buff pkt) /\
    forall fuel' pkt' w'',
      pkt_wf pkt' -> write_to_conn fuel' ctx' (Some c) pkt' w'' = Timeout.
Proof.
  intros Hs Hd Hwf Hpkt Hpos Hfit Hfuel.
  destruct (load_ring_conn_tx ctx c sock cd Hs Hd) as (Els & Elr).
  destruct (fill_ring_read_returns (c_tx cd) pkt (fd sock) w fuel Hwf Hpkt) as (s & E & Hpost);
    [lia|exact Hfuel|].
  destruct Hpost as (Hwf' & Hsz & [(_ & Hlt & _)|(Hret & _ & Hbytes)]); [lia|].
  set (cd' := ConnData (c_peer cd) (c_af cd) (c_outbound cd) (c_rx cd) (f_ring s)).
  set (sock' := IoSock (fd sock) (typ sock) (DConn cd')).
  exists (set_sockets ctx (<[c := sock']> (sockets ctx))), (f_world s), sock', cd'.
  assert (Hfull : ring_free (f_ring s) = 0).
  { rewrite ring_free_occupied, <- (ring_bytes_length _ Hwf'), Hbytes, length_app, Hsz.
    rewrite (ring_free_occupied (c_tx cd)), <- (ring_bytes_length _ Hwf) in Hfit.
    rewrite length_firstn. unfold pkt_wf in Hpkt. lia. }
  assert (Hs' : sockets (set_sockets ctx (<[c := sock']> (sockets ctx))) !! c = Some sock')
    by (cbn [set_sockets sockets]; apply lookup_insert_eq).
  split.
  - unfold write_to_conn. rewrite Els, Elr. cbn [bind]. rewrite E.
    unfold store_ring. cbn [fst snd]. rewrite Els. cbn [bind]. rewrite Hd. cbn [d_conn bind].
    rewrite Hret. reflexivity.
  - split; [reflexivity|]. split; [exact Hs'|]. split; [reflexivity|].
    split; [exact Hwf'|]. split; [exact Hfull|]. split; [exact Hbytes|].
    intros fuel' pkt' w'' Hpkt'.
    apply (write_to_conn_full_ring_diverges fuel' _ c sock' cd' pkt' w'' Hs' eq_refl Hwf' Hpkt'
             Hfull).
Qed.

(** [write_to_conn_hangs_on_full_ring] for a 5-byte packet and a ring of
    8 bytes holding 3. *)
Lemma write_to_conn_hangs_on_full_ring_witness :
  exists ctx' w' sock' cd',
    write_to_conn 3 example_ctx (Some 7) example_pkt (World [] [] [] []) = Done (ctx', w') /\
    c_world_tx ctx' = c_world_tx example_ctx /\
    sockets ctx' !! 7 = Some sock' /\ d sock' = DConn cd' /\
    ring_wf (c_tx cd') /\ ring_free (c_tx cd') = 0 /\
    ring_bytes (c_tx cd')
    = ring_bytes (c_tx example_conn)
      ++ firstn (Z.to_nat (len example_pkt)) (tpb_buff example_pkt) /\
    forall fuel' pkt' w'',
      pkt_wf pkt' -> write_to_conn fuel' ctx' (Some 7) pkt' w'' = Timeout.
Proof.
  apply (write_to_conn_hangs_on_full_ring 3 example_ctx 7 (IoSock 7 conn (DConn example_conn))
           example_conn example_pkt (World [] [] [] [])).
  - reflexivity.
  - reflexivity.
  - unfold ring_wf, ring_inv, ring_occupied; simpl. intuition (try discriminate; lia).
  - unfold pkt_wf; simpl; lia.
  - simpl; lia.
  - reflexivity.
  - lia.
Defined.

(** ** The tun socket *)

(** After a successful initialisation both scratch buffers record the
    initial capacity, and [ctx->tun_tx] points to the tun member. *)
Lemma init_tun_tx_backlog_ring_capacity self sock ctx w sock' ctx' w' :
  init_tun_tx_backlog_ring self sock ctx w = Done (0, sock', ctx', w') ->
  exists t,
    d sock' = DTun t /\
    capacity (t_r_buff t) = INITIAL_TUN_PKT_BUFF_SZ /\
    capacity (t_w_buff t) = INITIAL_TUN_PKT_BUFF_SZ /\
    tun_tx ctx' = Some (self, tun_tx_member).
Proof.
  unfold init_tun_tx_backlog_ring. intros H.
  destruct (d_tun (d sock)) as [t| |]; cbn [bind] in H; try discriminate.
  unfold init_backlog_ring in H.
  destruct (sys_alloc _ w) as [[blk|] w1]; simpl in H; [|injection H; discriminate].
  destruct (sys_alloc _ w1) as [[wb|] w2]; simpl in H; [|injection H; discriminate].
  destruct (sys_alloc _ w2) as [[rb|] w3]; simpl in H; [|injection H; discriminate].
  injection H as <- <- _. simpl. eauto.
Qed.

(** A [read] on the tun device never returns more than it was asked for. *)
Lemma sys_read_tun_bounded fd_ count w :
  0 <= count -> rv (fst (sys_read_tun fd_ count w)) <= count.
Proof.
  intros Hc. unfold sys_read_tun.
  destruct (tun_rx w) as [|p rest]; simpl; [lia|].
  rewrite length_firstn. lia.
Qed.

Lemma write_to_conn_keeps_tun_sock fuel ctx conn_ pkt w ctx' w' tun_ sock t :
  sockets ctx !! tun_ = Some sock -> d sock = DTun t ->
  write_to_conn fuel ctx conn_ pkt w = Done (ctx', w') ->
  sockets ctx' !! tun_ = Some sock.
Proof.
  intros Hs Hd H. unfold write_to_conn in H.
  destruct conn_ as [c|]; [|injection H as <- _; exact Hs].
  unfold load_ring, load_sock in H. cbn [fst snd] in H.
  destruct (sockets ctx !! c) as [sockc|] eqn:Ec; cbn [of_option bind] in H; [|discriminate].
  destruct (d_conn (d sockc)) as [cd| |] eqn:Edc; cbn [bind] in H; try discriminate.
  assert (Hne : c <> tun_).
  { intros ->. rewrite Hs in Ec. injection Ec as <-. rewrite Hd in Edc. discriminate. }
  destruct (fill_ring _ _ _ _ _ _ _) as [[| |] s]; try discriminate.
  unfold store_ring, load_sock in H. cbn [fst snd] in H.
  rewrite Ec in H. cbn [of_option bind] in H. rewrite Edc in H. cbn [bind] in H.
  destruct (CONN_IO_OK_NOT_ENOUGH_SPACE =? f_ret s).
  - injection H as <- _. simpl. rewrite lookup_insert_ne by exact Hne. exact Hs.
  - destruct (assert _) as [[]| |]; cbn [bind] in H; try discriminate.
    injection H as <- _. simpl. rewrite lookup_insert_ne by exact Hne. exact Hs.
Qed.

(** No run of the loop body of [read_tun_and_xmit] changes the capacity
    recorded for the read buffer. *)
Lemma read_tun_step_keeps_capacity fuel tun_ (s : rstate) (cap : Z) :
  (exists rb, r_buff_of (rs_ctx s) tun_ = Done rb /\ capacity rb = cap) ->
  match read_tun_step fuel tun_ s with
  | Next s' | Break s' | Crash s' | Stall s' =>
      exists rb, r_buff_of (rs_ctx s') tun_ = Done rb /\ capacity rb = cap
  end.
Proof.
  intros Hrb. unfold read_tun_step.
  destruct (read_tun_body fuel tun_ s) as [st| |] eqn:H; try exact Hrb.
  destruct Hrb as (rb & Hrb & Hcap).
  unfold r_buff_of, load_sock in Hrb.
  unfold read_tun_body, load_sock in H.
  destruct (sockets (rs_ctx s) !! tun_) as [sock|] eqn:Es; cbn [of_option bind] in *;
    [|discriminate].
  destruct (d_tun (d sock)) as [t| |] eqn:Ed; cbn [bind] in *; try discriminate.
  injection Hrb as <-.
  destruct (sys_read_tun _ _ _) as [a w1].
  cbn [len capacity tpb_buff current_pkt_len] in H.
  set (pb := TunPktBuff (kernel_store (tpb_buff (t_r_buff t)) (data a) (rv a))
               (capacity (t_r_buff t)) (rv a) (current_pkt_len (t_r_buff t))) in *.
  set (tsock := IoSock (fd sock) (typ sock) (DTun (TunData (t_tx t) pb (t_w_buff t)))).
  assert (Hpost : forall ctx', sockets ctx' !! tun_ = Some tsock ->
                    exists rb, r_buff_of ctx' tun_ = Done rb /\ capacity rb = cap).
  { intros ctx' E. unfold r_buff_of, load_sock. rewrite E. simpl. eauto. }
  assert (Hins : sockets (set_sock_d (rs_ctx s) tun_ sock
                            (DTun (TunData (t_tx t) pb (t_w_buff t)))) !! tun_ = Some tsock).
  { unfold set_sock_d. simpl. apply lookup_insert_eq. }
  destruct (rv a <? 0).
  - injection H as <-. apply Hpost. exact Hins.
  - destruct (load_u8 _ _) as [octet| |]; cbn [bind] in H; try discriminate.
    destruct (Z.land octet 240 <? rs_prev_ip_v s);
      (destruct (Z.land octet 240 =? 64);
       [ destruct (assert _) as [[]| |]; cbn [bind] in H; try discriminate;
         destruct (memcpy _ _ _) as [nw| |]; cbn [bind] in H; try discriminate;
         destruct (write_to_conn _ _ _ _ _) as [[ctx' w']| |] eqn:Ew; cbn [bind] in H;
           try discriminate;
         injection H as <-; apply Hpost;
         exact (write_to_conn_keeps_tun_sock _ _ _ _ _ _ _ _ _ _ Hins eq_refl Ew)
       | injection H as <-; apply Hpost; exact Hins ]).
Qed.

Lemma read_tun_and_xmit_keeps_capacity fuel tun_ ctx nw_addr0 w rb :
  r_buff_of ctx tun_ = Done rb ->
  exists rb',
    r_buff_of (rs_ctx (snd (read_tun_and_xmit fuel tun_ ctx nw_addr0 w))) tun_ = Done rb' /\
    capacity rb' = capacity rb.
Proof.
  intros Hrb. unfold read_tun_and_xmit.
  apply (do_while_inv
           (fun s => exists rb', r_buff_of (rs_ctx s) tun_ = Done rb' /\
                                 capacity rb' = capacity rb)).
  - intros s Hs. apply read_tun_step_keeps_capacity. exact Hs.
  - simpl. eauto.
Qed.

(** Every run of the loop body of [read_tun_and_xmit] that reads a packet
    whose version nibble is 4 ends by logging the unknown-version
    message. *)
Lemma read_tun_body_ipv4_logs_unknown fuel tun_ s sock t o rest more st :
  sockets (rs_ctx s) !! tun_ = Some sock -> d sock = DTun t ->
  0 < capacity (t_r_buff t) ->
  tun_rx (rs_world s) = (o :: rest) :: more ->
  Z.land o 240 = 64 ->
  read_tun_body fuel tun_ s = Done st ->
  exists s', st = Next s' /\
    exists tr, trace (rs_world s') = tr ++ [EvLog (LogUnknownIpVersion 64)].
Proof.
  intros Hs Hd Hcap Hq Hv H.
  unfold read_tun_body, load_sock in H. rewrite Hs in H. cbn [of_option bind] in H.
  rewrite Hd in H. cbn [d_tun bind] in H.
  unfold sys_read_tun in H. rewrite Hq in H.
  cbn [rv errno data len capacity tpb_buff current_pkt_len] in H.
  assert (Hlen : 0 < Z.of_nat (length (firstn (Z.to_nat (capacity (t_r_buff t))) (o :: rest)))).
  { destruct (Z.to_nat (capacity (t_r_buff t))) as [|k] eqn:E; [lia|]. simpl. lia. }
  destruct (Z.ltb_spec (Z.of_nat (length (firstn (Z.to_nat (capacity (t_r_buff t))) (o :: rest)))) 0)
    as [Hneg|_]; [lia|].
  assert (Hhead : exists tl,
             kernel_store (tpb_buff (t_r_buff t))
               (firstn (Z.to_nat (capacity (t_r_buff t))) (o :: rest))
               (Z.of_nat (length (firstn (Z.to_nat (capacity (t_r_buff t))) (o :: rest))))
             = o :: tl).
  { destruct (Z.to_nat (capacity (t_r_buff t))) as [|k] eqn:E; [exfalso; lia|].
    cbn [firstn]. eexists. apply kernel_store_head. cbn [length]. lia. }
  destruct Hhead as (tl & Hk). rewrite Hk in H.
  cbn [load_u8 nth_error of_option bind] in H. rewrite Hv in H.
  destruct (64 <? rs_prev_ip_v s);
    (cbn [Z.eqb Pos.eqb] in H;
     destruct (assert _) as [[]| |]; cbn [bind] in H; try discriminate;
     destruct (memcpy _ _ _) as [nw| |]; cbn [bind] in H; try discriminate;
     destruct (write_to_conn _ _ _ _ _) as [[ctx' w']| |]; cbn [bind] in H; try discriminate;
     injection H as <-; eexists; split; [reflexivity|];
     cbn [rs_world emit trace]; eexists; reflexivity).
Qed.

(** One call of [write_to_tun] as the drain of [tun_io] makes it while
    no packet is under reassembly: offered fewer than four bytes behind
    a pointer into no block, it finds no packet, writes nothing and
    answers OK. *)
Lemma write_to_tun_no_block host_le fuel pkt_len0 fd_ n t wbuff additional w :
  current_pkt_len wbuff = 0 -> n < 4 ->
  write_to_tun host_le (S fuel) pkt_len0 fd_ [] n t wbuff additional w
  = Done (HRes CONN_IO_OK [] t wbuff w).
Proof.
  intros Hcur Hn. unfold write_to_tun. rewrite do_while_unfold.
  unfold write_to_tun_step, write_to_tun_body.
  cbn [wt_wbuff wt_buff wt_len wt_world wt_ret wt_pkt_len]. rewrite Hcur. cbn [Z.eqb].
  unfold parse_l3_packet_len.
  destruct (Z.leb_spec 4 n) as [|_]; [lia|].
  assert (Hz : ntohs host_le 0 = 0) by (destruct host_le; reflexivity).
  change (1 <=? 0) with false. rewrite andb_false_r.
  destruct (Z.leb_spec 4 (n + 0)) as [|_]; [lia|]. rewrite andb_false_r.
  cbn [bind]. rewrite Hz.
  cbn [Z.ltb Z.compare wt_ret wt_len wt_pkt_len]. rewrite Z.eqb_refl.
  rewrite !andb_false_r. reflexivity.
Qed.

(** Claim C1.  The claim is that [tun_io] drains the tx ring of the tun
    variant, the backlog [ctx->tun_tx] points to.  In the source the ring
    handed to [drain_ring] is [&tun->d.conn.tx], a member of the
    connection variant, whose [start], [end] and [wraped] lie over
    [capacity], [len] and [current_pkt_len] of the write scratch buffer.
    On the tun socket as it is set up (scratch buffer empty, capacity
    4096) the drain therefore sees a ring that is not wrapped with
    [end - start = -capacity], calls [write_to_tun] on that length, gets
    OK with nothing written, and starts over: for every bound on the
    number of iterations the loop is still running, with the state it
    started from, so [tun_io] does not return and the backlog
    [(self, tun_tx_member)] that [init_tun_tx_backlog_ring] stored in
    [ctx->tun_tx] is never looked at, whatever it holds. *)
Theorem tun_io_drains_conn_member :
  forall host_le fuel pkt_len0 nw_addr0 w_buff_at event self f t m lv s4 s6 af tt cw w,
    let ctx := IoCtx (<[self := IoSock f tun (DTun t)]> m) lv s4 s6 af tt cw in
    current_pkt_len (t_w_buff t) = 0 -> len (t_w_buff t) = 0 -> 0 < capacity (t_w_buff t) ->
    (ring_member_offset conn_tx + ring_field_offset rf_buff
     = tun_r_buff_offset + pkt_buff_field_offset pf_current_pkt_len /\
     ring_member_offset conn_tx + ring_field_offset rf_sz
     = tun_w_buff_offset + pkt_buff_field_offset pf_buff /\
     ring_member_offset conn_tx + ring_field_offset rf_start
     = tun_w_buff_offset + pkt_buff_field_offset pf_capacity /\
     ring_member_offset conn_tx + ring_field_offset rf_end
     = tun_w_buff_offset + pkt_buff_field_offset pf_len /\
     ring_member_offset conn_tx + ring_field_offset rf_wraped
     = tun_w_buff_offset + pkt_buff_field_offset pf_current_pkt_len) /\
    load_ring ctx (self, tun_tx_member) = Done (t_tx t) /\
    tun_drain_ring host_le fuel pkt_len0 w_buff_at f t w = (OutOfFuel, TDState t w CONN_IO_OK) /\
    tun_io host_le fuel pkt_len0 nw_addr0 w_buff_at event self ctx w = Timeout /\
    (forall ctx0 w0 sock' ctx' w',
       init_tun_tx_backlog_ring self (IoSock f tun DZero) ctx0 w0 = Done (0, sock', ctx', w') ->
       tun_tx ctx' = Some (self, tun_tx_member) /\
       exists t', d sock' = DTun t' /\
                  current_pkt_len (t_w_buff t') = 0 /\ len (t_w_buff t') = 0 /\
                  capacity (t_w_buff t') = INITIAL_TUN_PKT_BUFF_SZ).
Proof.
  intros host_le fuel pkt_len0 nw_addr0 w_buff_at event self f t m lv s4 s6 af tt cw w ctx
         Hcur Hlen Hcap.
  subst ctx.
  assert (Hdrain : forall n,
             tun_drain_ring host_le n pkt_len0 w_buff_at f t w
             = (OutOfFuel, TDState t w CONN_IO_OK)).
  { intros [|n]; [reflexivity|]. unfold tun_drain_ring.
    apply do_while_stuck; [|reflexivity].
    unfold tun_drain_body. cbn [td_tun td_world td_ret]. rewrite Hcur, Hlen.
    assert (Hf : first_int host_le 0 = 0) by (destruct host_le; reflexivity).
    rewrite Hf. change (0 =? 0) with true. cbn [negb].
    destruct (Z.eqb_spec 0 (capacity (t_w_buff t))) as [|_]; [lia|].
    unfold tun_drain_call. cbn [td_tun td_world].
    rewrite write_to_tun_no_block by (assumption || lia).
    cbn [h_ctx h_world h_ret]. destruct t. reflexivity. }
  split; [repeat split|].
  split; [unfold load_ring, load_sock; simpl; rewrite lookup_insert_eq; reflexivity|].
  split; [apply Hdrain|].
  split.
  - unfold tun_io.
    rewrite lor_flag_nonzero by (unfold EPOLLOUT; lia). cbn [negb].
    unfold load_sock. cbn [sockets]. rewrite lookup_insert_eq.
    cbn [of_option bind d d_tun fd]. rewrite Hdrain. reflexivity.
  - intros ctx0 w0 sock' ctx' w' H.
    unfold init_tun_tx_backlog_ring in H. simpl in H.
    unfold init_backlog_ring in H.
    destruct (sys_alloc _ w0) as [[blk|] w1]; simpl in H; [|injection H; discriminate].
    destruct (sys_alloc _ w1) as [[wb|] w2]; simpl in H; [|injection H; discriminate].
    destruct (sys_alloc _ w2) as [[rb|] w3]; simpl in H; [|injection H; discriminate].
    injection H as <- <- _. split; [reflexivity|].
    eexists. split; [reflexivity|]. repeat split.
Qed.

Lemma tun_io_drains_conn_member_witness :
  (ring_member_offset conn_tx + ring_field_offset rf_buff
   = tun_r_buff_offset + pkt_buff_field_offset pf_current_pkt_len /\
   ring_member_offset conn_tx + ring_field_offset rf_sz
   = tun_w_buff_offset + pkt_buff_field_offset pf_buff /\
   ring_member_offset conn_tx + ring_field_offset rf_start
   = tun_w_buff_offset + pkt_buff_field_offset pf_capacity /\
   ring_member_offset conn_tx + ring_field_offset rf_end
   = tun_w_buff_offset + pkt_buff_field_offset pf_len /\
   ring_member_offset conn_tx + ring_field_offset rf_wraped
   = tun_w_buff_offset + pkt_buff_field_offset pf_current_pkt_len) /\
  load_ring (IoCtx (<[100 := IoSock 5 tun (DTun tun_with_backlog)]> ∅) ∅ (repeat 0 16)
               (repeat 0 16) USING_IPV4 (Some (100, tun_tx_member)) (IoCtr 0 0 0 0))
    (100, tun_tx_member) = Done (t_tx tun_with_backlog) /\
  tun_drain_ring true 1000 0 139637976727552 5 tun_with_backlog (World [] [] [] [])
  = (OutOfFuel, TDState tun_with_backlog (World [] [] [] []) CONN_IO_OK) /\
  tun_io true 1000 0 (repeat 0 16) 139637976727552 EPOLLOUT 100
    (IoCtx (<[100 := IoSock 5 tun (DTun tun_with_backlog)]> ∅) ∅ (repeat 0 16)
       (repeat 0 16) USING_IPV4 (Some (100, tun_tx_member)) (IoCtr 0 0 0 0))
    (World [] [] [] []) = Timeout /\
  (forall ctx0 w0 sock' ctx' w',
     init_tun_tx_backlog_ring 100 (IoSock 5 tun DZero) ctx0 w0 = Done (0, sock', ctx', w') ->
     tun_tx ctx' = Some (100, tun_tx_member) /\
     exists t', d sock' = DTun t' /\
                current_pkt_len (t_w_buff t') = 0 /\ len (t_w_buff t') = 0 /\
                capacity (t_w_buff t') = INITIAL_TUN_PKT_BUFF_SZ).
Proof.
  apply (tun_io_drains_conn_member true 1000%nat 0 (repeat 0 16) 139637976727552 EPOLLOUT 100 5
           tun_with_backlog ∅ ∅ (repeat 0 16) (repeat 0 16) USING_IPV4
           (Some (100, tun_tx_member)) (IoCtr 0 0 0 0) (World [] [] [] [])).
  - reflexivity.
  - reflexivity.
  - reflexivity.
Defined.

(** Claim C3.  The claim is that for a packet of IP version 4 the
    unknown-version branch is not executed.  In the source [case 0x40]
    has no [break]: for the IPv4 packet read from the tun device the
    destination is looked up and the packet handed to [write_to_conn]
    (here dropped and counted, no socket being live), and then the
    unknown-version message is logged for version nibble 0x40. *)
Theorem read_tun_and_xmit_ipv4_falls_through :
  forall ring_block,
    match add_tun_sock 100 5 ipv4_ctx (World [] [ipv4_pkt] (tun_blocks ring_block) []) with
    | Done (rc, ctx, w) =>
        let '(e, s) := read_tun_and_xmit 2 100 ctx (repeat 0 16) w in
        rc = 0 /\ e = Returned /\
        trace (rs_world s)
        = [EvAlloc 4194304; EvAlloc 4096; EvAlloc 65535;
           EvRead 5 4096; EvLog (LogUnknownIpVersion 64); EvRead 5 4096] /\
        c_world_tx (rs_ctx s) = IoCtr 0 0 24 1
    | _ => False
    end.
Proof. intros ring_block. vm_compute. repeat split. Qed.

(** Claim C7.  The claim is that the read scratch buffer's capacity
    grows to the maximal L3 packet size, so that no packet is truncated.
    In the source the block is allocated with 65535 bytes, the capacity is
    set to 4096 and nothing changes it: the tun [read] is issued with
    count 4096, and of a queued packet of 4097 bytes 4096 arrive. *)
Theorem tun_read_capped_at_initial_capacity :
  forall ring_block,
    match add_tun_sock 100 5 ipv4_ctx (World [] [ipv4_pkt_4097] (tun_blocks ring_block) []) with
    | Done (rc, ctx, w) =>
        rc = 0 /\
        match r_buff_of ctx 100 with
        | Done r_buff =>
            capacity r_buff = INITIAL_TUN_PKT_BUFF_SZ /\
            Z.of_nat (length (tpb_buff r_buff)) = MAX_L3_PKT_SZ
        | _ => False
        end /\
        match read_tun_step 3 100 (RState ctx w (repeat 0 16) 0) with
        | Next s =>
            trace (rs_world s)
            = [EvAlloc 4194304; EvAlloc 4096; EvAlloc 65535;
               EvRead 5 4096; EvLog (LogUnknownIpVersion 64)] /\
            match r_buff_of (rs_ctx s) 100 with
            | Done r_buff => len r_buff = 4096 /\ capacity r_buff = 4096
            | _ => False
            end /\
            Z.of_nat (length ipv4_pkt_4097) = 4097 /\
            drop_b (c_world_tx (rs_ctx s)) = 4096
        | _ => False
        end
    | _ => False
    end.
Proof. intros ring_block. vm_compute. repeat split. Qed.

(** ** Peer reconciliation *)

(** The scan of the resolved addresses does not depend on [using_af]. *)
Lemma reset_peers_addr_ignores_using_af (ctx : io_ctx_t) (af : Z) s r :
  reset_peers_addr (set_using_af ctx af) s r = reset_peers_addr ctx s r.
Proof.
  unfold reset_peers_addr. cbn [using_af self_v4 self_v6 set_using_af].
  rewrite !lor_flag_nonzero by (unfold USING_IPV4, USING_IPV6; lia).
  reflexivity.
Qed.

Lemma reset_peers_scan_ignores_using_af (ctx : io_ctx_t) (af : Z) resolved :
  forall s, reset_peers_scan (set_using_af ctx af) resolved s = reset_peers_scan ctx resolved s.
Proof.
  induction resolved as [|r rest IH]; intros s; simpl; [reflexivity|].
  rewrite reset_peers_addr_ignores_using_af.
  destruct (reset_peers_addr ctx s r); simpl; auto.
Qed.

(** Claim C4.  The claim is that a resolved address is retained only
    when its family is enabled in [ctx->using_af].  In the source the
    guards are [using_af | USING_IPV4] and [using_af | USING_IPV6], which
    are non-zero for every [using_af], so the scan is the same whatever
    [using_af] is: with IPv6 enabled alone, the resolved IPv4 address
    10.0.0.2 is inserted into the updated passive-peer set. *)
Theorem reset_peers_keeps_disabled_family :
  (forall ctx af resolved s,
     reset_peers_scan (set_using_af ctx af) resolved s = reset_peers_scan ctx resolved s) /\
  match reset_peers_updated ipv6_only_ctx [AddrInfo AF_INET [10; 0; 0; 2]]
          (World [] [] [Some []] []) with
  | Done s =>
      updated_passive_peers s !! ([10; 0; 0; 2] ++ repeat 0 12)
      = Some (PassivePeer (AddrInfo AF_INET [10; 0; 0; 2]) ([10; 0; 0; 2] ++ repeat 0 12)) /\
      encountered_failure s = 0
  | _ => False
  end.
Proof.
  split.
  - intros ctx af resolved s. apply reset_peers_scan_ignores_using_af.
  - vm_compute. auto.
Qed.

(** * Further properties of the data plane *)

(** ** Draining *)

(** A ring that holds no byte is drained without a call of the handler. *)
Lemma drain_ring_no_byte {C : Type} (fuel : nat) (fd_ : Z) (r : ring_buff_t)
    (io_hdlr : io_handler_fn_t C) (c : C) (w : world) :
  ring_inv r -> ring_occupied r = 0 ->
  exists r',
    drain_ring (S (S fuel)) fd_ r io_hdlr c w = (Returned, DState r' c w CONN_IO_OK) /\
    ring_empty r' = true /\ buff r' = buff r /\ sz r' = sz r.
Proof.
  destruct r as [b z st en wr]. unfold ring_inv, ring_occupied. cbn [start end_ sz wraped buff].
  intros (Hs & He & Hw & Hn & _) Hocc. unfold drain_ring.
  destruct wr.
  - assert (st = z) by lia. assert (en = 0) by lia. subst st en.
    exists (Ring b z 0 0 false). split; [|repeat split].
    rewrite do_while_unfold. unfold drain_body at 1. cbn [d_ring wraped sz start].
    rewrite Z.eqb_refl. cbn [d_ret d_ctx d_world]. rewrite Z.eqb_refl.
    rewrite do_while_unfold. unfold drain_body. cbn. reflexivity.
  - assert (en = st) by lia. subst en.
    exists (Ring b z st st false). split.
    + rewrite do_while_unfold. unfold drain_body. cbn [d_ring wraped end_ start].
      rewrite Z.eqb_refl. reflexivity.
    + unfold ring_empty. cbn. rewrite Z.eqb_refl. repeat split.
Qed.

(** X1.  Draining a ring that holds no byte never calls the handler:
    [drain_ring] returns [CONN_IO_OK], the handler context and the
    environment are untouched, and the ring is left empty (a wrapped
    ring whose [start] reached [sz] is first unwrapped). *)
Theorem drain_ring_nothing_to_drain {C : Type} (fuel : nat) (fd_ : Z) (r : ring_buff_t)
    (io_hdlr : io_handler_fn_t C) (c : C) (w : world) :
  ring_inv r -> ring_occupied r = 0 ->
  exists r',
    drain_ring (S (S fuel)) fd_ r io_hdlr c w = (Returned, DState r' c w CONN_IO_OK) /\
    ring_empty r' = true /\ buff r' = buff r /\ sz r' = sz r.
Proof. apply drain_ring_no_byte. Qed.

Lemma drain_ring_nothing_to_drain_witness :
  exists r',
    drain_ring 2 7 (Ring [1; 2; 3; 4] 4 4 0 true) (@send_bl_batch unit) tt
      (World [SysAns 4 0 []] [] [] [])
    = (Returned, DState r' tt (World [SysAns 4 0 []] [] [] []) CONN_IO_OK) /\
    ring_empty r' = true /\ buff r' = [1; 2; 3; 4] /\ sz r' = 4.
Proof.
  apply (drain_ring_nothing_to_drain 0 7 (Ring [1; 2; 3; 4] 4 4 0 true)).
  - unfold ring_inv, ring_occupied; simpl. intuition (try discriminate; lia).
  - reflexivity.
Defined.

(** [write_to_tun] returns the tracker it was given. *)
Lemma write_to_tun_tracker host_le fuel pkt_len0 fd_ b n t wbuff additional w h :
  write_to_tun host_le fuel pkt_len0 fd_ b n t wbuff additional w = Done h ->
  h_tracker h = t /\ h_buff h = b.
Proof.
  unfold write_to_tun.
  destruct (do_while _ _ _ _) as [[| |] s]; try discriminate.
  intros [= <-]. split; reflexivity.
Qed.

Lemma ring_bytes_unwrap b z en :
  ring_bytes (Ring b z 0 en false) = ring_bytes (Ring b z z en true).
Proof.
  unfold ring_bytes. cbn [wraped start end_ sz buff].
  rewrite (skipn_all2 (firstn (Z.to_nat z) b)) by (rewrite length_firstn; lia).
  rewrite Z.sub_0_r. reflexivity.
Qed.

(** X2.  [write_to_tun] never stores through its tracker, so a
    [drain_ring] over it releases nothing: however many packets it wrote
    to the tun device and however the loop is left, the ring holds the
    same bytes as before. *)
Theorem drain_ring_write_to_tun_releases_nothing (host_le : bool) (fuel fuel' : nat)
    (pkt_len0 fd_ : Z) (r : ring_buff_t) (wbuff : tun_pkt_buff_t) (w : world) :
  let s := snd (drain_ring fuel fd_ r (write_to_tun host_le fuel' pkt_len0) wbuff w) in
  ring_bytes (d_ring s) = ring_bytes r /\
  ring_occupied (d_ring s) = ring_occupied r /\
  buff (d_ring s) = buff r.
Proof.
  cbv zeta. unfold drain_ring.
  apply (do_while_inv
           (fun s => ring_bytes (d_ring s) = ring_bytes r /\
                     ring_occupied (d_ring s) = ring_occupied r /\
                     buff (d_ring s) = buff r)); [|auto].
  intros [[b z st en wr] c w0 ret] (Hb & Ho & Hbuf). cbn [d_ring] in *.
  unfold drain_body, drain_call. cbn [d_ring d_ctx d_world d_ret wraped sz start end_ buff].
  destruct wr.
  - destruct (Z.eqb_spec z st) as [->|Hne].
    + cbn [d_ring]. unfold set_wraped, set_start. cbn [buff sz start end_ wraped].
      rewrite ring_bytes_unwrap. repeat split; try assumption.
      rewrite <- Ho. unfold ring_occupied. cbn. lia.
    + destruct (write_to_tun _ _ _ _ _ _ _ _ _ _) as [h| |] eqn:E; cbn [d_ring]; auto.
      apply write_to_tun_tracker in E. destruct E as [-> ->].
      pose proof (ring_restore_start (Ring b z st en true)) as R.
      cbn [buff start] in R. rewrite R. auto.
  - destruct (Z.eqb_spec en st) as [->|Hne]; [cbn [d_ring]; auto|].
    destruct (write_to_tun _ _ _ _ _ _ _ _ _ _) as [h| |] eqn:E; cbn [d_ring]; auto.
    apply write_to_tun_tracker in E. destruct E as [-> ->].
    pose proof (ring_restore_start (Ring b z st en false)) as R.
    cbn [buff start] in R. rewrite R. auto.
Qed.

(** ** The framer of the tun backlog *)

Lemma l3_packet_header (p : list Z) :
  l3_packet p ->
  exists a0 a1 a2 a3 rest,
    p = a0 :: a1 :: a2 :: a3 :: rest /\ is_byte a2 /\ is_byte a3 /\
    256 * a2 + a3 = Z.of_nat (length p).
Proof.
  intros (F & H4 & Hl).
  destruct p as [|a0 [|a1 [|a2 [|a3 rest]]]]; simpl in H4; try lia.
  exists a0, a1, a2, a3, rest.
  inversion F as [|? ? _ F1]; inversion F1 as [|? ? _ F2]; inversion F2 as [|? ? B2 F3];
    inversion F3 as [|? ? B3 _]; subst.
  repeat split; try assumption; try apply B2; try apply B3.
Qed.

(** The length field read from a first span of four bytes or more. *)
Lemma parse_l3_packet_len_first_span (host_le : bool) a0 a1 a2 a3 rest n (b2 : ptr) n2 :
  4 <= n -> is_byte a2 -> is_byte a3 ->
  parse_l3_packet_len host_le (Some (a0 :: a1 :: a2 :: a3 :: rest)) n b2 n2
  = Done (256 * a2 + a3).
Proof.
  intros Hn B2 B3. unfold parse_l3_packet_len.
  destruct (Z.leb_spec 4 n) as [_|]; [|lia].
  apply (ntohs_load_u16 host_le (Some (a0 :: a1 :: a2 :: a3 :: rest)) 2 a2 a3);
    try reflexivity; assumption.
Qed.

Lemma parse_l3_packet_len_packet (host_le : bool) p tl n (b2 : ptr) n2 :
  l3_packet p -> Z.of_nat (length p) <= n ->
  parse_l3_packet_len host_le (Some (p ++ tl)) n b2 n2 = Done (Z.of_nat (length p)).
Proof.
  intros Hp Hn.
  destruct (l3_packet_header p Hp) as (a0 & a1 & a2 & a3 & rest & -> & B2 & B3 & Hl).
  rewrite <- Hl. simpl app.
  apply parse_l3_packet_len_first_span; try assumption.
  simpl length in Hn. lia.
Qed.

Lemma firstn_app_exact {A : Type} (p tl : list A) :
  firstn (Z.to_nat (Z.of_nat (length p))) (p ++ tl) = p.
Proof.
  rewrite Nat2Z.id, firstn_app, Nat.sub_diag, firstn_0, app_nil_r.
  apply firstn_all.
Qed.

Lemma skipn_app_exact {A : Type} (p tl : list A) :
  skipn (Z.to_nat (Z.of_nat (length p))) (p ++ tl) = tl.
Proof.
  rewrite Nat2Z.id, skipn_app, Nat.sub_diag, skipn_all. reflexivity.
Qed.

(** One run of the loop body of [write_to_tun] on a buffer that starts
    with a whole packet, the tun device taking it. *)
Lemma write_to_tun_body_whole_packet host_le fd_ p tl m wbuff ret pl w rest :
  l3_packet p -> current_pkt_len wbuff = 0 -> 0 <= m ->
  sock_ans w = accepts p :: rest ->
  write_to_tun_body host_le fd_ (WState (p ++ tl) (Z.of_nat (length p) + m) wbuff ret pl w)
  = Done (Next (WState tl m wbuff ret (Z.of_nat (length p))
                  (World rest (tun_rx w) (allocs w) (trace w ++ [EvWrite fd_ p])))).
Proof.
  intros Hp Hc Hm Hans.
  assert (H4 : (4 <= length p)%nat) by apply Hp.
  unfold write_to_tun_body. cbn [wt_wbuff wt_buff wt_len wt_world wt_ret wt_pkt_len].
  rewrite Hc. cbn [Z.eqb].
  rewrite (parse_l3_packet_len_packet host_le p tl) by (assumption || lia).
  cbn [bind].
  destruct (Z.ltb_spec 0 (Z.of_nat (length p))) as [_|]; [|lia].
  destruct (Z.leb_spec (Z.of_nat (length p)) (Z.of_nat (length p) + m)) as [_|]; [|lia].
  rewrite firstn_app_exact.
  unfold sys_call. rewrite Hans. unfold accepts. cbn [rv errno].
  destruct (Z.ltb_spec 0 (Z.of_nat (length p))) as [_|]; [|lia].
  unfold assert. rewrite Z.eqb_refl. cbn [bind].
  unfold write_to_tun_check.
  destruct (Z.ltb_spec (Z.of_nat (length p)) 0) as [|_]; [lia|].
  unfold ptr_add. rewrite skipn_app_exact.
  do 3 f_equal. lia.
Qed.

Lemma write_to_tun_loop_packets host_le fd_ wbuff junk :
  current_pkt_len wbuff = 0 ->
  forall ps fuel pl w rest,
    Forall l3_packet ps -> ps <> [] -> (length ps <= fuel)%nat ->
    sock_ans w = map accepts ps ++ rest ->
    exists pl',
      do_while fuel (write_to_tun_step host_le fd_)
        (fun s => (wt_ret s =? CONN_IO_OK) && (0 <? wt_len s) && (0 <? wt_pkt_len s))
        (WState (concat ps ++ junk) (Z.of_nat (length (concat ps))) wbuff CONN_IO_OK pl w)
      = (Returned,
         WState junk 0 wbuff CONN_IO_OK pl'
           (World rest (tun_rx w) (allocs w) (trace w ++ map (EvWrite fd_) ps))).
Proof.
  intros Hc ps.
  induction ps as [|p ps IH]; intros fuel pl w rest Hps Hne Hfuel Hans; [congruence|].
  inversion Hps as [|? ? Hp Hps']; subst.
  destruct fuel as [|fuel]; [simpl in Hfuel; lia|].
  rewrite do_while_unfold. unfold write_to_tun_step at 1.
  simpl concat. rewrite <- app_assoc, length_app, Nat2Z.inj_add.
  simpl map in Hans.
  rewrite (write_to_tun_body_whole_packet host_le fd_ p (concat ps ++ junk)
             (Z.of_nat (length (concat ps))) wbuff CONN_IO_OK pl w (map accepts ps ++ rest))
    by (assumption || lia).
  cbn [wt_ret wt_len wt_pkt_len]. rewrite Z.eqb_refl. cbn [andb].
  destruct ps as [|q ps].
  - simpl. eexists. reflexivity.
  - assert (Hq : l3_packet q) by (inversion Hps'; assumption).
    assert (H4 : (4 <= length q)%nat) by apply Hq.
    assert (H4p : (4 <= length p)%nat) by apply Hp.
    destruct (Z.ltb_spec 0 (Z.of_nat (length (concat (q :: ps))))) as [_|Hle];
      [|simpl concat in Hle; rewrite length_app in Hle; lia].
    destruct (Z.ltb_spec 0 (Z.of_nat (length p))) as [_|]; [|lia].
    cbn [andb].
    destruct (IH fuel (Z.of_nat (length p))
                (World (map accepts (q :: ps) ++ rest) (tun_rx w) (allocs w)
                   (trace w ++ [EvWrite fd_ p])) rest Hps') as (pl' & E);
      [congruence|simpl in *; lia|reflexivity|].
    exists pl'. rewrite E. cbn [tun_rx allocs trace].
    rewrite <- app_assoc. reflexivity.
Qed.

(** X3.  Framing on the way to the tun device: handed a region that
    holds whole packets back to back, [write_to_tun] issues one [write]
    per packet, with exactly the bytes of that packet and in order, as
    long as the device takes them, and returns [CONN_IO_OK]; its scratch
    buffer is not used. *)
Theorem write_to_tun_writes_packet_by_packet (host_le : bool) (ps : list (list Z))
    (junk : list Z) (fuel : nat) (pkt_len0 fd_ t additional : Z) (wbuff : tun_pkt_buff_t)
    (w : world) (rest : list sys_ans) :
  Forall l3_packet ps -> ps <> [] -> (length ps <= fuel)%nat ->
  current_pkt_len wbuff = 0 ->
  sock_ans w = map accepts ps ++ rest ->
  write_to_tun host_le fuel pkt_len0 fd_ (concat ps ++ junk) (Z.of_nat (length (concat ps)))
    t wbuff additional w
  = Done (HRes CONN_IO_OK (concat ps ++ junk) t wbuff
            (World rest (tun_rx w) (allocs w) (trace w ++ map (EvWrite fd_) ps))).
Proof.
  intros Hps Hne Hfuel Hc Hans. unfold write_to_tun.
  destruct (write_to_tun_loop_packets host_le fd_ wbuff junk Hc ps fuel pkt_len0 w rest
              Hps Hne Hfuel Hans) as (pl' & ->).
  reflexivity.
Qed.

Lemma write_to_tun_writes_packet_by_packet_witness :
  write_to_tun true 2 0 5 (concat [[69; 0; 0; 5; 9]; [69; 0; 0; 4]] ++ [7; 7])
    (Z.of_nat (length (concat [[69; 0; 0; 5; 9]; [69; 0; 0; 4]]))) 0
    (TunPktBuff (repeat 0 16) 16 0 0) 0
    (World (map accepts [[69; 0; 0; 5; 9]; [69; 0; 0; 4]] ++ []) [] [] [])
  = Done (HRes CONN_IO_OK (concat [[69; 0; 0; 5; 9]; [69; 0; 0; 4]] ++ [7; 7]) 0
            (TunPktBuff (repeat 0 16) 16 0 0)
            (World [] [] [] ([] ++ map (EvWrite 5) [[69; 0; 0; 5; 9]; [69; 0; 0; 4]]))).
Proof.
  apply (write_to_tun_writes_packet_by_packet true [[69; 0; 0; 5; 9]; [69; 0; 0; 4]] [7; 7]
           2 0 5 0 0 (TunPktBuff (repeat 0 16) 16 0 0)
           (World (map accepts [[69; 0; 0; 5; 9]; [69; 0; 0; 4]] ++ []) [] [] []) []).
  - repeat constructor; unfold is_byte; simpl; lia.
  - discriminate.
  - simpl. lia.
  - reflexivity.
  - reflexivity.
Defined.





(** X5.  Reassembly inside the scratch buffer as it is: while no packet
    is in progress ([len] and [current_pkt_len] are 0), a packet no
    longer than the capacity of the scratch buffer, whose block holds at
    least [capacity] bytes, reaches [write_to_tun] in two pieces, the
    first holding at least the four header bytes and the second not
    empty.  The first call keeps the first piece in the scratch buffer
    without growing it and writes nothing; the second call hands the two
    pieces to one [writev], which the device accepts, and leaves the
    scratch buffer empty again.  A packet longer than the capacity goes
    through [expand_tun_wbuff_if_necessary] first and is not covered
    here. *)
Theorem write_to_tun_reassembles_split_packet (host_le : bool) (p1 p2 : list Z)
    (fuel fuel' : nat) (pl0 pl1 fd_ t t' additional additional' : Z)
    (wbuff : tun_pkt_buff_t) (w : world) (rest : list sys_ans) :
  l3_packet (p1 ++ p2) -> (4 <= length p1)%nat -> p2 <> [] ->
  len wbuff = 0 -> current_pkt_len wbuff = 0 ->
  Z.of_nat (length (p1 ++ p2)) <= capacity wbuff ->
  capacity wbuff <= Z.of_nat (length (tpb_buff wbuff)) ->
  sock_ans w = accepts (p1 ++ p2) :: rest ->
  exists wbuff1,
    write_to_tun host_le (S fuel) pl0 fd_ p1 (Z.of_nat (length p1)) t wbuff additional w
    = Done (HRes CONN_IO_OK p1 t wbuff1 w) /\
    len wbuff1 = Z.of_nat (length p1) /\
    current_pkt_len wbuff1 = Z.of_nat (length (p1 ++ p2)) /\
    write_to_tun host_le (S fuel') pl1 fd_ p2 (Z.of_nat (length p2)) t' wbuff1 additional' w
    = Done (HRes CONN_IO_OK p2 t' (TunPktBuff (tpb_buff wbuff1) (capacity wbuff) 0 0)
              (World rest (tun_rx w) (allocs w) (trace w ++ [EvWritev fd_ p1 p2]))).
Proof.
  intros Hp H4 Hne Hlen Hcur Hcap Hblock Hans.
  destruct (l3_packet_header _ Hp) as (a0 & a1 & a2 & a3 & tl & Hsplit & B2 & B3 & Hl).
  destruct p1 as [|b0 [|b1 [|b2 [|b3 tl1]]]]; simpl in H4; try lia.
  simpl in Hsplit. injection Hsplit as -> -> -> -> Htl.
  set (p1 := a0 :: a1 :: a2 :: a3 :: tl1) in *.
  assert (Hp2 : (0 < length p2)%nat) by (destruct p2; [congruence|simpl; lia]).
  rewrite length_app, Nat2Z.inj_add in *.
  exists (TunPktBuff (p1 ++ skipn (length p1) (tpb_buff wbuff)) (capacity wbuff)
            (Z.of_nat (length p1)) (Z.of_nat (length p1) + Z.of_nat (length p2))).
  split; [|split; [reflexivity|split; [reflexivity|]]].
  - unfold write_to_tun. rewrite do_while_unfold. unfold write_to_tun_step, write_to_tun_body.
    cbn [wt_wbuff wt_buff wt_len wt_world wt_ret wt_pkt_len].
    rewrite Hcur. cbn [Z.eqb].
    unfold p1 at 1.
    rewrite parse_l3_packet_len_first_span by (assumption || (unfold p1; simpl length; lia)).
    cbn [bind]. rewrite Hl.
    destruct (Z.ltb_spec 0 (Z.of_nat (length p1) + Z.of_nat (length p2))) as [_|]; [|lia].
    destruct (Z.leb_spec (Z.of_nat (length p1) + Z.of_nat (length p2)) (Z.of_nat (length p1)))
      as [|_]; [lia|].
    unfold expand_tun_wbuff_if_necessary. rewrite Hlen.
    destruct (Z.ltb_spec (capacity wbuff - 0) (Z.of_nat (length p1) + Z.of_nat (length p2)))
      as [|_]; [lia|].
    cbn [negb Z.eqb].
    rewrite memcpy_ok by lia.
    cbn [bind]. rewrite Nat2Z.id, firstn_all. rewrite Hlen.
    cbn [wt_ret wt_len wt_pkt_len]. rewrite Z.eqb_refl. cbn [andb Z.ltb Z.compare].
    reflexivity.
  - unfold write_to_tun. rewrite do_while_unfold. unfold write_to_tun_step, write_to_tun_body.
    cbn [wt_wbuff wt_buff wt_len wt_world wt_ret wt_pkt_len current_pkt_len len tpb_buff
         capacity].
    destruct (Z.eqb_spec (Z.of_nat (length p1) + Z.of_nat (length p2)) 0) as [|_]; [lia|].
    replace (Z.of_nat (length p1) + Z.of_nat (length p2) - Z.of_nat (length p1))
      with (Z.of_nat (length p2)) by lia.
    rewrite Z.leb_refl.
    rewrite firstn_app_exact.
    replace (firstn (Z.to_nat (Z.of_nat (length p2))) p2) with p2
      by (rewrite Nat2Z.id, firstn_all; reflexivity).
    unfold sys_call. rewrite Hans. unfold accepts. cbn [rv errno].
    rewrite length_app, Nat2Z.inj_add.
    destruct (Z.ltb_spec 0 (Z.of_nat (length p1) + Z.of_nat (length p2))) as [_|]; [|lia].
    unfold assert. rewrite Z.eqb_refl. cbn [bind].
    unfold write_to_tun_check.
    destruct (Z.ltb_spec (Z.of_nat (length p1) + Z.of_nat (length p2)) 0) as [|_]; [lia|].
    cbn [wt_ret wt_len wt_pkt_len]. rewrite Z.sub_diag, Z.eqb_refl.
    cbn [andb Z.ltb Z.compare]. reflexivity.
Qed.

Lemma write_to_tun_reassembles_split_packet_witness :
  exists wbuff1,
    write_to_tun true 1 0 5 [69; 0; 0; 6] (Z.of_nat (length [69; 0; 0; 6])) 0
      (TunPktBuff (repeat 0 8) 8 0 0) 0 (World [accepts ([69; 0; 0; 6] ++ [1; 2])] [] [] [])
    = Done (HRes CONN_IO_OK [69; 0; 0; 6] 0 wbuff1
              (World [accepts ([69; 0; 0; 6] ++ [1; 2])] [] [] [])) /\
    len wbuff1 = Z.of_nat (length [69; 0; 0; 6]) /\
    current_pkt_len wbuff1 = Z.of_nat (length ([69; 0; 0; 6] ++ [1; 2])) /\
    write_to_tun true 1 0 5 [1; 2] (Z.of_nat (length [1; 2])) 4 wbuff1 0
      (World [accepts ([69; 0; 0; 6] ++ [1; 2])] [] [] [])
    = Done (HRes CONN_IO_OK [1; 2] 4
              (TunPktBuff (tpb_buff wbuff1) (capacity (TunPktBuff (repeat 0 8) 8 0 0)) 0 0)
              (World [] [] [] ([] ++ [EvWritev 5 [69; 0; 0; 6] [1; 2]]))).
Proof.
  apply (write_to_tun_reassembles_split_packet true [69; 0; 0; 6] [1; 2] 0 0 0 0 5 0 4 0 0
           (TunPktBuff (repeat 0 8) 8 0 0)
           (World [accepts ([69; 0; 0; 6] ++ [1; 2])] [] [] []) []).
  - repeat constructor; unfold is_byte; simpl; lia.
  - simpl. lia.
  - discriminate.
  - reflexivity.
  - reflexivity.
  - simpl. lia.
  - simpl. lia.
  - reflexivity.
Defined.

(** X6.  [expand_tun_wbuff_if_necessary] either returns 0 with a buffer
    that has room for the bytes asked for behind its [len] bytes (the
    capacity is doubled, or set to exactly what is needed when doubling
    is not enough; it never shrinks; the bytes held are kept), or, when
    the allocation fails, returns -1 and leaves the buffer as it was. *)
Theorem expand_tun_wbuff_if_necessary_makes_room (wbuff : tun_pkt_buff_t)
    (additional_space_required : Z) (w : world) :
  0 <= capacity wbuff ->
  let '(rc, wbuff', w') := expand_tun_wbuff_if_necessary wbuff additional_space_required w in
  (rc = 0 /\
   additional_space_required <= capacity wbuff' - len wbuff' /\
   capacity wbuff <= capacity wbuff' /\
   (capacity wbuff' = capacity wbuff \/ capacity wbuff' = 2 * capacity wbuff \/
    capacity wbuff' = additional_space_required + len wbuff) /\
   len wbuff' = len wbuff /\ current_pkt_len wbuff' = current_pkt_len wbuff /\
   firstn (length (tpb_buff wbuff)) (tpb_buff wbuff') = tpb_buff wbuff) \/
  (rc = -1 /\ wbuff' = wbuff /\ capacity wbuff - len wbuff < additional_space_required).
Proof.
  intros Hcap. unfold expand_tun_wbuff_if_necessary.
  destruct (Z.ltb_spec (capacity wbuff - len wbuff) additional_space_required) as [Hlt|Hge].
  - destruct (sys_alloc _ w) as [[block|] w'] eqn:E.
    + left. cbn [capacity len current_pkt_len tpb_buff].
      destruct (Z.ltb_spec (capacity wbuff * 2) (additional_space_required + len wbuff));
        repeat split; try lia;
        rewrite firstn_app, Nat.sub_diag, firstn_0, app_nil_r; apply firstn_all.
    + right. repeat split. exact Hlt.
  - left. repeat split; try lia. apply firstn_all.
Qed.

Lemma expand_tun_wbuff_if_necessary_makes_room_witness :
  let '(rc, wbuff', w') :=
    expand_tun_wbuff_if_necessary (TunPktBuff [1; 2] 2 2 0) 3 (World [] [] [Some (repeat 0 5)] []) in
  (rc = 0 /\
   3 <= capacity wbuff' - len wbuff' /\
   capacity (TunPktBuff [1; 2] 2 2 0) <= capacity wbuff' /\
   (capacity wbuff' = capacity (TunPktBuff [1; 2] 2 2 0) \/
    capacity wbuff' = 2 * capacity (TunPktBuff [1; 2] 2 2 0) \/
    capacity wbuff' = 3 + len (TunPktBuff [1; 2] 2 2 0)) /\
   len wbuff' = len (TunPktBuff [1; 2] 2 2 0) /\
   current_pkt_len wbuff' = current_pkt_len (TunPktBuff [1; 2] 2 2 0) /\
   firstn (length (tpb_buff (TunPktBuff [1; 2] 2 2 0))) (tpb_buff wbuff')
   = tpb_buff (TunPktBuff [1; 2] 2 2 0)) \/
  (rc = -1 /\ wbuff' = TunPktBuff [1; 2] 2 2 0 /\
   capacity (TunPktBuff [1; 2] 2 2 0) - len (TunPktBuff [1; 2] 2 2 0) < 3).
Proof.
  apply (expand_tun_wbuff_if_necessary_makes_room (TunPktBuff [1; 2] 2 2 0) 3
           (World [] [] [Some (repeat 0 5)] [])).
  simpl. lia.
Defined.

(** ** The tun backlog ring *)

(** Bytes written at [end], within the free bytes that follow it, are
    appended to the bytes the ring holds. *)
Lemma ring_bytes_append b z st en wr (x : list Z) :
  ring_wf (Ring b z st en wr) ->
  Z.of_nat (length x) <= contiguous_room (Ring b z st en wr) ->
  let r' := Ring (splice b (Z.to_nat en) x) z st (en + Z.of_nat (length x)) wr in
  ring_wf r' /\ ring_bytes r' = ring_bytes (Ring b z st en wr) ++ x.
Proof.
  intros (Hinv & Hlen) Hroom r'. subst r'.
  unfold ring_inv, ring_occupied, contiguous_room in *. proj_simpl.
  assert (Hlen' : length (splice b (Z.to_nat en) x) = length b)
    by (apply splice_length; destruct wr; lia).
  split.
  - unfold ring_wf, ring_inv, ring_occupied. proj_simpl. rewrite Hlen'.
    destruct wr; intuition (try discriminate; lia).
  - unfold ring_bytes. proj_simpl. destruct wr.
    + rewrite (firstn_all2 (n := Z.to_nat z)) by lia.
      rewrite (firstn_all2 (n := Z.to_nat z) b) by lia.
      rewrite splice_skipn_after by lia.
      replace (Z.to_nat (en + Z.of_nat (length x))) with (Z.to_nat en + length x)%nat by lia.
      rewrite splice_firstn by lia.
      rewrite app_assoc. reflexivity.
    + assert (Hpre : firstn (Z.to_nat (en - st)) (skipn (Z.to_nat st) b)
                     = skipn (Z.to_nat st) (firstn (Z.to_nat en) b)).
      { rewrite firstn_skipn_comm. do 2 f_equal. lia. }
      rewrite splice_skipn_before by lia.
      rewrite Hpre.
      replace (Z.to_nat (en + Z.of_nat (length x) - st))
        with (length (skipn (Z.to_nat st) (firstn (Z.to_nat en) b)) + length x)%nat
        by (rewrite length_skipn, length_firstn; lia).
      rewrite firstn_app.
      rewrite firstn_all2 by lia.
      f_equal.
      replace (_ + _ - _)%nat with (length x) by lia.
      rewrite firstn_app, firstn_all2 by lia.
      rewrite Nat.sub_diag, firstn_0, app_nil_r. reflexivity.
Qed.

(** The ring whose [end] reached [sz] holds the same bytes after
    [end] was set to 0 and the ring marked wrapped (io.c:790-793). *)
Lemma ring_bytes_wrap b z st :
  ring_wf (Ring b z st z false) ->
  ring_wf (Ring b z st 0 true) /\
  ring_bytes (Ring b z st 0 true) = ring_bytes (Ring b z st z false).
Proof.
  intros (Hinv & Hlen). unfold ring_inv, ring_occupied in *. proj_simpl.
  split.
  - unfold ring_wf, ring_inv, ring_occupied. proj_simpl.
    intuition (try discriminate; lia).
  - unfold ring_bytes. proj_simpl.
    simpl (Z.to_nat 0). rewrite firstn_0, app_nil_r.
    rewrite (firstn_all2 (n := Z.to_nat z)) by lia.
    symmetry. apply firstn_all2. rewrite length_skipn. lia.
Qed.

(** [playback_tun_write_buf] refuses a packet larger than the room it is
    promised, and copies nothing. *)
Lemma playback_tun_write_buf_refuses fd_ target max t (b : tun_write_buff_t) promised w :
  max + promised < twb_len1 b + twb_len2 b ->
  playback_tun_write_buf fd_ target max t b promised w
  = Done (HRes CONN_IO_OK_EXHAUSTED target t b w).
Proof.
  intros H. unfold playback_tun_write_buf.
  destruct (Z.ltb_spec (max + promised) (twb_len1 b + twb_len2 b)); [reflexivity|lia].
Qed.

(** [playback_tun_write_buf] on a packet held in one span: it copies as
    much of the span as the presented region takes, from the first byte
    of the span. *)
Lemma playback_tun_write_buf_single_span fd_ target max t p n promised w :
  0 < n -> n <= Z.of_nat (length p) -> 0 <= max <= Z.of_nat (length target) ->
  n <= max + promised ->
  let ws := if n <=? max then n else max in
  playback_tun_write_buf fd_ target max t (TunWriteBuff (Some p) None n 0) promised w
  = Done (HRes (if n <=? max then CONN_IO_OK_EXHAUSTED else CONN_IO_OK)
            (firstn (Z.to_nat ws) p ++ skipn (Z.to_nat ws) target) (t + ws)
            (TunWriteBuff (Some p) None (n - ws) 0) w).
Proof.
  intros Hn Hp Hmax Hfit ws. unfold playback_tun_write_buf.
  cbn [twb_len1 twb_len2 twb_b1 twb_b2].
  destruct (Z.ltb_spec (max + promised) (n + 0)) as [|_]; [lia|].
  destruct (Z.ltb_spec 0 n) as [_|]; [|lia].
  unfold playback_tun_write_single_src_buf. fold ws.
  destruct (Z.ltb_spec 0 ws) as [Hws|Hws].
  - cbn [of_option bind].
    rewrite memcpy_ok by (subst ws; destruct (Z.leb_spec n max); lia).
    cbn [bind]. unfold add_through, ptr_to. cbn [displacement pointee Z.eqb bind andb].
    cbn [twb_len1 twb_len2 twb_b1 twb_b2].
    subst ws. destruct (Z.leb_spec n max) as [Hle|Hgt].
    + rewrite Z.sub_diag. cbn [Z.ltb Z.compare bind andb]. reflexivity.
    + destruct (Z.ltb_spec 0 (n - max)) as [_|]; [|lia]. reflexivity.
  - cbn [bind andb twb_len1 twb_len2 twb_b1 twb_b2].
    subst ws. destruct (Z.leb_spec n max) as [Hle|Hgt]; [lia|].
    assert (max = 0) by lia. subst max.
    destruct (Z.ltb_spec 0 n) as [_|]; [|lia].
    rewrite Z.sub_0_r, Z.add_0_r. simpl (Z.to_nat 0). rewrite firstn_0, skipn_0.
    reflexivity.
Qed.

(** The call of the handler by [fill_ring], for a packet in one span. *)
Lemma fill_call_playback_single_span (s : fstate tun_write_buff_t) p n max promised full :
  f_ctx s = TunWriteBuff (Some p) None n 0 ->
  0 < n -> n <= Z.of_nat (length p) -> 0 <= max -> 0 <= end_ (f_ring s) ->
  end_ (f_ring s) + max <= Z.of_nat (length (buff (f_ring s))) ->
  n <= max + promised ->
  let r := f_ring s in
  let ws := if n <=? max then n else max in
  fill_call (-1) playback_tun_write_buf None s max promised full
  = Next (FState (Ring (splice (buff r) (Z.to_nat (end_ r)) (firstn (Z.to_nat ws) p))
                    (sz r) (start r) (end_ r + ws) (wraped r))
            (TunWriteBuff (Some p) None (n - ws) 0) (f_world s)
            (if n <=? max then CONN_IO_OK_EXHAUSTED else CONN_IO_OK) full).
Proof.
  destruct s as [[b z st en wr] c w0 ret0 fl]. proj_simpl.
  intros -> Hn Hp Hmax He Hdst Hfit. cbv zeta.
  unfold fill_call. proj_simpl.
  rewrite playback_tun_write_buf_single_span; try assumption.
  - cbn [h_buff h_tracker h_ctx h_world h_ret fill_push].
    unfold ptr_add at 1.
    rewrite store_memcpy_splice by (destruct (Z.leb_spec n max); lia).
    reflexivity.
  - unfold ptr_add. rewrite length_skipn. lia.
Qed.

Lemma fill_call_playback_refuses (s : fstate tun_write_buff_t) max promised full :
  max + promised < twb_len1 (f_ctx s) + twb_len2 (f_ctx s) ->
  fill_call (-1) playback_tun_write_buf None s max promised full
  = Next (FState (f_ring s) (f_ctx s) (f_world s) CONN_IO_OK_EXHAUSTED full).
Proof.
  intros H. unfold fill_call.
  rewrite playback_tun_write_buf_refuses by exact H.
  cbn [h_buff h_tracker h_ctx h_world h_ret fill_push].
  rewrite ring_restore. reflexivity.
Qed.

(** A packet in one span that fits behind [end]. *)
Lemma push_pkt_to_tun_backlog_ring_fits (fuel : nat) (r : ring_buff_t) (tfd : Z)
    (p : list Z) (n : Z) (full : bool) (w : world) :
  ring_wf r -> 0 < n -> n <= Z.of_nat (length p) -> n <= contiguous_room r ->
  exists r',
    push_pkt_to_tun_backlog_ring (S fuel) (TunTx r tfd) (Some p) n None 0 full w
    = Done (n, TunTx r' tfd, full, w) /\
    ring_wf r' /\ ring_bytes r' = ring_bytes r ++ firstn (Z.to_nat n) p.
Proof.
  intros Hwf Hn Hp Hroom.
  destruct r as [b z st en wr].
  pose proof Hwf as (Hinv & Hlen).
  unfold ring_inv, ring_occupied, contiguous_room in Hinv, Hlen, Hroom. proj_simpl.
  assert (HX : length (firstn (Z.to_nat n) p) = Z.to_nat n) by (apply firstn_len_Z; lia).
  destruct (ring_bytes_append b z st en wr (firstn (Z.to_nat n) p) Hwf) as (Hwf' & Hbytes).
  { unfold contiguous_room. proj_simpl. rewrite HX. destruct wr; lia. }
  rewrite HX, Z2Nat.id in Hwf', Hbytes by lia.
  exists (Ring (splice b (Z.to_nat en) (firstn (Z.to_nat n) p)) z st (en + n) wr).
  split; [|split; assumption].
  unfold push_pkt_to_tun_backlog_ring, fill_ring. cbn [backlog tt_fd].
  rewrite do_while_unfold. unfold fill_body. proj_simpl.
  destruct wr.
  - destruct (Z.eqb_spec st en) as [|_]; [lia|].
    rewrite (fill_call_playback_single_span _ p n (st - en) 0 false)
      by (proj_simpl; reflexivity || lia).
    proj_simpl.
    destruct (Z.leb_spec n (st - en)) as [_|]; [|lia].
    cbn [f_ret f_full f_ring f_ctx f_world twb_len1 twb_len2 orb Z.eqb].
    rewrite Z.sub_diag. cbn [Z.add Z.eqb negb]. rewrite Z.add_0_r. reflexivity.
  - destruct (Z.eqb_spec z en) as [|_]; [lia|].
    rewrite (fill_call_playback_single_span _ p n (z - en) st false)
      by (proj_simpl; reflexivity || lia).
    proj_simpl.
    destruct (Z.leb_spec n (z - en)) as [_|]; [|lia].
    cbn [f_ret f_full f_ring f_ctx f_world twb_len1 twb_len2 orb Z.eqb].
    rewrite Z.sub_diag. cbn [Z.add Z.eqb negb]. rewrite Z.add_0_r. reflexivity.
Qed.

(** X7.  A packet handed over in one span that fits into the free bytes
    following [end] is appended whole to the tun backlog:
    [push_pkt_to_tun_backlog_ring] returns its length, leaves [*full]
    as it was, makes no system call, and the ring holds its former bytes
    followed by the bytes of the packet. *)
Theorem push_pkt_to_tun_backlog_ring_appends (fuel : nat) (r : ring_buff_t) (tfd : Z)
    (p : list Z) (n : Z) (full : bool) (w : world) :
  ring_wf r -> 0 < n -> n <= Z.of_nat (length p) -> n <= contiguous_room r ->
  exists r',
    push_pkt_to_tun_backlog_ring (S fuel) (TunTx r tfd) (Some p) n None 0 full w
    = Done (n, TunTx r' tfd, full, w) /\
    ring_wf r' /\ ring_bytes r' = ring_bytes r ++ firstn (Z.to_nat n) p.
Proof. apply push_pkt_to_tun_backlog_ring_fits. Qed.

Lemma push_pkt_to_tun_backlog_ring_appends_witness :
  exists r',
    push_pkt_to_tun_backlog_ring 1 (TunTx (Ring [0; 0; 0; 0; 0; 0; 0; 0] 8 0 2 false) 5)
      (Some [69; 0; 0; 4]) 4 None 0 false (World [] [] [] [])
    = Done (4, TunTx r' 5, false, World [] [] [] []) /\
    ring_wf r' /\
    ring_bytes r'
    = ring_bytes (Ring [0; 0; 0; 0; 0; 0; 0; 0] 8 0 2 false) ++ firstn (Z.to_nat 4) [69; 0; 0; 4].
Proof.
  apply (push_pkt_to_tun_backlog_ring_appends 0 (Ring [0; 0; 0; 0; 0; 0; 0; 0] 8 0 2 false) 5
           [69; 0; 0; 4] 4 false (World [] [] [] [])).
  - unfold ring_wf, ring_inv, ring_occupied; simpl. intuition (try discriminate; lia).
  - lia.
  - simpl. lia.
  - unfold contiguous_room; simpl. lia.
Defined.

(** X8.  All or nothing: when the packet does not fit into the free
    bytes of the backlog (and at least one byte is free),
    [push_pkt_to_tun_backlog_ring] takes none of it: it returns 0, sets
    [*full], and the ring holds the bytes it held. *)
Theorem push_pkt_to_tun_backlog_ring_refuses (fuel : nat) (r : ring_buff_t) (tfd : Z)
    (b1 : ptr) (len1 : Z) (b2 : ptr) (len2 : Z) (full : bool) (w : world) :
  ring_wf r -> 0 < ring_free r -> ring_free r < len1 + len2 ->
  exists r',
    push_pkt_to_tun_backlog_ring (S (S fuel)) (TunTx r tfd) b1 len1 b2 len2 full w
    = Done (0, TunTx r' tfd, true, w) /\
    ring_wf r' /\ ring_bytes r' = ring_bytes r /\ buff r' = buff r.
Proof.
  intros Hwf Hfree Hbig.
  destruct r as [b z st en wr].
  pose proof Hwf as (Hinv & Hlen).
  unfold ring_inv, ring_occupied, ring_free in Hinv, Hlen, Hfree, Hbig. proj_simpl.
  unfold push_pkt_to_tun_backlog_ring, fill_ring. cbn [backlog tt_fd].
  assert (Hrem : negb (len1 + len2 =? 0) = true)
    by (destruct (Z.eqb_spec (len1 + len2) 0); [destruct wr; lia|reflexivity]).
  destruct wr.
  - exists (Ring b z st en true). split; [|auto].
    rewrite do_while_unfold. unfold fill_body. proj_simpl.
    destruct (Z.eqb_spec st en) as [|_]; [lia|].
    rewrite fill_call_playback_refuses by (proj_simpl; cbn [twb_len1 twb_len2]; lia).
    proj_simpl. change (CONN_IO_OK =? CONN_IO_OK_EXHAUSTED) with false.
    cbn [orb f_ctx f_ring f_world twb_len1 twb_len2].
    rewrite Hrem. unfold assert. rewrite Z.eqb_refl. reflexivity.
  - destruct (Z.eq_dec z en) as [<-|Hne].
    + destruct (ring_bytes_wrap b z st Hwf) as (Hwf' & Hbytes).
      exists (Ring b z st 0 true). split; [|auto].
      rewrite do_while_unfold. unfold fill_body at 1. proj_simpl.
      rewrite Z.eqb_refl. proj_simpl. rewrite Z.eqb_refl. cbn [orb].
      unfold set_wraped, set_end. proj_simpl.
      rewrite do_while_unfold. unfold fill_body. proj_simpl.
      destruct (Z.eqb_spec st 0) as [|_]; [lia|].
      rewrite fill_call_playback_refuses by (proj_simpl; cbn [twb_len1 twb_len2]; lia).
      proj_simpl. change (CONN_IO_OK =? CONN_IO_OK_EXHAUSTED) with false.
      cbn [orb f_ctx f_ring f_world twb_len1 twb_len2].
      rewrite Hrem. unfold assert. rewrite Z.eqb_refl. reflexivity.
    + exists (Ring b z st en false). split; [|auto].
      rewrite do_while_unfold. unfold fill_body. proj_simpl.
      destruct (Z.eqb_spec z en) as [|_]; [lia|].
      rewrite fill_call_playback_refuses by (proj_simpl; cbn [twb_len1 twb_len2]; lia).
      proj_simpl. change (CONN_IO_OK =? CONN_IO_OK_EXHAUSTED) with false.
      cbn [orb f_ctx f_ring f_world twb_len1 twb_len2].
      rewrite Hrem. unfold assert. rewrite Z.eqb_refl. reflexivity.
Qed.

Lemma push_pkt_to_tun_backlog_ring_refuses_witness :
  exists r',
    push_pkt_to_tun_backlog_ring 2 (TunTx (Ring [1; 2; 3; 4; 5; 6; 7; 8] 8 2 8 false) 5)
      (Some [69; 0; 0; 4]) 4 None 0 false (World [] [] [] [])
    = Done (0, TunTx r' 5, true, World [] [] [] []) /\
    ring_wf r' /\
    ring_bytes r' = ring_bytes (Ring [1; 2; 3; 4; 5; 6; 7; 8] 8 2 8 false) /\
    buff r' = buff (Ring [1; 2; 3; 4; 5; 6; 7; 8] 8 2 8 false).
Proof.
  apply (push_pkt_to_tun_backlog_ring_refuses 0 (Ring [1; 2; 3; 4; 5; 6; 7; 8] 8 2 8 false) 5
           (Some [69; 0; 0; 4]) 4 None 0 false (World [] [] [] [])).
  - unfold ring_wf, ring_inv, ring_occupied; simpl. intuition (try discriminate; lia).
  - unfold ring_free; simpl. lia.
  - unfold ring_free; simpl. lia.
Defined.

(** X9.  A packet that does not fit before the end of the block of the
    backlog but fits into its free bytes is reported as taken whole, yet
    what the ring receives behind the end of the block is the head of
    the packet once more: [playback_tun_write_buf] copies from the
    first byte of the span on each call.  The ring holds its former
    bytes, the first [sz - end] bytes of the packet, and then the first
    [n - (sz - end)] bytes of the packet again. *)
Theorem push_pkt_to_tun_backlog_ring_wrap_repeats_head (fuel : nat) (b : list Z)
    (z st en tfd : Z) (p : list Z) (n : Z) (full : bool) (w : world) :
  ring_wf (Ring b z st en false) ->
  n <= Z.of_nat (length p) -> 0 < z - en < n -> n <= z - en + st ->
  exists r',
    push_pkt_to_tun_backlog_ring (S (S (S fuel))) (TunTx (Ring b z st en false) tfd)
      (Some p) n None 0 full w
    = Done (n, TunTx r' tfd, full, w) /\
    ring_wf r' /\
    ring_bytes r'
    = ring_bytes (Ring b z st en false)
      ++ firstn (Z.to_nat (z - en)) p ++ firstn (Z.to_nat (n - (z - en))) p.
Proof.
  intros Hwf Hp Hroom Hfit.
  pose proof Hwf as (Hinv & Hlen).
  unfold ring_inv, ring_occupied in Hinv, Hlen. proj_simpl.
  set (x1 := firstn (Z.to_nat (z - en)) p).
  set (x2 := firstn (Z.to_nat (n - (z - en))) p).
  assert (HX1 : length x1 = Z.to_nat (z - en)) by (apply firstn_len_Z; lia).
  assert (HX2 : length x2 = Z.to_nat (n - (z - en))) by (apply firstn_len_Z; lia).
  destruct (ring_bytes_append b z st en false x1 Hwf) as (Hwf1 & Hb1).
  { unfold contiguous_room. proj_simpl. lia. }
  rewrite HX1, Z2Nat.id in Hwf1, Hb1 by lia.
  replace (en + (z - en)) with z in Hwf1, Hb1 by lia.
  set (bb := splice b (Z.to_nat en) x1) in *.
  destruct (ring_bytes_wrap bb z st Hwf1) as (Hwf2 & Hb2).
  destruct (ring_bytes_append bb z st 0 true x2 Hwf2) as (Hwf3 & Hb3).
  { unfold contiguous_room. proj_simpl. lia. }
  rewrite HX2, Z2Nat.id in Hwf3, Hb3 by lia.
  exists (Ring (splice bb (Z.to_nat 0) x2) z st (0 + (n - (z - en))) true).
  split; [|split; [exact Hwf3|]].
  - unfold push_pkt_to_tun_backlog_ring, fill_ring. cbn [backlog tt_fd].
    rewrite do_while_unfold. unfold fill_body at 1. proj_simpl.
    destruct (Z.eqb_spec z en) as [|_]; [lia|].
    rewrite (fill_call_playback_single_span _ p n (z - en) st false)
      by (proj_simpl; reflexivity || lia).
    proj_simpl.
    destruct (Z.leb_spec n (z - en)) as [|_]; [lia|].
    rewrite Z.eqb_refl. cbn [orb].
    replace (en + (z - en)) with z by lia. fold x1. fold bb.
    rewrite do_while_unfold. unfold fill_body at 1. proj_simpl.
    rewrite Z.eqb_refl. proj_simpl. rewrite Z.eqb_refl. cbn [orb].
    unfold set_wraped, set_end. proj_simpl.
    rewrite do_while_unfold. unfold fill_body. proj_simpl.
    destruct (Z.eqb_spec st 0) as [|_]; [lia|].
    assert (Hlenbb : Z.of_nat (length bb) = z) by apply Hwf1.
    rewrite (fill_call_playback_single_span _ p (n - (z - en)) (st - 0) 0 false)
      by (proj_simpl; reflexivity || lia).
    proj_simpl.
    destruct (Z.leb_spec (n - (z - en)) (st - 0)) as [_|]; [|lia].
    cbn [f_ret f_full f_ring f_ctx f_world twb_len1 twb_len2 orb Z.eqb].
    rewrite Z.sub_diag. cbn [Z.add Z.eqb negb]. rewrite Z.add_0_r. fold x2. reflexivity.
  - rewrite Hb3, Hb2, Hb1, <- app_assoc. reflexivity.
Qed.

Lemma push_pkt_to_tun_backlog_ring_wrap_repeats_head_witness :
  exists r',
    push_pkt_to_tun_backlog_ring 3 (TunTx (Ring [0; 0; 0; 0; 1; 2; 0; 0] 8 4 6 false) 5)
      (Some [69; 0; 0; 4]) 4 None 0 false (World [] [] [] [])
    = Done (4, TunTx r' 5, false, World [] [] [] []) /\
    ring_wf r' /\
    ring_bytes r'
    = ring_bytes (Ring [0; 0; 0; 0; 1; 2; 0; 0] 8 4 6 false)
      ++ firstn (Z.to_nat (8 - 6)) [69; 0; 0; 4] ++ firstn (Z.to_nat (4 - (8 - 6))) [69; 0; 0; 4].
Proof.
  apply (push_pkt_to_tun_backlog_ring_wrap_repeats_head 0 [0; 0; 0; 0; 1; 2; 0; 0] 8 4 6 5
           [69; 0; 0; 4] 4 false (World [] [] [] [])).
  - unfold ring_wf, ring_inv, ring_occupied; simpl. intuition (try discriminate; lia).
  - simpl. lia.
  - lia.
  - lia.
Defined.

(** [playback_tun_write_buf] on a packet held in two spans that both fit
    into the presented region: the second span is copied to the same
    place as the first. *)
Lemma playback_tun_write_buf_two_spans fd_ target max t p1 n1 p2 n2 promised w :
  0 < n1 -> n1 <= Z.of_nat (length p1) -> 0 < n2 -> n2 <= Z.of_nat (length p2) ->
  n1 + n2 <= max -> max <= Z.of_nat (length target) -> 0 <= promised ->
  playback_tun_write_buf fd_ target max t (TunWriteBuff (Some p1) (Some p2) n1 n2) promised w
  = Done (HRes CONN_IO_OK_EXHAUSTED
            (firstn (Z.to_nat n2) p2
             ++ skipn (Z.to_nat n2) (firstn (Z.to_nat n1) p1 ++ skipn (Z.to_nat n1) target))
            (t + n1 + n2) (TunWriteBuff (Some p1) (Some p2) 0 0) w).
Proof.
  intros H1 Hp1 H2 Hp2 Hfit Hmax Hprom. unfold playback_tun_write_buf.
  cbn [twb_len1 twb_len2 twb_b1 twb_b2].
  destruct (Z.ltb_spec (max + promised) (n1 + n2)) as [|_]; [lia|].
  destruct (Z.ltb_spec 0 n1) as [_|]; [|lia].
  unfold playback_tun_write_single_src_buf at 1.
  destruct (Z.leb_spec n1 max) as [_|]; [|lia].
  destruct (Z.ltb_spec 0 n1) as [_|]; [|lia].
  cbn [of_option bind].
  rewrite memcpy_ok by lia.
  cbn [bind]. unfold add_through at 1, ptr_to. cbn [displacement pointee Z.eqb bind].
  rewrite Z.sub_diag. cbn [Z.ltb Z.compare andb twb_len1 twb_len2 twb_b1 twb_b2].
  destruct (Z.ltb_spec 0 n2) as [_|]; [|lia].
  unfold playback_tun_write_single_src_buf.
  destruct (Z.leb_spec n2 (max - n1)) as [_|]; [|lia].
  destruct (Z.ltb_spec 0 n2) as [_|]; [|lia].
  cbn [of_option bind].
  rewrite memcpy_ok; [|lia|lia|].
  - cbn [bind]. unfold add_through. cbn [displacement pointee Z.eqb bind].
    rewrite Z.sub_diag. cbn [Z.ltb Z.compare andb]. reflexivity.
  - rewrite length_app, length_firstn, length_skipn. lia.
Qed.

(** A region written over the bytes at [e] that differs from them in
    its first [k] bytes only. *)
Lemma store_at_splice (b tgt : list Z) (e k : Z) :
  0 <= e -> 0 <= k -> k <= Z.of_nat (length tgt) ->
  skipn (Z.to_nat k) tgt = skipn (Z.to_nat k) (ptr_add b e) ->
  store_at b e tgt = splice b (Z.to_nat e) (firstn (Z.to_nat k) tgt).
Proof.
  intros He Hk Hlen Hskip. unfold store_at, splice, ptr_add in *.
  f_equal. rewrite length_firstn.
  replace (Z.to_nat e + Init.Nat.min (Z.to_nat k) (length tgt))%nat
    with (Z.to_nat e + Z.to_nat k)%nat by lia.
  rewrite Nat.add_comm, <- skipn_skipn, <- Hskip.
  symmetry. apply firstn_skipn.
Qed.

(** X10.  A packet handed over in two spans that both fit into the free
    bytes following [end] is reported as taken whole and [end] moves by
    [len1 + len2], but the second span is copied over the first: the
    bytes appended to the ring start with the bytes of the second
    span. *)
Theorem push_pkt_to_tun_backlog_ring_second_span_overwrites (fuel : nat) (r : ring_buff_t)
    (tfd : Z) (p1 : list Z) (n1 : Z) (p2 : list Z) (n2 : Z) (full : bool) (w : world) :
  ring_wf r ->
  0 < n1 -> n1 <= Z.of_nat (length p1) -> 0 < n2 -> n2 <= Z.of_nat (length p2) ->
  n1 + n2 <= contiguous_room r ->
  exists r' x,
    push_pkt_to_tun_backlog_ring (S fuel) (TunTx r tfd) (Some p1) n1 (Some p2) n2 full w
    = Done (n1 + n2, TunTx r' tfd, full, w) /\
    ring_wf r' /\ ring_bytes r' = ring_bytes r ++ x /\
    Z.of_nat (length x) = n1 + n2 /\
    firstn (Z.to_nat n2) x = firstn (Z.to_nat n2) p2.
Proof.
  intros Hwf H1 Hp1 H2 Hp2 Hroom.
  destruct r as [b z st en wr].
  pose proof Hwf as (Hinv & Hlen).
  unfold ring_inv, ring_occupied, contiguous_room in Hinv, Hlen, Hroom. proj_simpl.
  set (target := ptr_add b en).
  assert (Htl : Z.of_nat (length target) = z - en).
  { unfold target, ptr_add. rewrite length_skipn. lia. }
  set (t1 := firstn (Z.to_nat n1) p1 ++ skipn (Z.to_nat n1) target).
  set (t2 := firstn (Z.to_nat n2) p2 ++ skipn (Z.to_nat n2) t1).
  assert (Ht1 : length t1 = length target).
  { unfold t1. rewrite length_app, length_firstn, length_skipn. destruct wr; lia. }
  assert (Ht2 : length t2 = length target).
  { unfold t2. rewrite length_app, length_firstn, length_skipn. destruct wr; lia. }
  assert (Hskip : skipn (Z.to_nat (n1 + n2)) t2 = skipn (Z.to_nat (n1 + n2)) target).
  { unfold t2. rewrite skipn_app, length_firstn.
    rewrite (skipn_all2 (firstn (Z.to_nat n2) p2)) by (rewrite length_firstn; lia).
    rewrite skipn_skipn. simpl app.
    replace (Z.to_nat (n1 + n2) - Init.Nat.min (Z.to_nat n2) (length p2) + Z.to_nat n2)%nat
      with (Z.to_nat (n1 + n2)) by lia.
    unfold t1. rewrite skipn_app, length_firstn.
    rewrite (skipn_all2 (firstn (Z.to_nat n1) p1)) by (rewrite length_firstn; lia).
    rewrite skipn_skipn. simpl app. f_equal. lia. }
  set (x := firstn (Z.to_nat (n1 + n2)) t2).
  assert (HX : length x = Z.to_nat (n1 + n2)).
  { unfold x. rewrite length_firstn. destruct wr; lia. }
  destruct (ring_bytes_append b z st en wr x Hwf) as (Hwf' & Hbytes).
  { unfold contiguous_room. proj_simpl. rewrite HX. destruct wr; lia. }
  rewrite HX, Z2Nat.id in Hwf', Hbytes by lia.
  exists (Ring (splice b (Z.to_nat en) x) z st (en + (n1 + n2)) wr), x.
  split; [|split; [exact Hwf'|split; [exact Hbytes|split; [lia|]]]].
  - assert (Hcall : forall max promised fl,
               n1 + n2 <= max -> max <= z - en -> 0 <= promised ->
               fill_call (-1) playback_tun_write_buf None
                 (FState (Ring b z st en wr) (TunWriteBuff (Some p1) (Some p2) n1 n2) w
                    CONN_IO_OK false) max promised fl
               = Next (FState (Ring (splice b (Z.to_nat en) x) z st (en + (n1 + n2)) wr)
                         (TunWriteBuff (Some p1) (Some p2) 0 0) w CONN_IO_OK_EXHAUSTED fl)).
    { intros max promised fl Hm1 Hm2 Hprom. unfold fill_call. proj_simpl.
      fold target.
      rewrite playback_tun_write_buf_two_spans by lia.
      fold t1. fold t2.
      cbn [h_buff h_tracker h_ctx h_world h_ret fill_push].
      rewrite (store_at_splice b t2 en (n1 + n2)) by (assumption || lia).
      fold x. unfold set_end, set_buff. proj_simpl.
      replace (en + n1 + n2) with (en + (n1 + n2)) by lia. reflexivity. }
    unfold push_pkt_to_tun_backlog_ring, fill_ring. cbn [backlog tt_fd].
    rewrite do_while_unfold. unfold fill_body. proj_simpl.
    destruct wr.
    + destruct (Z.eqb_spec st en) as [|_]; [lia|].
      rewrite Hcall by lia. proj_simpl.
      change (CONN_IO_OK =? CONN_IO_OK_EXHAUSTED) with false.
      cbn [orb f_ctx f_ring f_world twb_len1 twb_len2]. reflexivity.
    + destruct (Z.eqb_spec z en) as [|_]; [lia|].
      rewrite Hcall by lia. proj_simpl.
      change (CONN_IO_OK =? CONN_IO_OK_EXHAUSTED) with false.
      cbn [orb f_ctx f_ring f_world twb_len1 twb_len2]. reflexivity.
  - unfold x. rewrite firstn_firstn.
    replace (Init.Nat.min (Z.to_nat n2) (Z.to_nat (n1 + n2))) with (Z.to_nat n2) by lia.
    unfold t2. rewrite firstn_app, length_firstn.
    replace (Z.to_nat n2 - Init.Nat.min (Z.to_nat n2) (length p2))%nat with 0%nat by lia.
    rewrite firstn_0, app_nil_r, firstn_firstn.
    f_equal. lia.
Qed.

Lemma push_pkt_to_tun_backlog_ring_second_span_overwrites_witness :
  exists r' x,
    push_pkt_to_tun_backlog_ring 1 (TunTx (Ring [0; 0; 0; 0; 0; 0; 0; 0] 8 0 2 false) 5)
      (Some [69; 0; 0]) 3 (Some [5; 9]) 2 false (World [] [] [] [])
    = Done (3 + 2, TunTx r' 5, false, World [] [] [] []) /\
    ring_wf r' /\
    ring_bytes r' = ring_bytes (Ring [0; 0; 0; 0; 0; 0; 0; 0] 8 0 2 false) ++ x /\
    Z.of_nat (length x) = 3 + 2 /\
    firstn (Z.to_nat 2) x = firstn (Z.to_nat 2) [5; 9].
Proof.
  apply (push_pkt_to_tun_backlog_ring_second_span_overwrites 0
           (Ring [0; 0; 0; 0; 0; 0; 0; 0] 8 0 2 false) 5 [69; 0; 0] 3 [5; 9] 2 false
           (World [] [] [] [])).
  - unfold ring_wf, ring_inv, ring_occupied; simpl. intuition (try discriminate; lia).
  - lia.
  - simpl. lia.
  - lia.
  - simpl. lia.
  - unfold contiguous_room; simpl. lia.
Defined.

(** ** From a connection to the tun device *)

Lemma playback_tun_write_buf_world fd_ target max t b promised w h :
  playback_tun_write_buf fd_ target max t b promised w = Done h -> h_world h = w.
Proof.
  unfold playback_tun_write_buf.
  destruct (_ <? _); [intros [= <-]; reflexivity|].
  destruct (if 0 <? twb_len1 b then _ else _) as [[[[t1 m1] a1] l1]| |];
    cbn [bind]; try discriminate.
  destruct ((0 <? twb_len1 b) && (0 <? l1)); [intros [= <-]; reflexivity|].
  destruct (if 0 <? twb_len2 _ then _ else _) as [[[[t2 m2] a2] l2]| |];
    cbn [bind]; try discriminate.
  destruct (_ && _); intros [= <-]; reflexivity.
Qed.

(** Without a pusher, [fill_ring] leaves a ring that holds bytes
    holding bytes. *)
Lemma fill_body_keeps_nonempty {C : Type} (fd_ : Z) (io_hdlr : io_handler_fn_t C) :
  handler_contract io_hdlr ->
  forall s, ring_inv (f_ring s) /\ ring_empty (f_ring s) = false ->
    match fill_body fd_ io_hdlr None s with
    | Next s' | Break s' | Crash s' | Stall s' =>
        ring_inv (f_ring s') /\ ring_empty (f_ring s') = false
    end.
Proof.
  intros Hh s (Hinv & Hne).
  pose proof (fill_body_inv fd_ io_hdlr None Hh I s Hinv) as Hinv'.
  destruct s as [[b z st en wr] c w ret full].
  unfold fill_body, fill_call in *. unfold ring_empty in *. proj_simpl.
  destruct wr.
  - destruct (io_hdlr _ _ _ _ _ _ _) as [res| |]; cbn [fill_push] in *; proj_simpl; auto.
  - destruct (Z.eqb_spec z en) as [->|Hzen]; proj_simpl; [auto|].
    destruct (io_hdlr _ _ _ _ _ _ _) as [res| |] eqn:E; cbn [fill_push] in *; proj_simpl; auto.
    split; [exact Hinv'|].
    apply Hh in E; [|unfold ring_inv in Hinv; proj_simpl; lia].
    unfold ring_inv in Hinv. proj_simpl. cbn [negb andb] in *.
    destruct Hinv as (? & ? & _ & Hn & _). specialize (Hn eq_refl).
    destruct (Z.eqb_spec st en) as [|Hse]; [discriminate|].
    unfold set_end, set_buff. proj_simpl. cbn [negb andb].
    destruct (Z.eqb_spec st (h_tracker res)) as [|_]; [lia|reflexivity].
Qed.

(** What [push_pkt_to_tun_backlog_ring] can return: nothing or the whole
    packet; it makes no system call, and a refused packet of positive
    length sets [*full]. *)
Lemma push_pkt_to_tun_backlog_ring_result fuel tun_tx b1 len1 b2 len2 full w m tun_tx' full' w' :
  push_pkt_to_tun_backlog_ring fuel tun_tx b1 len1 b2 len2 full w = Done (m, tun_tx', full', w') ->
  (m = 0 \/ m = len1 + len2) /\ w' = w /\ tt_fd tun_tx' = tt_fd tun_tx /\
  (m = 0 -> len1 + len2 <> 0 -> full' = true) /\
  (ring_inv (backlog tun_tx) -> ring_inv (backlog tun_tx')) /\
  (ring_inv (backlog tun_tx) -> ring_empty (backlog tun_tx) = false ->
   ring_empty (backlog tun_tx') = false).
Proof.
  unfold push_pkt_to_tun_backlog_ring, fill_ring.
  set (s0 := FState (backlog tun_tx) (TunWriteBuff b1 b2 len1 len2) w CONN_IO_OK false).
  set (body := fill_body (-1) playback_tun_write_buf None).
  set (cnd := fun s : fstate tun_write_buff_t => (CONN_IO_OK =? f_ret s) || f_full s).
  assert (Hw : f_world (snd (do_while fuel body cnd s0)) = w).
  { apply (do_while_inv (fun s => f_world s = w)); [|reflexivity].
    intros [r c w0 ret fl] Hw0. cbn [f_world] in Hw0. subst w0.
    unfold body, fill_body, fill_call. proj_simpl.
    destruct (wraped r).
    - destruct (playback_tun_write_buf _ _ _ _ _ _ _) as [h| |] eqn:E;
        cbn [fill_push f_world]; auto.
      apply playback_tun_write_buf_world in E. exact E.
    - destruct (sz r =? end_ r); [reflexivity|].
      destruct (playback_tun_write_buf _ _ _ _ _ _ _) as [h| |] eqn:E;
        cbn [fill_push f_world]; auto.
      apply playback_tun_write_buf_world in E. exact E. }
  assert (Hinv : ring_inv (backlog tun_tx) ->
                 ring_inv (f_ring (snd (do_while fuel body cnd s0)))).
  { intros Hi. apply (do_while_inv (fun s => ring_inv (f_ring s))); [|exact Hi].
    apply fill_body_inv; [apply playback_tun_write_buf_contract|exact I]. }
  assert (Hne : ring_inv (backlog tun_tx) -> ring_empty (backlog tun_tx) = false ->
                ring_empty (f_ring (snd (do_while fuel body cnd s0))) = false).
  { intros Hi He.
    apply (do_while_inv (fun s => ring_inv (f_ring s) /\ ring_empty (f_ring s) = false));
      [|split; assumption].
    apply fill_body_keeps_nonempty. apply playback_tun_write_buf_contract. }
  destruct (do_while fuel body cnd s0) as [[| |] s]; try discriminate.
  cbn [snd] in Hw, Hinv, Hne.
  destruct (Z.eqb_spec (twb_len1 (f_ctx s) + twb_len2 (f_ctx s)) 0) as [Hz|Hnz]; cbn [negb].
  - intros [= <- <- <- <-]. cbn [backlog tt_fd].
    split; [right; reflexivity|]. split; [exact Hw|]. split; [reflexivity|].
    split; [intros H0 Hn0; congruence|]. split; assumption.
  - destruct (assert _); cbn [bind]; try discriminate.
    intros [= <- <- <- <-]. cbn [backlog tt_fd].
    split; [left; reflexivity|]. split; [exact Hw|]. split; [reflexivity|].
    split; [reflexivity|]. split; assumption.
Qed.

(** The same for [push_pkt_to_tun_or_ring]; behind a backlog that holds
    bytes it makes no system call either. *)
Lemma push_pkt_to_tun_or_ring_result fuel tun_tx b1 len1 b2 len2 full w m tun_tx' full' w' :
  push_pkt_to_tun_or_ring fuel tun_tx b1 len1 b2 len2 full w = Done (m, tun_tx', full', w') ->
  (m = 0 \/ m = len1 + len2) /\ tt_fd tun_tx' = tt_fd tun_tx /\
  (ring_inv (backlog tun_tx) -> ring_inv (backlog tun_tx')) /\
  (ring_inv (backlog tun_tx) -> ring_empty (backlog tun_tx) = false ->
   ring_empty (backlog tun_tx') = false /\ w' = w).
Proof.
  unfold push_pkt_to_tun_or_ring.
  destruct (ring_empty (backlog tun_tx)) eqn:Hemp.
  - destruct (sys_call _ w) as [a w1].
    destruct (rv a <? 0).
    + destruct ((errno a =? EAGAIN) || (errno a =? EWOULDBLOCK)).
      * intros H. apply push_pkt_to_tun_backlog_ring_result in H.
        destruct H as (Hm & _ & Hfd & _ & Hinv & _).
        split; [exact Hm|]. split; [exact Hfd|]. split; [exact Hinv|].
        intros _ He. discriminate.
      * intros [= <- <- <- <-].
        split; [left; reflexivity|]. split; [reflexivity|]. split; [auto|].
        intros _ He. congruence.
    + destruct (Z.eqb_spec (rv a) (len1 + len2)) as [Heq|]; cbn [assert bind]; try discriminate.
      intros [= <- <- <- <-].
      split; [right; exact Heq|]. split; [reflexivity|]. split; [auto|].
      intros _ He. congruence.
  - intros H. apply push_pkt_to_tun_backlog_ring_result in H.
    destruct H as (Hm & Hw & Hfd & _ & Hinv & Hne).
    split; [exact Hm|]. split; [exact Hfd|]. split; [exact Hinv|].
    intros Hi He. split; [apply Hne; assumption|exact Hw].
Qed.

(** Every run of the loop body of [push_to_tun_ipv4] takes from the
    spans what it adds to [overall_pushed]. *)
Lemma push_to_tun_ipv4_step_accounts host_le fuel (total : Z) (s : pstate) :
  ps_overall_pushed s + ps_len1 s + ps_len2 s = total /\ 0 <= ps_len1 s /\ 0 <= ps_len2 s ->
  match push_to_tun_ipv4_step host_le fuel s with
  | Next s' | Break s' | Crash s' | Stall s' =>
      ps_overall_pushed s' + ps_len1 s' + ps_len2 s' = total /\
      0 <= ps_len1 s' /\ 0 <= ps_len2 s'
  end.
Proof.
  intros Hs. unfold push_to_tun_ipv4_step, push_to_tun_ipv4_body.
  destruct (parse_l3_packet_len _ _ _ _ _) as [pkt_len| |]; cbn [bind]; try exact Hs.
  destruct ((pkt_len =? 0) || _) eqn:Hc; [exact Hs|].
  apply orb_false_iff in Hc. destruct Hc as (Hz & Hlt).
  apply Z.eqb_neq in Hz. apply Z.ltb_ge in Hlt.
  destruct (Z.leb_spec pkt_len (ps_len1 s)) as [Hle|Hgt].
  - destruct (push_pkt_to_tun_or_ring _ _ _ _ _ _ _ _) as [[[[pushed tt'] fl'] w']| |] eqn:E;
      cbn [bind]; try exact Hs.
    apply push_pkt_to_tun_or_ring_result in E. destruct E as (Hm & _).
    destruct (ptr_offset _ _) as [b1'| |]; cbn [bind]; try exact Hs.
    cbn [ps_overall_pushed ps_len1 ps_len2]. lia.
  - destruct (Z.ltb_spec 0 (ps_len2 s - (pkt_len - ps_len1 s))) as [Ha|Ha];
      cbn [assert bind]; try exact Hs.
    destruct (push_pkt_to_tun_or_ring _ _ _ _ _ _ _ _) as [[[[pushed tt'] fl'] w']| |] eqn:E;
      cbn [bind]; try exact Hs.
    apply push_pkt_to_tun_or_ring_result in E. destruct E as (Hm & _).
    destruct (Z.ltb_spec 0 pushed) as [Hp|Hp].
    + destruct (ptr_offset _ _) as [b2'| |]; cbn [bind]; try exact Hs.
      cbn [ps_overall_pushed ps_len1 ps_len2]. lia.
    + cbn [ps_overall_pushed ps_len1 ps_len2]. lia.
Qed.

Lemma push_to_tun_ipv4_at_most_offered host_le fuel tun_tx b1 len1 b2 len2 w moved tun_tx' w' :
  0 <= len2 ->
  push_to_tun_ipv4 host_le fuel tun_tx b1 len1 b2 len2 w = Done (moved, tun_tx', w') ->
  moved <= len1 + len2.
Proof.
  intros H2. unfold push_to_tun_ipv4.
  destruct (Z.ltb_spec 0 len1) as [H1|]; cbn [assert bind]; try discriminate.
  pose proof (do_while_inv
                (fun s => ps_overall_pushed s + ps_len1 s + ps_len2 s = len1 + len2 /\
                          0 <= ps_len1 s /\ 0 <= ps_len2 s)
                (push_to_tun_ipv4_step host_le fuel) (fun s => negb (ps_full s))
                (push_to_tun_ipv4_step_accounts host_le fuel (len1 + len2)) fuel
                (PState b1 len1 b2 len2 0 false tun_tx w)) as Hinv.
  cbn [ps_overall_pushed ps_len1 ps_len2] in Hinv.
  destruct (do_while _ _ _ _) as [[| |] s]; try discriminate.
  intros [= <- <- <-]. cbn [snd] in Hinv. lia.
Qed.

Lemma push_to_tun_contract host_le fuel : pusher_contract (push_to_tun host_le fuel).
Proof.
  intros b1 n1 b2 n2 c w moved c' w' H1 H2. unfold push_to_tun.
  destruct (assert _); cbn [bind]; try discriminate.
  destruct (if 0 <? n1 then _ else _) as [o| |]; cbn [bind]; try discriminate.
  destruct (Z.shiftr o 4 =? 4).
  - intros H. apply push_to_tun_ipv4_at_most_offered in H.
    + destruct (Z.ltb_spec 0 n1); lia.
    + destruct (Z.ltb_spec 0 n1); lia.
  - destruct (Z.shiftr o 4 =? 6).
    + unfold push_to_tun_ipv6. intros [= <- <- <-]. lia.
    + intros [= <- <- <-]. lia.
Qed.

(** X11.  [push_to_tun] keeps the contract of a data pusher: the number
    of bytes it reports as moved is never larger than the number of
    bytes it was offered, whatever the tun device and the backlog do
    (so a ring it is the pusher of keeps the ring invariants). *)
Theorem push_to_tun_moves_at_most_offered (host_le : bool) (fuel : nat)
    (b1 : ptr) (n1 : Z) (b2 : ptr) (n2 : Z) (tun_tx tun_tx' : tun_tx_t) (w w' : world)
    (moved : Z) :
  0 <= n1 -> 0 <= n2 ->
  push_to_tun host_le fuel b1 n1 b2 n2 tun_tx w = Done (moved, tun_tx', w') ->
  moved <= n1 + n2.
Proof.
  intros H1 H2 H.
  exact (push_to_tun_contract host_le fuel b1 n1 b2 n2 tun_tx w moved tun_tx' w' H1 H2 H).
Qed.

Lemma push_to_tun_moves_at_most_offered_witness : 4 <= 4 + 3.
Proof.
  apply (push_to_tun_moves_at_most_offered true 2 (Some [69; 0; 0; 4; 69; 0; 0]) 4
           (Some [9; 9; 9]) 3 (TunTx (Ring [0; 0; 0; 0] 4 0 0 false) 5)
           (TunTx (Ring [0; 0; 0; 0] 4 0 0 false) 5)
           (World [SysAns 4 0 []] [] [] [])
           (World [] [] [] [EvWritev 5 [69; 0; 0; 4] []])).
  - lia.
  - lia.
  - vm_compute. reflexivity.
Defined.

(** The fill of a connection's rx ring, [recv_batch] with [push_to_tun],
    is within the contracts of [ring_invariants_preserved]. *)
Lemma conn_rx_fill_respects_contracts host_le fuel fuel' fd_ tun_tx :
  op_respects_contracts
    (OpFill tun_tx_t fuel' fd_ recv_batch (Some (push_to_tun host_le fuel)) tun_tx).
Proof. split; [apply recv_batch_contract|apply push_to_tun_contract]. Qed.

Lemma push_to_tun_ipv4_step_queues host_le fuel (w : world) (s : pstate) :
  ring_inv (backlog (ps_tun_tx s)) /\ ring_empty (backlog (ps_tun_tx s)) = false /\
  ps_world s = w ->
  match push_to_tun_ipv4_step host_le fuel s with
  | Next s' | Break s' | Crash s' | Stall s' =>
      ring_inv (backlog (ps_tun_tx s')) /\ ring_empty (backlog (ps_tun_tx s')) = false /\
      ps_world s' = w
  end.
Proof.
  intros Hs. unfold push_to_tun_ipv4_step, push_to_tun_ipv4_body.
  destruct (parse_l3_packet_len _ _ _ _ _) as [pkt_len| |]; cbn [bind]; try exact Hs.
  destruct ((pkt_len =? 0) || _); [exact Hs|].
  pose proof Hs as (Hinv & Hne & Hw).
  destruct (pkt_len <=? ps_len1 s).
  - destruct (push_pkt_to_tun_or_ring _ _ _ _ _ _ _ _) as [[[[pushed tt'] fl'] w']| |] eqn:E;
      cbn [bind]; try exact Hs.
    apply push_pkt_to_tun_or_ring_result in E. destruct E as (_ & _ & Hi & Hq).
    destruct (Hq Hinv Hne) as (Hne' & ->).
    destruct (ptr_offset _ _) as [b1'| |]; cbn [bind]; try exact Hs.
    cbn [ps_tun_tx ps_world]. auto.
  - destruct (assert _); cbn [bind]; try exact Hs.
    destruct (push_pkt_to_tun_or_ring _ _ _ _ _ _ _ _) as [[[[pushed tt'] fl'] w']| |] eqn:E;
      cbn [bind]; try exact Hs.
    apply push_pkt_to_tun_or_ring_result in E. destruct E as (_ & _ & Hi & Hq).
    destruct (Hq Hinv Hne) as (Hne' & ->).
    destruct (0 <? pushed).
    + destruct (ptr_offset _ _) as [b2'| |]; cbn [bind]; try exact Hs.
      cbn [ps_tun_tx ps_world]. auto.
    + cbn [ps_tun_tx ps_world]. auto.
Qed.

(** X12.  No packet overtakes the backlog: while the tun backlog holds
    bytes, [push_to_tun_ipv4] makes no system call at all (no packet is
    written to the tun device directly), and the backlog still holds
    bytes when it returns. *)
Theorem push_to_tun_ipv4_queues_behind_backlog (host_le : bool) (fuel : nat)
    (tun_tx tun_tx' : tun_tx_t) (b1 : ptr) (len1 : Z) (b2 : ptr) (len2 : Z) (w w' : world)
    (moved : Z) :
  ring_inv (backlog tun_tx) -> ring_empty (backlog tun_tx) = false ->
  push_to_tun_ipv4 host_le fuel tun_tx b1 len1 b2 len2 w = Done (moved, tun_tx', w') ->
  w' = w /\ ring_empty (backlog tun_tx') = false /\ ring_inv (backlog tun_tx').
Proof.
  intros Hinv Hne. unfold push_to_tun_ipv4.
  destruct (assert _); cbn [bind]; try discriminate.
  pose proof (do_while_inv
                (fun s => ring_inv (backlog (ps_tun_tx s)) /\
                          ring_empty (backlog (ps_tun_tx s)) = false /\ ps_world s = w)
                (push_to_tun_ipv4_step host_le fuel) (fun s => negb (ps_full s))
                (push_to_tun_ipv4_step_queues host_le fuel w) fuel
                (PState b1 len1 b2 len2 0 false tun_tx w)) as Hq.
  cbn [ps_tun_tx ps_world] in Hq.
  destruct (do_while _ _ _ _) as [[| |] s]; try discriminate.
  intros [= <- <- <-]. cbn [snd] in Hq.
  destruct Hq as (Hi & He & Hw); auto.
Qed.

Lemma push_to_tun_ipv4_queues_behind_backlog_witness :
  World [SysAns 4 0 []] [] [] [] = World [SysAns 4 0 []] [] [] [] /\
  ring_empty (backlog (TunTx (Ring [7; 69; 0; 0; 4; 0; 0; 0] 8 0 5 false) 5)) = false /\
  ring_inv (backlog (TunTx (Ring [7; 69; 0; 0; 4; 0; 0; 0] 8 0 5 false) 5)).
Proof.
  apply (push_to_tun_ipv4_queues_behind_backlog true 2 (TunTx (Ring (7 :: repeat 0 7) 8 0 1 false) 5)
           (TunTx (Ring [7; 69; 0; 0; 4; 0; 0; 0] 8 0 5 false) 5)
           (Some [69; 0; 0; 4]) 4 None 0 (World [SysAns 4 0 []] [] [] [])
           (World [SysAns 4 0 []] [] [] []) 4).
  - unfold ring_inv, ring_occupied; simpl. intuition (try discriminate; lia).
  - reflexivity.
  - vm_compute. reflexivity.
Defined.

(** One packet pushed while the backlog is empty and the device takes it. *)
Lemma push_pkt_to_tun_or_ring_direct fuel tun_tx p tl full w rest :
  ring_empty (backlog tun_tx) = true -> sock_ans w = accepts p :: rest ->
  push_pkt_to_tun_or_ring fuel tun_tx (Some (p ++ tl)) (Z.of_nat (length p)) None 0 full w
  = Done (Z.of_nat (length p), tun_tx, full,
          World rest (tun_rx w) (allocs w) (trace w ++ [EvWritev (tt_fd tun_tx) p []])).
Proof.
  intros Hemp Hans. unfold push_pkt_to_tun_or_ring. rewrite Hemp.
  cbn [deref]. rewrite firstn_app_exact. simpl (firstn (Z.to_nat 0) []). unfold sys_call. rewrite Hans. unfold accepts. cbn [rv errno].
  destruct (Z.ltb_spec (Z.of_nat (length p)) 0) as [|_]; [lia|].
  rewrite Z.add_0_r. unfold assert. rewrite Z.eqb_refl. reflexivity.
Qed.

Lemma push_to_tun_ipv4_loop_packets host_le tun_tx junk :
  ring_empty (backlog tun_tx) = true ->
  forall ps fuel' fuel ov w rest,
    Forall l3_packet ps -> (length ps < fuel)%nat ->
    sock_ans w = map accepts ps ++ rest ->
    do_while fuel (push_to_tun_ipv4_step host_le fuel') (fun s => negb (ps_full s))
      (PState (Some (concat ps ++ junk)) (Z.of_nat (length (concat ps))) None 0 ov false
         tun_tx w)
    = (Returned,
       PState (Some junk) 0 None 0 (ov + Z.of_nat (length (concat ps))) false tun_tx
         (World rest (tun_rx w) (allocs w)
            (trace w ++ map (fun p => EvWritev (tt_fd tun_tx) p []) ps))).
Proof.
  intros Hemp ps.
  induction ps as [|p ps IH]; intros fuel' fuel ov w rest Hps Hfuel Hans;
    (destruct fuel as [|fuel]; [simpl in Hfuel; lia|]); rewrite do_while_unfold;
    unfold push_to_tun_ipv4_step at 1, push_to_tun_ipv4_body;
    cbn [ps_b1 ps_len1 ps_b2 ps_len2 ps_overall_pushed ps_full ps_tun_tx ps_world].
  - simpl concat. simpl app. simpl length.
    assert (Hp : parse_l3_packet_len host_le (Some junk) (Z.of_nat 0) None 0 = Done 0)
      by (destruct host_le; reflexivity).
    rewrite Hp. cbn [bind Z.eqb orb].
    simpl in Hans. subst rest. rewrite app_nil_r, Z.add_0_r.
    destruct w; reflexivity.
  - inversion Hps as [|? ? Hp Hps']; subst.
    assert (H4 : (4 <= length p)%nat) by apply Hp.
    simpl concat. rewrite <- app_assoc, length_app, Nat2Z.inj_add.
    rewrite (parse_l3_packet_len_packet host_le p (concat ps ++ junk)) by (assumption || lia).
    cbn [bind].
    destruct (Z.eqb_spec (Z.of_nat (length p)) 0) as [|_]; [lia|].
    destruct (Z.ltb_spec (Z.of_nat (length p) + Z.of_nat (length (concat ps)) + 0)
                (Z.of_nat (length p))) as [|_]; [lia|].
    cbn [orb].
    destruct (Z.leb_spec (Z.of_nat (length p))
                (Z.of_nat (length p) + Z.of_nat (length (concat ps)))) as [_|]; [|lia].
    simpl map in Hans.
    rewrite (push_pkt_to_tun_or_ring_direct fuel' tun_tx p (concat ps ++ junk) false w
               (map accepts ps ++ rest) Hemp Hans).
    cbn [bind]. unfold ptr_offset, ptr_add. rewrite skipn_app_exact. cbn [bind negb].
    replace (Z.of_nat (length p) + Z.of_nat (length (concat ps)) - Z.of_nat (length p))
      with (Z.of_nat (length (concat ps))) by lia.
    rewrite (IH fuel' fuel (ov + Z.of_nat (length p))
               (World (map accepts ps ++ rest) (tun_rx w) (allocs w)
                  (trace w ++ [EvWritev (tt_fd tun_tx) p []])) rest Hps')
      by (reflexivity || (simpl in Hfuel; lia)).
    cbn [tun_rx allocs trace]. rewrite <- app_assoc, Z.add_assoc. reflexivity.
Qed.

(** X13.  Framing on the way from a connection to the tun device: while
    the backlog is empty and the device takes what it is given,
    [push_to_tun], offered whole IPv4 packets back to back in one span,
    writes each packet with one [writev] of exactly its bytes, in order,
    and reports all the bytes as moved; the backlog stays empty. *)
Theorem push_to_tun_delivers_packet_by_packet (host_le : bool) (p : list Z)
    (ps : list (list Z)) (junk : list Z) (fuel : nat) (tun_tx : tun_tx_t) (w : world)
    (rest : list sys_ans) :
  Forall l3_packet (p :: ps) -> ip_version p = 4 ->
  ring_empty (backlog tun_tx) = true ->
  sock_ans w = map accepts (p :: ps) ++ rest ->
  (length (p :: ps) < fuel)%nat ->
  push_to_tun host_le fuel (Some (concat (p :: ps) ++ junk))
    (Z.of_nat (length (concat (p :: ps)))) None 0 tun_tx w
  = Done (Z.of_nat (length (concat (p :: ps))), tun_tx,
          World rest (tun_rx w) (allocs w)
            (trace w ++ map (fun q => EvWritev (tt_fd tun_tx) q []) (p :: ps))).
Proof.
  intros Hps Hv Hemp Hans Hfuel.
  assert (Hp : l3_packet p) by (inversion Hps; assumption).
  assert (H4 : (4 <= length p)%nat) by apply Hp.
  assert (Hpos : 0 < Z.of_nat (length (concat (p :: ps)))).
  { simpl concat. rewrite length_app. lia. }
  unfold push_to_tun.
  destruct (Z.ltb_spec 0 (Z.of_nat (length (concat (p :: ps))) + 0)) as [_|]; [|lia].
  cbn [assert bind].
  destruct (Z.ltb_spec 0 (Z.of_nat (length (concat (p :: ps))))) as [_|]; [|lia].
  assert (Ho : load_u8 (Some (concat (p :: ps) ++ junk)) 0 = Done (nth 0 p 0)).
  { destruct p as [|o p']; [simpl in H4; lia|reflexivity]. }
  rewrite Ho. cbn [bind]. unfold ip_version in Hv. rewrite Hv. cbn [Z.eqb Pos.eqb].
  unfold push_to_tun_ipv4.
  destruct (Z.ltb_spec 0 (Z.of_nat (length (concat (p :: ps))))) as [_|]; [|lia].
  cbn [assert bind].
  rewrite (push_to_tun_ipv4_loop_packets host_le tun_tx junk Hemp (p :: ps) fuel fuel 0 w rest
             Hps Hfuel Hans).
  reflexivity.
Qed.

Lemma push_to_tun_delivers_packet_by_packet_witness :
  push_to_tun true 3 (Some (concat ([69; 0; 0; 5; 9] :: [[69; 0; 0; 4]]) ++ [7]))
    (Z.of_nat (length (concat ([69; 0; 0; 5; 9] :: [[69; 0; 0; 4]])))) None 0
    (TunTx (Ring [0; 0; 0; 0] 4 2 2 false) 5)
    (World (map accepts ([69; 0; 0; 5; 9] :: [[69; 0; 0; 4]]) ++ []) [] [] [])
  = Done (Z.of_nat (length (concat ([69; 0; 0; 5; 9] :: [[69; 0; 0; 4]]))),
          TunTx (Ring [0; 0; 0; 0] 4 2 2 false) 5,
          World [] [] []
            ([] ++ map (fun q => EvWritev (tt_fd (TunTx (Ring [0; 0; 0; 0] 4 2 2 false) 5)) q [])
                     ([69; 0; 0; 5; 9] :: [[69; 0; 0; 4]]))).
Proof.
  apply (push_to_tun_delivers_packet_by_packet true [69; 0; 0; 5; 9] [[69; 0; 0; 4]] [7] 3
           (TunTx (Ring [0; 0; 0; 0] 4 2 2 false) 5)
           (World (map accepts ([69; 0; 0; 5; 9] :: [[69; 0; 0; 4]]) ++ []) [] [] []) []).
  - repeat constructor; unfold is_byte; simpl; lia.
  - reflexivity.
  - reflexivity.
  - reflexivity.
  - simpl. lia.
Defined.

(** The fill of an empty ring by [recv_batch] and [push_to_tun]. *)
Lemma fill_ring_recv_push_to_tun_empty (host_le : bool) (fuel fuel' : nat)
    (fd_ : Z) (r : ring_buff_t) (tun_tx : tun_tx_t) (w : world) :
  ring_empty r = true ->
  fst (fill_ring (S (S fuel)) fd_ r recv_batch (Some (push_to_tun host_le fuel')) tun_tx w)
  = Aborted.
Proof.
  destruct r as [b z st en wr]. unfold ring_empty. proj_simpl.
  intros He. apply andb_true_iff in He. destruct He as (Hw & Hse).
  destruct wr; [discriminate|]. apply Z.eqb_eq in Hse. subst en.
  unfold fill_ring. rewrite do_while_unfold. unfold fill_body at 1. proj_simpl.
  destruct (Z.eqb_spec z st) as [->|Hne].
  - proj_simpl. rewrite Z.eqb_refl. cbn [orb].
    unfold set_wraped, set_end. proj_simpl.
    rewrite do_while_unfold. unfold fill_body, fill_call. proj_simpl.
    destruct (recv_batch_tracker fd_ (ptr_add b 0) (st - 0) 0 tun_tx 0 w)
      as (ret & b' & w' & ->).
    cbn [h_buff h_tracker h_ctx h_world h_ret].
    unfold fill_push, set_end, set_buff. proj_simpl.
    rewrite Z.sub_diag. cbn [Z.eqb].
    unfold push_to_tun. cbn [Z.add Z.ltb Z.compare assert bind]. reflexivity.
  - destruct (recv_batch_tracker fd_ (ptr_add b st) (z - st) st tun_tx st w)
      as (ret & b' & w' & E).
    unfold fill_call. proj_simpl. rewrite E.
    cbn [h_buff h_tracker h_ctx h_world h_ret].
    unfold fill_push, set_end, set_buff. proj_simpl.
    rewrite Z.sub_diag.
    unfold push_to_tun. cbn [Z.add Z.ltb Z.compare assert bind]. reflexivity.
Qed.

(** X14.  Receiving on a connection whose rx ring is empty aborts: after
    the first [recv], whatever it returned, [fill_ring] offers the
    (still empty) occupied region to [push_to_tun], whose first
    statement asserts that the region is not empty.  [recv_batch] never
    moves [end], so the region is empty whenever the ring was. *)
Theorem fill_ring_recv_push_to_tun_aborts_on_empty_ring (host_le : bool) (fuel fuel' : nat)
    (fd_ : Z) (r : ring_buff_t) (tun_tx : tun_tx_t) (w : world) :
  ring_empty r = true ->
  fst (fill_ring (S (S fuel)) fd_ r recv_batch (Some (push_to_tun host_le fuel')) tun_tx w)
  = Aborted.
Proof. apply fill_ring_recv_push_to_tun_empty. Qed.

Lemma fill_ring_recv_push_to_tun_aborts_on_empty_ring_witness :
  fst (fill_ring 2 7 (Ring [0; 0; 0; 0; 0; 0; 0; 0] 8 0 0 false) recv_batch
         (Some (push_to_tun true 2)) (TunTx (Ring [0; 0; 0; 0] 4 0 0 false) 5)
         (World [SysAns 4 0 [69; 0; 0; 4]] [] [] []))
  = Aborted.
Proof.
  apply (fill_ring_recv_push_to_tun_aborts_on_empty_ring true 0 2 7
           (Ring [0; 0; 0; 0; 0; 0; 0; 0] 8 0 0 false) (TunTx (Ring [0; 0; 0; 0] 4 0 0 false) 5)
           (World [SysAns 4 0 [69; 0; 0; 4]] [] [] [])).
  reflexivity.
Defined.

(** ** Initialisation of the sockets *)

Lemma init_backlog_ring_cases (rbuff : ring_buff_t) (size : Z) (w : world) :
  (exists block rest,
     allocs w = Some block :: rest /\
     init_backlog_ring rbuff size w
     = (0, Ring block size 0 0 false,
        World (sock_ans w) (tun_rx w) rest (trace w ++ [EvAlloc size]))) \/
  (exists w', init_backlog_ring rbuff size w = (-1, set_buff rbuff [], w') /\
              (allocs w = [] \/ exists rest, allocs w = None :: rest)).
Proof.
  unfold init_backlog_ring, sys_alloc.
  destruct (allocs w) as [|[block|] rest] eqn:E.
  - right. eexists. split; [reflexivity|]. left. reflexivity.
  - left. exists block, rest. split; reflexivity.
  - right. eexists. split; [reflexivity|]. right. exists rest. reflexivity.
Qed.

(** X15.  [init_conn_sock] on the zeroed socket object of [add_sock]
    copies the 16 address bytes and the family into the socket and
    allocates the tx ring and then the rx ring, each of 128 KiB.  It
    returns 0 exactly when both allocations succeed, and then both rings
    are empty; it returns -1 otherwise, and when it is the second
    allocation that fails the block of the tx ring stays attached to
    the socket. *)
Theorem init_conn_sock_outcome (sock : io_sock_t) (addr_info : conn_sock_info_t) (w : world) :
  d sock = DZero -> (16 <= length (csi_addr addr_info))%nat ->
  exists rc c w',
    init_conn_sock sock addr_info w = Done (rc, IoSock (fd sock) (typ sock) (DConn c), w') /\
    c_peer c = firstn 16 (csi_addr addr_info) /\ c_af c = csi_af addr_info /\
    c_outbound c = 0 /\
    ((rc = 0 /\
      (exists tx_block rx_block rest,
         allocs w = Some tx_block :: Some rx_block :: rest /\
         c_tx c = Ring tx_block CONN_RING_SZ 0 0 false /\
         c_rx c = Ring rx_block CONN_RING_SZ 0 0 false) /\
      ring_empty (c_tx c) = true /\ ring_empty (c_rx c) = true /\
      ring_free (c_tx c) = 131072 /\ ring_free (c_rx c) = 131072) \/
     (rc = -1 /\ (allocs w = [] \/ exists rest, allocs w = None :: rest) /\
      buff (c_tx c) = [] /\ buff (c_rx c) = []) \/
     (rc = -1 /\
      (exists tx_block, (allocs w = [Some tx_block] \/
                         exists rest, allocs w = Some tx_block :: None :: rest) /\
                        c_tx c = Ring tx_block CONN_RING_SZ 0 0 false) /\
      buff (c_rx c) = [])).
Proof.
  intros Hd Haddr. unfold init_conn_sock. rewrite Hd. cbn [d_conn bind c_peer].
  rewrite memcpy_ok by (unfold MAX_NW_ADDR_LEN; simpl length; lia).
  cbn [bind c_peer c_af c_outbound c_rx c_tx].
  replace (firstn (Z.to_nat MAX_NW_ADDR_LEN) (csi_addr addr_info)
           ++ skipn (Z.to_nat MAX_NW_ADDR_LEN) (repeat 0 16))
    with (firstn 16 (csi_addr addr_info)) by (symmetry; apply app_nil_r).
  destruct (init_backlog_ring_cases zero_ring CONN_RING_SZ w)
    as [(tx_block & rest & Hal & ->)|(w1 & -> & Hal)].
  - cbn [negb Z.eqb].
    destruct (init_backlog_ring_cases zero_ring CONN_RING_SZ
                (World (sock_ans w) (tun_rx w) rest (trace w ++ [EvAlloc CONN_RING_SZ])))
      as [(rx_block & rest' & Hal' & ->)|(w2 & -> & Hal')]; cbn [allocs] in Hal'.
    + cbn [negb Z.eqb]. do 3 eexists. split; [reflexivity|].
      cbn [c_peer c_af c_outbound c_rx c_tx]. repeat split.
      left. split; [reflexivity|]. split.
      { exists tx_block, rx_block, rest'. subst rest. repeat split; assumption. }
      repeat split.
    + do 3 eexists. split; [reflexivity|].
      cbn [c_peer c_af c_outbound c_rx c_tx]. repeat split.
      right. right. split; [reflexivity|]. split; [|reflexivity].
      exists tx_block. split; [|reflexivity].
      destruct Hal' as [->|(rest' & ->)]; [left|right; exists rest']; exact Hal.
  - do 3 eexists. split; [reflexivity|].
    cbn [c_peer c_af c_outbound c_rx c_tx]. repeat split.
    right. left. repeat split. exact Hal.
Qed.

Lemma init_conn_sock_outcome_witness :
  exists rc c w',
    init_conn_sock (IoSock 7 conn DZero)
      (ConnSockInfo ([10; 0; 0; 2] ++ repeat 0 12) AF_INET)
      (World [] [] [Some [1; 2]; None] [])
    = Done (rc, IoSock (fd (IoSock 7 conn DZero)) (typ (IoSock 7 conn DZero)) (DConn c), w') /\
    c_peer c = firstn 16 (csi_addr (ConnSockInfo ([10; 0; 0; 2] ++ repeat 0 12) AF_INET)) /\
    c_af c = csi_af (ConnSockInfo ([10; 0; 0; 2] ++ repeat 0 12) AF_INET) /\
    c_outbound c = 0 /\
    ((rc = 0 /\
      (exists tx_block rx_block rest,
         allocs (World [] [] [Some [1; 2]; None] []) = Some tx_block :: Some rx_block :: rest /\
         c_tx c = Ring tx_block CONN_RING_SZ 0 0 false /\
         c_rx c = Ring rx_block CONN_RING_SZ 0 0 false) /\
      ring_empty (c_tx c) = true /\ ring_empty (c_rx c) = true /\
      ring_free (c_tx c) = 131072 /\ ring_free (c_rx c) = 131072) \/
     (rc = -1 /\
      (allocs (World [] [] [Some [1; 2]; None] []) = [] \/
       exists rest, allocs (World [] [] [Some [1; 2]; None] []) = None :: rest) /\
      buff (c_tx c) = [] /\ buff (c_rx c) = []) \/
     (rc = -1 /\
      (exists tx_block,
         (allocs (World [] [] [Some [1; 2]; None] []) = [Some tx_block] \/
          exists rest,
            allocs (World [] [] [Some [1; 2]; None] []) = Some tx_block :: None :: rest) /\
         c_tx c = Ring tx_block CONN_RING_SZ 0 0 false) /\
      buff (c_rx c) = [])).
Proof.
  apply (init_conn_sock_outcome (IoSock 7 conn DZero)
           (ConnSockInfo ([10; 0; 0; 2] ++ repeat 0 12) AF_INET)
           (World [] [] [Some [1; 2]; None] [])).
  - reflexivity.
  - simpl. lia.
Defined.

(** X16.  [init_tun_tx_backlog_ring] on the zeroed socket object either
    gets its three blocks, returns 0 and publishes the tx ring in
    [ctx->tun_tx], or returns -1 with the context untouched and no block
    left attached to the socket: a ring block or scratch block obtained
    before the failing allocation is released again. *)
Theorem init_tun_tx_backlog_ring_outcome (self : Z) (sock : io_sock_t) (ctx : io_ctx_t)
    (w : world) :
  d sock = DZero ->
  exists rc t ctx' w',
    init_tun_tx_backlog_ring self sock ctx w
    = Done (rc, IoSock (fd sock) (typ sock) (DTun t), ctx', w') /\
    ((rc = 0 /\ ctx' = set_tun_tx ctx (Some (self, tun_tx_member)) /\
      exists ring_block w_block r_block rest,
        allocs w = Some ring_block :: Some w_block :: Some r_block :: rest /\
        t = TunData (Ring ring_block TUN_RING_SZ 0 0 false)
              (TunPktBuff r_block INITIAL_TUN_PKT_BUFF_SZ 0 0)
              (TunPktBuff w_block INITIAL_TUN_PKT_BUFF_SZ 0 0)) \/
     (rc = -1 /\ ctx' = ctx /\
      buff (t_tx t) = [] /\ tpb_buff (t_r_buff t) = [] /\ tpb_buff (t_w_buff t) = [] /\
      forall ring_block w_block r_block rest,
        allocs w <> Some ring_block :: Some w_block :: Some r_block :: rest)).
Proof.
  intros Hd. unfold init_tun_tx_backlog_ring. rewrite Hd. cbn [d_tun bind t_tx t_r_buff t_w_buff].
  destruct (init_backlog_ring_cases zero_ring TUN_RING_SZ w)
    as [(ring_block & rest & Hal & ->)|(w1 & -> & Hal)].
  - cbn [negb Z.eqb]. unfold sys_alloc at 1. cbn [allocs].
    destruct rest as [|[w_block|] rest].
    + cbn [emit allocs]. do 4 eexists. split; [reflexivity|].
      right. repeat split. intros ? ? ? ?. rewrite Hal. discriminate.
    + unfold sys_alloc. cbn [allocs].
      destruct rest as [|[r_block|] rest].
      * cbn [emit allocs]. do 4 eexists. split; [reflexivity|].
        right. repeat split. intros ? ? ? ?. rewrite Hal. discriminate.
      * do 4 eexists. split; [reflexivity|].
        left. repeat split. exists ring_block, w_block, r_block, rest. split; [exact Hal|reflexivity].
      * do 4 eexists. split; [reflexivity|].
        right. repeat split. intros ? ? ? ?. rewrite Hal. discriminate.
    + do 4 eexists. split; [reflexivity|].
      right. repeat split. intros ? ? ? ?. rewrite Hal. discriminate.
  - cbn [negb Z.eqb]. do 4 eexists. split; [reflexivity|].
    right. repeat split. intros ? ? ? ?.
    destruct Hal as [->|(rest' & ->)]; discriminate.
Qed.

Lemma init_tun_tx_backlog_ring_outcome_witness :
  exists rc t ctx' w',
    init_tun_tx_backlog_ring 100 (IoSock 5 tun DZero) ipv4_ctx
      (World [] [] [Some [0; 0]; Some [0]; None] [])
    = Done (rc, IoSock (fd (IoSock 5 tun DZero)) (typ (IoSock 5 tun DZero)) (DTun t), ctx', w') /\
    ((rc = 0 /\ ctx' = set_tun_tx ipv4_ctx (Some (100, tun_tx_member)) /\
      exists ring_block w_block r_block rest,
        allocs (World [] [] [Some [0; 0]; Some [0]; None] [])
        = Some ring_block :: Some w_block :: Some r_block :: rest /\
        t = TunData (Ring ring_block TUN_RING_SZ 0 0 false)
              (TunPktBuff r_block INITIAL_TUN_PKT_BUFF_SZ 0 0)
              (TunPktBuff w_block INITIAL_TUN_PKT_BUFF_SZ 0 0)) \/
     (rc = -1 /\ ctx' = ipv4_ctx /\
      buff (t_tx t) = [] /\ tpb_buff (t_r_buff t) = [] /\ tpb_buff (t_w_buff t) = [] /\
      forall ring_block w_block r_block rest,
        allocs (World [] [] [Some [0; 0]; Some [0]; None] [])
        <> Some ring_block :: Some w_block :: Some r_block :: rest)).
Proof.
  apply (init_tun_tx_backlog_ring_outcome 100 (IoSock 5 tun DZero) ipv4_ctx
           (World [] [] [Some [0; 0]; Some [0]; None] [])).
  reflexivity.
Defined.

(** ** Peer reconciliation *)

Lemma memcmp_O (a b : list Z) : memcmp a b 0 = Done 0.
Proof. destruct a; reflexivity. Qed.

Lemma memcmp_S (n : nat) (a b : list Z) :
  memcmp a b (S n)
  = match a, b with
    | x :: a', y :: b' =>
        if x <? y then Done (-1) else if y <? x then Done 1 else memcmp a' b' n
    | _, _ => Abort
    end.
Proof. destruct a; reflexivity. Qed.

Lemma memcmp_antisym (n : nat) :
  forall a b c, memcmp a b n = Done c -> memcmp b a n = Done (- c).
Proof.
  induction n as [|n IH]; intros a b c.
  - rewrite !memcmp_O. intros [= Hc]. subst c. reflexivity.
  - rewrite !memcmp_S.
    destruct a as [|x a], b as [|y b]; try discriminate.
    destruct (Z.ltb_spec x y) as [Hxy|Hxy].
    + intros [= Hc]. subst c. destruct (Z.ltb_spec y x); [lia|]. reflexivity.
    + destruct (Z.ltb_spec y x) as [Hyx|Hyx].
      * intros [= Hc]. subst c. reflexivity.
      * apply IH.
Qed.

Lemma memcmp_zero (n : nat) :
  forall a b, memcmp a b n = Done 0 -> firstn n a = firstn n b.
Proof.
  induction n as [|n IH]; intros a b; [reflexivity|].
  rewrite memcmp_S.
  destruct a as [|x a], b as [|y b]; try discriminate.
  destruct (Z.ltb_spec x y) as [|Hxy]; [discriminate|].
  destruct (Z.ltb_spec y x) as [|Hyx]; [discriminate|].
  intros Hm. simpl. f_equal; [lia|apply IH; exact Hm].
Qed.

Lemma memcmp_total (n : nat) :
  forall a b, (n <= length a)%nat -> (n <= length b)%nat ->
    exists c, memcmp a b n = Done c /\ (c = -1 \/ c = 0 \/ c = 1).
Proof.
  induction n as [|n IH]; intros a b Ha Hb.
  - rewrite memcmp_O. exists 0. auto.
  - rewrite memcmp_S.
    destruct a as [|x a], b as [|y b]; simpl in Ha, Hb; try lia.
    destruct (x <? y); [exists (-1); auto|].
    destruct (y <? x); [exists 1; auto|].
    apply IH; lia.
Qed.

Lemma memcmp_prefix (n : nat) :
  forall a b pad, length b = n -> memcmp a (b ++ pad) n = memcmp a b n.
Proof.
  induction n as [|n IH]; intros a b pad Hb.
  - rewrite !memcmp_O. reflexivity.
  - rewrite !memcmp_S.
    destruct b as [|y b]; [discriminate|].
    change ((y :: b) ++ pad) with (y :: (b ++ pad)).
    destruct a as [|x a]; [reflexivity|].
    destruct (x <? y); [reflexivity|]. destruct (y <? x); [reflexivity|].
    apply IH. simpl in Hb. lia.
Qed.

(** What the body of the scan does with one resolved address. *)
Lemma reset_peers_addr_spec (ctx : io_ctx_t) (s s' : scan_state) (r : addrinfo) :
  reset_peers_addr ctx s r = Done s' ->
  if above_self ctx r then
    match updated_passive_peers s !! peer_key r with
    | Some _ =>
        updated_passive_peers s' = updated_passive_peers s /\ encountered_failure s' = 0 /\
        allocs (scan_world s') = allocs (scan_world s)
    | None =>
        (exists blk,
           allocs (scan_world s) = Some blk :: allocs (scan_world s') /\
           updated_passive_peers s'
           = <[peer_key r := PassivePeer r (peer_key r)]> (updated_passive_peers s) /\
           encountered_failure s' = 0) \/
        ((allocs (scan_world s) = [] \/
          allocs (scan_world s) = None :: allocs (scan_world s')) /\
         allocs (scan_world s') = tl (allocs (scan_world s)) /\
         updated_passive_peers s' = updated_passive_peers s /\ encountered_failure s' = 1)
    end
  else
    updated_passive_peers s' = updated_passive_peers s /\
    encountered_failure s' = encountered_failure s /\
    allocs (scan_world s') = allocs (scan_world s).
Proof.
  unfold reset_peers_addr, above_self, peer_key.
  assert (Hcap : forall k,
             let '(rc, tab, w') :=
               capture_passive_peer (updated_passive_peers s) k r (scan_world s) in
             match updated_passive_peers s !! k with
             | Some _ =>
                 tab = updated_passive_peers s /\ rc = 0 /\
                 allocs w' = allocs (scan_world s)
             | None =>
                 (exists blk,
                    allocs (scan_world s) = Some blk :: allocs w' /\
                    tab = <[k := PassivePeer r k]> (updated_passive_peers s) /\ rc = 0) \/
                 ((allocs (scan_world s) = [] \/ allocs (scan_world s) = None :: allocs w') /\
                  allocs w' = tl (allocs (scan_world s)) /\
                  tab = updated_passive_peers s /\ rc = 1)
             end).
  { intros k. unfold capture_passive_peer, batab_get, batab_put.
    destruct (updated_passive_peers s !! k); [auto|].
    unfold sys_alloc.
    destruct (allocs (scan_world s)) as [|[blk|] rest] eqn:Ea; cbn [emit allocs tl].
    - rewrite Ea. right. split; [left; reflexivity|]. repeat split.
    - left. exists blk. repeat split.
    - right. split; [right; reflexivity|]. repeat split. }
  rewrite !lor_flag_nonzero by discriminate. cbn [negb].
  destruct (ai_family r =? AF_INET).
  - destruct (memcmp _ _ _) as [c| |]; cbn [bind]; try discriminate.
    change (Z.to_nat IPv4_ADDR_LEN) with 4%nat.
    destruct (0 <? c); [|intros [= <-]; auto].
    destruct (memcpy _ _ _) as [k| |] eqn:Ek; cbn [bind]; try discriminate.
    apply memcpy_done in Ek. destruct Ek as (_ & _ & _ & ->).
    change (Z.to_nat IPv4_ADDR_LEN) with 4%nat.
    change (skipn 4 (repeat 0 16)) with (repeat 0 12).
    specialize (Hcap (firstn 4 (ai_addr r) ++ repeat 0 12)).
    destruct (capture_passive_peer _ _ _ _) as [[rc tab] w'].
    intros [= <-]. cbn [updated_passive_peers encountered_failure scan_world]. exact Hcap.
  - destruct (ai_family r =? AF_INET6).
    + destruct (memcmp _ _ _) as [c| |]; cbn [bind]; try discriminate.
      change (Z.to_nat IPv6_ADDR_LEN) with 16%nat.
      destruct (0 <? c); [|intros [= <-]; auto].
      destruct (memcpy _ _ _) as [k| |] eqn:Ek; cbn [bind]; try discriminate.
      apply memcpy_done in Ek. destruct Ek as (_ & _ & _ & ->).
      change (Z.to_nat IPv6_ADDR_LEN) with 16%nat.
      change (skipn 16 (repeat 0 16)) with (@nil Z). rewrite app_nil_r.
      specialize (Hcap (firstn 16 (ai_addr r))).
      destruct (capture_passive_peer _ _ _ _) as [[rc tab] w'].
      intros [= <-]. cbn [updated_passive_peers encountered_failure scan_world]. exact Hcap.
    + intros [= <-]. cbn [updated_passive_peers encountered_failure scan_world emit allocs].
      auto.
Qed.





Lemma memcmp_refl (n : nat) : forall a, (n <= length a)%nat -> memcmp a a n = Done 0.
Proof.
  induction n as [|n IH]; intros a Ha.
  - apply memcmp_O.
  - rewrite memcmp_S. destruct a as [|x a]; simpl in Ha; [lia|].
    rewrite Z.ltb_irrefl. apply IH. lia.
Qed.

(** The scan of one IPv4 address, from the empty table, when the
    allocation succeeds. *)
Lemma reset_peers_updated_one_ipv4 (ctx : io_ctx_t) (a : list Z) (w : world) blk rest c :
  length a = 4%nat -> allocs w = Some blk :: rest ->
  memcmp a (self_v4 ctx) 4 = Done c ->
  exists s,
    reset_peers_updated ctx [AddrInfo AF_INET a] w = Done s /\
    updated_passive_peers s
    = if 0 <? c
      then <[a ++ repeat 0 12 := PassivePeer (AddrInfo AF_INET a) (a ++ repeat 0 12)]> ∅
      else ∅.
Proof.
  intros Ha Hal Hc.
  unfold reset_peers_updated, reset_peers_scan, reset_peers_addr.
  cbn [ai_family ai_addr updated_passive_peers scan_world encountered_failure].
  rewrite Z.eqb_refl. rewrite lor_flag_nonzero by discriminate. cbn [negb].
  change (Z.to_nat IPv4_ADDR_LEN) with 4%nat. rewrite Hc. cbn [bind].
  destruct (0 <? c).
  - rewrite memcpy_ok by (unfold IPv4_ADDR_LEN; simpl length; lia).
    cbn [bind]. change (Z.to_nat IPv4_ADDR_LEN) with 4%nat.
    rewrite <- Ha, firstn_all.
    change (skipn (length a) (repeat 0 16)) with (skipn (length a) (repeat 0 16)).
    rewrite Ha. change (skipn 4 (repeat 0 16)) with (repeat 0 12).
    unfold capture_passive_peer, batab_get, batab_put. rewrite lookup_empty.
    unfold sys_alloc. rewrite Hal. cbn [bind].
    eexists. split; reflexivity.
  - cbn [bind]. eexists. split; reflexivity.
Qed.

(** X18.  The strict comparison decides who connects: of two nodes that
    resolve each other's IPv4 address, exactly one retains the other as
    a passive peer (the one whose own address is the smaller), and a
    node that resolves its own address retains nothing. *)
Theorem reset_peers_one_side_connects (ctxA ctxB : io_ctx_t) (addrA addrB padA padB : list Z)
    (w : world) (blk : list Z) (rest : list (option (list Z))) :
  length addrA = 4%nat -> length addrB = 4%nat ->
  self_v4 ctxA = addrA ++ padA -> self_v4 ctxB = addrB ++ padB ->
  allocs w = Some blk :: rest ->
  exists sA sB,
    reset_peers_updated ctxA [AddrInfo AF_INET addrB] w = Done sA /\
    reset_peers_updated ctxB [AddrInfo AF_INET addrA] w = Done sB /\
    (addrA = addrB ->
     updated_passive_peers sA = ∅ /\ updated_passive_peers sB = ∅) /\
    (addrA <> addrB ->
     (updated_passive_peers sA
      = <[addrB ++ repeat 0 12 := PassivePeer (AddrInfo AF_INET addrB) (addrB ++ repeat 0 12)]> ∅ /\
      updated_passive_peers sB = ∅) \/
     (updated_passive_peers sA = ∅ /\
      updated_passive_peers sB
      = <[addrA ++ repeat 0 12 := PassivePeer (AddrInfo AF_INET addrA) (addrA ++ repeat 0 12)]> ∅)).
Proof.
  intros HA HB HsA HsB Hal.
  destruct (memcmp_total 4 addrB addrA) as (c & Hc & Hrange); try lia.
  pose proof (memcmp_antisym 4 addrB addrA c Hc) as Hc'.
  assert (HcA : memcmp addrB (self_v4 ctxA) 4 = Done c)
    by (rewrite HsA, memcmp_prefix by exact HA; exact Hc).
  assert (HcB : memcmp addrA (self_v4 ctxB) 4 = Done (- c))
    by (rewrite HsB, memcmp_prefix by exact HB; exact Hc').
  destruct (reset_peers_updated_one_ipv4 ctxA addrB w blk rest c HB Hal HcA) as (sA & EA & UA).
  destruct (reset_peers_updated_one_ipv4 ctxB addrA w blk rest (- c) HA Hal HcB)
    as (sB & EB & UB).
  exists sA, sB. split; [exact EA|]. split; [exact EB|].
  rewrite UA, UB.
  assert (Heq : c = 0 -> addrA = addrB).
  { intros ->. apply memcmp_zero in Hc.
    rewrite !firstn_all2 in Hc by lia. congruence. }
  assert (Hne : addrA = addrB -> c = 0).
  { intros <-. rewrite memcmp_refl in Hc by lia. congruence. }
  split.
  - intros E. rewrite (Hne E). split; reflexivity.
  - intros N. destruct Hrange as [-> | [-> | ->]].
    + right. split; reflexivity.
    + exfalso. apply N. apply Heq. reflexivity.
    + left. split; reflexivity.
Qed.

Lemma reset_peers_one_side_connects_witness :
  exists sA sB,
    reset_peers_updated ipv4_ctx [AddrInfo AF_INET [10; 0; 0; 2]] (World [] [] [Some []] [])
    = Done sA /\
    reset_peers_updated (IoCtx ∅ ∅ ([10; 0; 0; 2] ++ repeat 0 12) (repeat 0 16) USING_IPV4 None
                           (IoCtr 0 0 0 0))
      [AddrInfo AF_INET [10; 0; 0; 1]] (World [] [] [Some []] [])
    = Done sB /\
    ([10; 0; 0; 1] = [10; 0; 0; 2] ->
     updated_passive_peers sA = ∅ /\ updated_passive_peers sB = ∅) /\
    ([10; 0; 0; 1] <> [10; 0; 0; 2] ->
     (updated_passive_peers sA
      = <[[10; 0; 0; 2] ++ repeat 0 12
          := PassivePeer (AddrInfo AF_INET [10; 0; 0; 2]) ([10; 0; 0; 2] ++ repeat 0 12)]> ∅ /\
      updated_passive_peers sB = ∅) \/
     (updated_passive_peers sA = ∅ /\
      updated_passive_peers sB
      = <[[10; 0; 0; 1] ++ repeat 0 12
          := PassivePeer (AddrInfo AF_INET [10; 0; 0; 1]) ([10; 0; 0; 1] ++ repeat 0 12)]> ∅)).
Proof.
  apply (reset_peers_one_side_connects ipv4_ctx
           (IoCtx ∅ ∅ ([10; 0; 0; 2] ++ repeat 0 12) (repeat 0 16) USING_IPV4 None
              (IoCtr 0 0 0 0))
           [10; 0; 0; 1] [10; 0; 0; 2] (repeat 0 12) (repeat 0 12)
           (World [] [] [Some []] []) [] []); reflexivity.
Defined.

Lemma reset_peers_addr_progress_ipv4 (ctx : io_ctx_t) (s : scan_state) (r : addrinfo) :
  ai_family r = AF_INET -> (4 <= length (ai_addr r))%nat -> above_self ctx r = true ->
  exists s', reset_peers_addr ctx s r = Done s'.
Proof.
  intros Hf Hlen Hab. unfold above_self in Hab. unfold reset_peers_addr.
  rewrite Hf in *. rewrite Z.eqb_refl in *.
  rewrite lor_flag_nonzero by discriminate. cbn [negb].
  change (Z.to_nat IPv4_ADDR_LEN) with 4%nat.
  destruct (memcmp _ _ _) as [c| |]; try discriminate. cbn [bind]. rewrite Hab.
  rewrite memcpy_ok by (unfold IPv4_ADDR_LEN; simpl length; lia).
  cbn [bind]. destruct (capture_passive_peer _ _ _ _) as [[rc tab] w']. eauto.
Qed.

(** X19.  A failed capture is forgotten by the next one: when the
    allocation for one resolved address fails and the capture of a later
    address succeeds, [encountered_failure] is 0 at the end of the scan
    although the first address is missing from the updated table, so
    [reset_peers] goes on to reconcile against an incomplete table. *)
Theorem reset_peers_scan_forgets_failure (ctx : io_ctx_t) (r1 r2 : addrinfo) (w : world)
    (blk : list Z) (rest : list (option (list Z))) :
  ai_family r1 = AF_INET -> ai_family r2 = AF_INET ->
  (4 <= length (ai_addr r1))%nat -> (4 <= length (ai_addr r2))%nat ->
  above_self ctx r1 = true -> above_self ctx r2 = true ->
  peer_key r1 <> peer_key r2 ->
  allocs w = None :: Some blk :: rest ->
  exists s,
    reset_peers_updated ctx [r1; r2] w = Done s /\
    encountered_failure s = 0 /\
    updated_passive_peers s !! peer_key r1 = None /\
    updated_passive_peers s !! peer_key r2 = Some (PassivePeer r2 (peer_key r2)).
Proof.
  intros Hf1 Hf2 Hl1 Hl2 Ha1 Ha2 Hne Hal.
  unfold reset_peers_updated, reset_peers_scan.
  destruct (reset_peers_addr_progress_ipv4 ctx (ScanState ∅ 0 w) r1 Hf1 Hl1 Ha1) as (s1 & E1).
  rewrite E1. cbn [bind].
  destruct (reset_peers_addr_progress_ipv4 ctx s1 r2 Hf2 Hl2 Ha2) as (s2 & E2).
  rewrite E2. cbn [bind].
  exists s2. split; [reflexivity|].
  apply reset_peers_addr_spec in E1. apply reset_peers_addr_spec in E2.
  rewrite Ha1 in E1. rewrite Ha2 in E2.
  cbn [updated_passive_peers scan_world] in E1. rewrite lookup_empty, Hal in E1.
  destruct E1 as [(b & Hb & _)|(_ & Htl & Hu1 & _)]; [discriminate|].
  cbn [tl] in Htl. rewrite Hu1, lookup_empty, Htl in E2.
  destruct E2 as [(b & Hb & Hu2 & Hf)|([Hno|Hno] & _)]; try discriminate.
  rewrite Hu2. split; [exact Hf|]. split.
  - rewrite lookup_insert_ne by congruence. apply lookup_empty.
  - apply lookup_insert_eq.
Qed.

Lemma reset_peers_scan_forgets_failure_witness :
  exists s,
    reset_peers_updated ipv4_ctx [AddrInfo AF_INET [10; 0; 0; 2]; AddrInfo AF_INET [10; 0; 0; 3]]
      (World [] [] [None; Some []] []) = Done s /\
    encountered_failure s = 0 /\
    updated_passive_peers s !! peer_key (AddrInfo AF_INET [10; 0; 0; 2]) = None /\
    updated_passive_peers s !! peer_key (AddrInfo AF_INET [10; 0; 0; 3])
    = Some (PassivePeer (AddrInfo AF_INET [10; 0; 0; 3]) (peer_key (AddrInfo AF_INET [10; 0; 0; 3]))).
Proof.
  apply (reset_peers_scan_forgets_failure ipv4_ctx (AddrInfo AF_INET [10; 0; 0; 2])
           (AddrInfo AF_INET [10; 0; 0; 3]) (World [] [] [None; Some []] []) [] []).
  - reflexivity.
  - reflexivity.
  - simpl. lia.
  - simpl. lia.
  - reflexivity.
  - reflexivity.
  - discriminate.
  - reflexivity.
Defined.

(** ** From the tun device to the connections *)

(** One run of the loop body of [read_tun_and_xmit] when the key it
    looks up cannot be found. *)
Lemma read_tun_step_no_live_socket fuel tun_ ctx w nw sock t p rest :
  sockets ctx !! tun_ = Some sock -> d sock = DTun t -> unreachable_keys ctx nw ->
  0 < capacity (t_r_buff t) -> (4 <= length nw)%nat ->
  tun_rx w = p :: rest -> readable (capacity (t_r_buff t)) p ->
  exists ctx' w' nw' sock' t',
    read_tun_step fuel tun_ (RState ctx w nw 0) = Next (RState ctx' w' nw' 0) /\
    sockets ctx' !! tun_ = Some sock' /\ d sock' = DTun t' /\
    capacity (t_r_buff t') = capacity (t_r_buff t) /\
    unreachable_keys ctx' nw' /\ (4 <= length nw')%nat /\ tun_rx w' = rest /\
    drop_p (c_world_tx ctx')
    = (if is_ipv4 p then uint64 (drop_p (c_world_tx ctx) + 1) else drop_p (c_world_tx ctx)) /\
    drop_b (c_world_tx ctx')
    = (if is_ipv4 p
       then uint64 (drop_b (c_world_tx ctx) + read_len (capacity (t_r_buff t)) p)
       else drop_b (c_world_tx ctx)).
Proof.
  intros Hsock Hd Hlive Hcap Hnw Hrx (Hne & H20).
  set (cap := capacity (t_r_buff t)) in *.
  set (got := firstn (Z.to_nat cap) p).
  assert (Hgot : (0 < length got)%nat).
  { unfold got. destruct p as [|o p']; [congruence|].
    destruct (Z.to_nat cap) eqn:E; [lia|]. simpl. lia. }
  assert (Hhd : exists tl_, got = nth 0 p 0 :: tl_).
  { unfold got. destruct p as [|o p']; [congruence|].
    destruct (Z.to_nat cap) eqn:E; [lia|]. simpl. eauto. }
  destruct Hhd as (tl_ & Hhd).
  unfold read_tun_step, read_tun_body. cbn [rs_ctx rs_world rs_nw_addr rs_prev_ip_v].
  unfold load_sock. rewrite Hsock. cbn [of_option bind]. rewrite Hd. cbn [d_tun bind].
  unfold sys_read_tun. rewrite Hrx. fold cap. fold got. cbn [rv data errno].
  cbn [len capacity tpb_buff current_pkt_len].
  destruct (Z.ltb_spec (Z.of_nat (length got)) 0) as [|_]; [lia|].
  unfold kernel_store.
  destruct (Z.ltb_spec 0 (Z.of_nat (length got))) as [_|]; [|lia].
  rewrite Nat2Z.id, firstn_all.
  set (bufr := got ++ skipn (length got) (tpb_buff (t_r_buff t))).
  assert (Ho : load_u8 (Some bufr) 0 = Done (nth 0 p 0)).
  { unfold bufr. rewrite Hhd. reflexivity. }
  rewrite Ho. cbn [bind].
  assert (Hprev : (Z.land (nth 0 p 0) 240 <? 0) = false).
  { apply Z.ltb_ge. apply Z.land_nonneg. right. lia. }
  rewrite Hprev.
  set (ctx1 := set_sock_d ctx tun_ sock _).
  assert (Hs1 : sockets ctx1 !! tun_
                = Some (IoSock (fd sock) (typ sock)
                          (DTun (TunData (t_tx t)
                                   (TunPktBuff bufr cap (Z.of_nat (length got))
                                      (current_pkt_len (t_r_buff t))) (t_w_buff t))))).
  { unfold ctx1, set_sock_d, set_sockets. cbn [sockets]. apply lookup_insert_eq. }
  unfold is_ipv4, read_len. fold got.
  destruct (Z.land (nth 0 p 0) 240 =? 64) eqn:Ev.
  - assert (H20' : 20 < Z.of_nat (length got)).
    { unfold is_ipv4, read_len in H20. fold got in H20. apply H20. exact Ev. }
    destruct (Z.ltb_spec 20 (Z.of_nat (length got))) as [_|]; [|lia].
    cbn [assert bind].
    assert (Hsrc : (4 <= length (ptr_add bufr 16))%nat).
    { unfold ptr_add, bufr. rewrite length_skipn, length_app. simpl Z.to_nat. lia. }
    rewrite memcpy_ok by lia.
    cbn [bind].
    set (nw' := firstn (Z.to_nat 4) (ptr_add bufr 16) ++ skipn (Z.to_nat 4) nw).
    assert (Htail : skipn 4 nw' = skipn 4 nw).
    { unfold nw'. change (Z.to_nat 4) with 4%nat. rewrite skipn_app, length_firstn.
      rewrite (skipn_all2 (firstn 4 (ptr_add bufr 16))) by (rewrite length_firstn; lia).
      replace (4 - Init.Nat.min 4 (length (ptr_add bufr 16)))%nat with 0%nat by lia.
      reflexivity. }
    assert (Hl1 : live_sockets ctx1 !! nw' = None) by (apply Hlive; exact Htail).
    rewrite Hl1. cbn [write_to_conn bind].
    do 5 eexists. split; [reflexivity|].
    cbn [count_drop set_c_world_tx sockets live_sockets c_world_tx drop_p drop_b len].
    split; [exact Hs1|]. split; [reflexivity|]. split; [reflexivity|].
    split.
    { intros key Hk. apply Hlive. rewrite Hk. exact Htail. }
    split.
    { unfold nw'. change (Z.to_nat 4) with 4%nat.
      rewrite length_app, length_firstn, length_skipn. lia. }
    split; [reflexivity|]. split; reflexivity.
  - do 5 eexists. split; [reflexivity|].
    split; [exact Hs1|]. split; [reflexivity|]. split; [reflexivity|].
    split; [exact Hlive|]. split; [exact Hnw|].
    split; [reflexivity|]. split; reflexivity.
Qed.

Lemma uint64_add_l (a b : Z) : uint64 (uint64 a + b) = uint64 (a + b).
Proof. unfold uint64. apply Zplus_mod_idemp_l. Qed.

Lemma read_tun_step_queue_empty fuel tun_ ctx w nw sock t :
  sockets ctx !! tun_ = Some sock -> d sock = DTun t -> tun_rx w = [] ->
  exists ctx' w',
    read_tun_step fuel tun_ (RState ctx w nw 0) = Break (RState ctx' w' nw 0) /\
    c_world_tx ctx' = c_world_tx ctx /\ tun_rx w' = [].
Proof.
  intros Hsock Hd Hrx.
  unfold read_tun_step, read_tun_body. cbn [rs_ctx rs_world rs_nw_addr rs_prev_ip_v].
  unfold load_sock. rewrite Hsock. cbn [of_option bind]. rewrite Hd. cbn [d_tun bind].
  unfold sys_read_tun. rewrite Hrx. unfold would_block. cbn [rv data errno len].
  cbn [Z.ltb Z.compare]. rewrite Z.eqb_refl. cbn [negb andb].
  do 2 eexists. split; [reflexivity|]. split; [reflexivity|exact Hrx].
Qed.

Lemma uint64_idem (a : Z) : uint64 (uint64 a) = uint64 a.
Proof. unfold uint64. apply Zmod_mod. Qed.

Lemma read_tun_loop_no_live_socket fuel' tun_ (cap : Z) :
  0 < cap ->
  forall pkts fuel ctx w nw sock t,
    sockets ctx !! tun_ = Some sock -> d sock = DTun t -> capacity (t_r_buff t) = cap ->
    unreachable_keys ctx nw -> (4 <= length nw)%nat ->
    tun_rx w = pkts -> Forall (readable cap) pkts -> (length pkts < fuel)%nat ->
    uint64 (drop_p (c_world_tx ctx)) = drop_p (c_world_tx ctx) ->
    uint64 (drop_b (c_world_tx ctx)) = drop_b (c_world_tx ctx) ->
    exists s,
      do_while fuel (read_tun_step fuel' tun_) (fun _ => true) (RState ctx w nw 0)
      = (Returned, s) /\
      tun_rx (rs_world s) = [] /\
      drop_p (c_world_tx (rs_ctx s)) = uint64 (drop_p (c_world_tx ctx) + ipv4_count pkts) /\
      drop_b (c_world_tx (rs_ctx s))
      = uint64 (drop_b (c_world_tx ctx) + ipv4_read_total cap pkts).
Proof.
  intros Hcap pkts.
  induction pkts as [|p pkts IH];
    intros fuel ctx w nw sock t Hsock Hd Hc Hlive Hnw Hrx Hall Hfuel Hrp Hrb;
    (destruct fuel as [|fuel]; [simpl in Hfuel; lia|]); rewrite do_while_unfold.
  - destruct (read_tun_step_queue_empty fuel' tun_ ctx w nw sock t Hsock Hd Hrx)
      as (ctx' & w' & -> & Hctr & Hw').
    eexists. split; [reflexivity|]. cbn [rs_world rs_ctx]. split; [exact Hw'|].
    rewrite Hctr. unfold ipv4_count, ipv4_read_total. cbn [List.filter length fold_right].
    rewrite !Z.add_0_r. split; symmetry; assumption.
  - inversion Hall as [|? ? Hp Hall']; subst.
    destruct (read_tun_step_no_live_socket fuel' tun_ ctx w nw sock t p pkts Hsock Hd Hlive)
      as (ctx1 & w1 & nw1 & sock1 & t1 & -> & Hs1 & Hd1 & Hc1 & Hl1 & Hn1 & Hr1 & Hdp & Hdb);
      try assumption.
    destruct (IH fuel ctx1 w1 nw1 sock1 t1 Hs1 Hd1 Hc1 Hl1 Hn1 Hr1 Hall')
      as (s & E & Hrx' & Hp' & Hb').
    { simpl in Hfuel. lia. }
    { rewrite Hdp. destruct (is_ipv4 p); [apply uint64_idem|exact Hrp]. }
    { rewrite Hdb. destruct (is_ipv4 p); [apply uint64_idem|exact Hrb]. }
    exists s. split; [exact E|]. split; [exact Hrx'|].
    rewrite Hp', Hb', Hdp, Hdb.
    unfold ipv4_count, ipv4_read_total. cbn [List.filter fold_right].
    destruct (is_ipv4 p); cbn [length].
    + rewrite !uint64_add_l. split; f_equal; lia.
    + split; f_equal; lia.
Qed.

(** X20.  With no live connection, a read buffer of positive capacity
    and drop counters within 64 bits, and provided every packet queued
    at the tun device is non-empty and every IPv4 packet among them is
    read with more than 20 bytes (a shorter one fails the assertion of
    io.c:1153 and aborts the call), [read_tun_and_xmit] empties the
    queue of the tun device and returns, and every IPv4 packet it read
    is counted as dropped: [drop_p] grows by the number of IPv4 packets
    and [drop_b] by the number of bytes read of them (at most the
    capacity of the read buffer each), modulo 2^64; packets of other
    versions are not counted. *)
Theorem read_tun_and_xmit_drops_without_live_socket (fuel : nat) (tun_ : Z) (ctx : io_ctx_t)
    (nw_addr0 : list Z) (w : world) (sock : io_sock_t) (t : tun_data) :
  sockets ctx !! tun_ = Some sock -> d sock = DTun t -> live_sockets ctx = ∅ ->
  0 < capacity (t_r_buff t) -> (4 <= length nw_addr0)%nat ->
  Forall (readable (capacity (t_r_buff t))) (tun_rx w) -> (length (tun_rx w) < fuel)%nat ->
  uint64 (drop_p (c_world_tx ctx)) = drop_p (c_world_tx ctx) ->
  uint64 (drop_b (c_world_tx ctx)) = drop_b (c_world_tx ctx) ->
  exists s,
    read_tun_and_xmit fuel tun_ ctx nw_addr0 w = (Returned, s) /\
    tun_rx (rs_world s) = [] /\
    drop_p (c_world_tx (rs_ctx s)) = uint64 (drop_p (c_world_tx ctx) + ipv4_count (tun_rx w)) /\
    drop_b (c_world_tx (rs_ctx s))
    = uint64 (drop_b (c_world_tx ctx) + ipv4_read_total (capacity (t_r_buff t)) (tun_rx w)).
Proof.
  intros Hsock Hd Hlive Hcap Hnw Hall Hfuel Hrp Hrb. unfold read_tun_and_xmit.
  apply (read_tun_loop_no_live_socket fuel tun_ (capacity (t_r_buff t)) Hcap (tun_rx w) fuel
           ctx w nw_addr0 sock t); auto.
  intros key _. rewrite Hlive. apply lookup_empty.
Qed.

Lemma read_tun_and_xmit_drops_without_live_socket_witness :
  exists s,
    read_tun_and_xmit 3 100
      (IoCtx (<[100 := IoSock 5 tun (DTun (TunData zero_ring (TunPktBuff (repeat 0 32) 24 0 0)
                                            zero_pkt_buff))]> ∅)
         ∅ (repeat 0 16) (repeat 0 16) USING_IPV4 None (IoCtr 0 0 0 0))
      (repeat 0 16) (World [] [ipv4_pkt ++ [5; 6]; [96; 0; 0; 0]] [] [])
    = (Returned, s) /\
    tun_rx (rs_world s) = [] /\
    drop_p (c_world_tx (rs_ctx s))
    = uint64 (drop_p (c_world_tx
                        (IoCtx (<[100 := IoSock 5 tun
                                           (DTun (TunData zero_ring
                                                    (TunPktBuff (repeat 0 32) 24 0 0)
                                                    zero_pkt_buff))]> ∅)
                           ∅ (repeat 0 16) (repeat 0 16) USING_IPV4 None (IoCtr 0 0 0 0)))
              + ipv4_count (tun_rx (World [] [ipv4_pkt ++ [5; 6]; [96; 0; 0; 0]] [] []))) /\
    drop_b (c_world_tx (rs_ctx s))
    = uint64 (drop_b (c_world_tx
                        (IoCtx (<[100 := IoSock 5 tun
                                           (DTun (TunData zero_ring
                                                    (TunPktBuff (repeat 0 32) 24 0 0)
                                                    zero_pkt_buff))]> ∅)
                           ∅ (repeat 0 16) (repeat 0 16) USING_IPV4 None (IoCtr 0 0 0 0)))
              + ipv4_read_total
                  (capacity (t_r_buff (TunData zero_ring (TunPktBuff (repeat 0 32) 24 0 0)
                                         zero_pkt_buff)))
                  (tun_rx (World [] [ipv4_pkt ++ [5; 6]; [96; 0; 0; 0]] [] []))).
Proof.
  apply (read_tun_and_xmit_drops_without_live_socket 3 100
           (IoCtx (<[100 := IoSock 5 tun (DTun (TunData zero_ring
                                                  (TunPktBuff (repeat 0 32) 24 0 0)
                                                  zero_pkt_buff))]> ∅)
              ∅ (repeat 0 16) (repeat 0 16) USING_IPV4 None (IoCtr 0 0 0 0))
           (repeat 0 16) (World [] [ipv4_pkt ++ [5; 6]; [96; 0; 0; 0]] [] [])
           (IoSock 5 tun (DTun (TunData zero_ring (TunPktBuff (repeat 0 32) 24 0 0)
                                  zero_pkt_buff)))
           (TunData zero_ring (TunPktBuff (repeat 0 32) 24 0 0) zero_pkt_buff)).
  - reflexivity.
  - reflexivity.
  - reflexivity.
  - simpl. lia.
  - simpl. lia.
  - repeat constructor; try discriminate; unfold read_len; simpl; try lia; discriminate.
  - simpl. lia.
  - reflexivity.
  - reflexivity.
Defined.

(** X27.  The key [read_tun_and_xmit] looks an IPv4 destination up
    under is the four destination bytes followed by bytes 4 to 15 of its
    local [nw_addr] as they were on entry: the local is not initialised
    and the [memset] of io.c:1148 never runs, its guard comparing an
    unsigned version with the previous one, which stays 0.  So when no
    live socket is filed under a key ending in those twelve bytes,
    whatever connections are live, and provided that the read buffer
    has positive capacity, the drop counters are within 64
    bits, every queued packet is non-empty and every IPv4 packet among
    them is read with more than 20 bytes (a shorter one fails the
    assertion of io.c:1153 and aborts the call), the call empties the
    queue of the tun device, returns, and counts every IPv4 packet as
    dropped. *)
Theorem read_tun_and_xmit_key_keeps_stale_bytes (fuel : nat) (tun_ : Z) (ctx : io_ctx_t)
    (nw_addr0 : list Z) (w : world) (sock : io_sock_t) (t : tun_data) :
  sockets ctx !! tun_ = Some sock -> d sock = DTun t -> unreachable_keys ctx nw_addr0 ->
  0 < capacity (t_r_buff t) -> (4 <= length nw_addr0)%nat ->
  Forall (readable (capacity (t_r_buff t))) (tun_rx w) -> (length (tun_rx w) < fuel)%nat ->
  uint64 (drop_p (c_world_tx ctx)) = drop_p (c_world_tx ctx) ->
  uint64 (drop_b (c_world_tx ctx)) = drop_b (c_world_tx ctx) ->
  exists s,
    read_tun_and_xmit fuel tun_ ctx nw_addr0 w = (Returned, s) /\
    tun_rx (rs_world s) = [] /\
    drop_p (c_world_tx (rs_ctx s)) = uint64 (drop_p (c_world_tx ctx) + ipv4_count (tun_rx w)) /\
    drop_b (c_world_tx (rs_ctx s))
    = uint64 (drop_b (c_world_tx ctx) + ipv4_read_total (capacity (t_r_buff t)) (tun_rx w)).
Proof.
  intros Hsock Hd Hlive Hcap Hnw Hall Hfuel Hrp Hrb. unfold read_tun_and_xmit.
  apply (read_tun_loop_no_live_socket fuel tun_ (capacity (t_r_buff t)) Hcap (tun_rx w) fuel
           ctx w nw_addr0 sock t); auto.
Qed.

Lemma read_tun_and_xmit_key_keeps_stale_bytes_witness :
  exists s,
    read_tun_and_xmit 3 100
      (IoCtx (<[100 := IoSock 5 tun (DTun (TunData zero_ring (TunPktBuff (repeat 0 32) 24 0 0)
                                            zero_pkt_buff))]> ∅)
         (<[[10; 0; 0; 2] ++ repeat 0 12 := 7]> ∅)
         (repeat 0 16) (repeat 0 16) USING_IPV4 None (IoCtr 0 0 0 0))
      (repeat 255 16) (World [] [ipv4_pkt; [96; 0; 0; 0]] [] [])
    = (Returned, s) /\
    tun_rx (rs_world s) = [] /\
    drop_p (c_world_tx (rs_ctx s))
    = uint64 (drop_p (c_world_tx
                        (IoCtx (<[100 := IoSock 5 tun (DTun (TunData zero_ring (TunPktBuff (repeat 0 32) 24 0 0)
                                            zero_pkt_buff))]> ∅)
         (<[[10; 0; 0; 2] ++ repeat 0 12 := 7]> ∅)
         (repeat 0 16) (repeat 0 16) USING_IPV4 None (IoCtr 0 0 0 0)))
              + ipv4_count (tun_rx (World [] [ipv4_pkt; [96; 0; 0; 0]] [] []))) /\
    drop_b (c_world_tx (rs_ctx s))
    = uint64 (drop_b (c_world_tx
                        (IoCtx (<[100 := IoSock 5 tun (DTun (TunData zero_ring (TunPktBuff (repeat 0 32) 24 0 0)
                                            zero_pkt_buff))]> ∅)
         (<[[10; 0; 0; 2] ++ repeat 0 12 := 7]> ∅)
         (repeat 0 16) (repeat 0 16) USING_IPV4 None (IoCtr 0 0 0 0)))
              + ipv4_read_total
                  (capacity (t_r_buff (TunData zero_ring (TunPktBuff (repeat 0 32) 24 0 0)
                                         zero_pkt_buff)))
                  (tun_rx (World [] [ipv4_pkt; [96; 0; 0; 0]] [] []))).
Proof.
  apply (read_tun_and_xmit_key_keeps_stale_bytes 3 100
           (IoCtx (<[100 := IoSock 5 tun (DTun (TunData zero_ring (TunPktBuff (repeat 0 32) 24 0 0)
                                            zero_pkt_buff))]> ∅)
         (<[[10; 0; 0; 2] ++ repeat 0 12 := 7]> ∅)
         (repeat 0 16) (repeat 0 16) USING_IPV4 None (IoCtr 0 0 0 0))
           (repeat 255 16) (World [] [ipv4_pkt; [96; 0; 0; 0]] [] [])
           (IoSock 5 tun (DTun (TunData zero_ring (TunPktBuff (repeat 0 32) 24 0 0)
                                  zero_pkt_buff)))
           (TunData zero_ring (TunPktBuff (repeat 0 32) 24 0 0) zero_pkt_buff)).
  - reflexivity.
  - reflexivity.
  - intros key Hk. cbn [live_sockets].
    rewrite lookup_insert_ne; [apply lookup_empty|].
    intros <-. discriminate Hk.
  - simpl. lia.
  - simpl. lia.
  - repeat constructor; try discriminate; unfold read_len; simpl; try lia; discriminate.
  - simpl. lia.
  - reflexivity.
  - reflexivity.
Defined.

(** X28.  An IPv4 packet of which [read] delivers 20 bytes or fewer (a
    packet of at most 20 bytes, or a read buffer of at most 20) stops
    [read_tun_and_xmit] at the assertion of io.c:1153: with such a
    packet at the head of the queue of the tun device the call aborts,
    whatever sockets are live, and the drop counters are as they
    were. *)
Theorem read_tun_and_xmit_aborts_on_short_ipv4_packet (fuel : nat) (tun_ : Z) (ctx : io_ctx_t)
    (nw_addr0 : list Z) (w : world) (sock : io_sock_t) (t : tun_data)
    (p : list Z) (rest : list (list Z)) :
  sockets ctx !! tun_ = Some sock -> d sock = DTun t -> 0 < capacity (t_r_buff t) ->
  tun_rx w = p :: rest -> is_ipv4 p = true -> read_len (capacity (t_r_buff t)) p <= 20 ->
  exists s,
    read_tun_and_xmit (S fuel) tun_ ctx nw_addr0 w = (Aborted, s) /\
    c_world_tx (rs_ctx s) = c_world_tx ctx.
Proof.
  intros Hsock Hd Hcap Hrx Hv Hshort.
  exists (RState ctx w nw_addr0 0). split; [|reflexivity].
  set (cap := capacity (t_r_buff t)) in *.
  set (got := firstn (Z.to_nat cap) p).
  assert (Hne : p <> []) by (intros ->; discriminate Hv).
  assert (Hhd : exists tl_, got = nth 0 p 0 :: tl_).
  { unfold got. destruct p as [|o p']; [congruence|].
    destruct (Z.to_nat cap) eqn:E; [lia|]. simpl. eauto. }
  destruct Hhd as (tl_ & Hhd).
  assert (Hgot : (0 < length got)%nat) by (rewrite Hhd; simpl; lia).
  unfold read_tun_and_xmit. rewrite do_while_unfold.
  unfold read_tun_step, read_tun_body. cbn [rs_ctx rs_world rs_nw_addr rs_prev_ip_v].
  unfold load_sock. rewrite Hsock. cbn [of_option bind]. rewrite Hd. cbn [d_tun bind].
  unfold sys_read_tun. rewrite Hrx. fold cap. fold got. cbn [rv data errno].
  cbn [len capacity tpb_buff current_pkt_len].
  destruct (Z.ltb_spec (Z.of_nat (length got)) 0) as [|_]; [lia|].
  unfold kernel_store.
  destruct (Z.ltb_spec 0 (Z.of_nat (length got))) as [_|]; [|lia].
  rewrite Nat2Z.id, firstn_all.
  set (bufr := got ++ skipn (length got) (tpb_buff (t_r_buff t))).
  assert (Ho : load_u8 (Some bufr) 0 = Done (nth 0 p 0)).
  { unfold bufr. rewrite Hhd. reflexivity. }
  rewrite Ho. cbn [bind].
  assert (Hprev : (Z.land (nth 0 p 0) 240 <? 0) = false).
  { apply Z.ltb_ge. apply Z.land_nonneg. right. lia. }
  rewrite Hprev.
  unfold is_ipv4 in Hv. rewrite Hv.
  unfold read_len in Hshort. fold got in Hshort.
  destruct (Z.ltb_spec 20 (Z.of_nat (length got))) as [|_]; [lia|].
  reflexivity.
Qed.

Lemma read_tun_and_xmit_aborts_on_short_ipv4_packet_witness :
  exists s,
    read_tun_and_xmit 1 100
      (IoCtx (<[100 := IoSock 5 tun (DTun (TunData zero_ring (TunPktBuff (repeat 0 32) 24 0 0)
                                            zero_pkt_buff))]> ∅)
         (<[[10; 0; 0; 2] ++ repeat 0 12 := 7]> ∅)
         (repeat 0 16) (repeat 0 16) USING_IPV4 None (IoCtr 0 0 0 0))
      (repeat 0 16) (World [] [firstn 20 ipv4_pkt; ipv4_pkt] [] [])
    = (Aborted, s) /\
    c_world_tx (rs_ctx s)
    = c_world_tx
        (IoCtx (<[100 := IoSock 5 tun (DTun (TunData zero_ring (TunPktBuff (repeat 0 32) 24 0 0)
                                            zero_pkt_buff))]> ∅)
         (<[[10; 0; 0; 2] ++ repeat 0 12 := 7]> ∅)
         (repeat 0 16) (repeat 0 16) USING_IPV4 None (IoCtr 0 0 0 0)).
Proof.
  apply (read_tun_and_xmit_aborts_on_short_ipv4_packet 0 100 _ (repeat 0 16) _
           (IoSock 5 tun (DTun (TunData zero_ring (TunPktBuff (repeat 0 32) 24 0 0)
                                  zero_pkt_buff)))
           (TunData zero_ring (TunPktBuff (repeat 0 32) 24 0 0) zero_pkt_buff)
           (firstn 20 ipv4_pkt) [ipv4_pkt]).
  - reflexivity.
  - reflexivity.
  - simpl. lia.
  - reflexivity.
  - reflexivity.
  - unfold read_len. simpl. lia.
Defined.

(** ** What a connection is sent *)

Lemma sys_call_trace (e : event) (w : world) :
  trace (snd (sys_call e w)) = trace w ++ [e] /\
  tun_rx (snd (sys_call e w)) = tun_rx w /\ allocs (snd (sys_call e w)) = allocs w /\
  sock_ans (snd (sys_call e w)) = tl (sock_ans w).
Proof.
  unfold sys_call. destruct (sock_ans w) as [|a rest] eqn:E; cbn [snd emit trace tun_rx allocs sock_ans tl].
  - rewrite E. auto.
  - auto.
Qed.

Lemma send_bl_batch_world {C : Type} fd_ b n t (c : C) additional w :
  exists ret,
    send_bl_batch fd_ b n t c additional w
    = Done (HRes ret b t c (snd (sys_call (EvSend fd_ (firstn (Z.to_nat n) b)) w))).
Proof.
  unfold send_bl_batch.
  destruct (sys_call _ w) as [a w'].
  destruct (rv a <? 0); [|eauto].
  destruct ((errno a =? EAGAIN) || (errno a =? EWOULDBLOCK)); [eauto|].
  destruct ((errno a =? ECONNRESET) || (errno a =? ENOTCONN) || (errno a =? EPIPE)); eauto.
Qed.

(** [write_passthru_to_conn] offered a first span of positive length:
    one [send] of that span, and 0 reported whatever [send] took. *)
Lemma write_passthru_to_conn_first_span b1 n1 (b2 : ptr) n2 pkt w :
  0 < n1 ->
  write_passthru_to_conn (Some b1) n1 b2 n2 pkt w
  = Done (0, pkt, snd (sys_call (EvSend (dest_fd pkt) (firstn (Z.to_nat n1) b1)) w)).
Proof.
  intros Hn. unfold write_passthru_to_conn.
  destruct (Z.ltb_spec 0 n1) as [_|]; [|lia].
  destruct (send_bl_batch_world (C := unit) (dest_fd pkt) b1 n1 0 tt 0 w) as (ret & E).
  cbn [deref]. rewrite E. cbn [bind h_tracker h_world].
  destruct (Z.eqb_spec 0 n1) as [|_]; [lia|]. cbn [andb bind]. reflexivity.
Qed.

(** X21.  Every enqueue sends the whole tx ring again: when the packet
    fits behind [end] of a tx ring that is not wrapped, [write_to_conn]
    appends it and then issues one [send] that carries every byte the
    ring holds, the bytes queued by earlier calls included; whatever
    [send] takes, all the bytes stay in the ring. *)
Theorem write_to_conn_resends_queued_bytes (fuel : nat) (ctx : io_ctx_t) (c : Z)
    (sock : io_sock_t) (cd : conn_data) (pkt : tun_pkt_buff_t) (w : world) :
  sockets ctx !! c = Some sock -> d sock = DConn cd ->
  ring_wf (c_tx cd) -> wraped (c_tx cd) = false -> pkt_wf pkt ->
  0 < len pkt -> len pkt <= sz (c_tx cd) - end_ (c_tx cd) ->
  exists ctx' w' r',
    write_to_conn (S fuel) ctx (Some c) pkt w = Done (ctx', w') /\
    load_ring ctx' (c, conn_tx) = Done r' /\
    ring_bytes r' = ring_bytes (c_tx cd) ++ firstn (Z.to_nat (len pkt)) (tpb_buff pkt) /\
    trace w' = trace w ++ [EvSend (fd sock) (ring_bytes r')] /\
    c_world_tx ctx' = c_world_tx ctx.
Proof.
  intros Hs Hd Hwf Hwr Hpkt Hpos Hroom.
  destruct (load_ring_conn_tx ctx c sock cd Hs Hd) as (Els & Elr).
  destruct (c_tx cd) as [b z st en wr] eqn:Htx. cbn [wraped sz end_] in *. subst wr.
  pose proof Hwf as (Hinv & Hlen). pose proof Hpkt as Hp.
  unfold ring_inv, ring_occupied, pkt_wf in Hinv, Hlen, Hp. proj_simpl.
  destruct Hinv as (Hst & Hen & _ & Hse & _). specialize (Hse eq_refl).
  set (x := firstn (Z.to_nat (len pkt)) (tpb_buff pkt)).
  assert (HX : length x = Z.to_nat (len pkt)) by (apply firstn_len_Z; lia).
  destruct (ring_bytes_append b z st en false x Hwf) as (Hwf' & Hbytes).
  { unfold contiguous_room. proj_simpl. lia. }
  rewrite HX, Z2Nat.id in Hwf', Hbytes by lia.
  set (r' := Ring (splice b (Z.to_nat en) x) z st (en + len pkt) false) in *.
  set (e := EvSend (fd sock) (ring_bytes r')).
  assert (Hfill : fill_ring (S fuel) (-1) (Ring b z st en false) read_from_tun_buff passthru
                    (ConnBoundPkt pkt (fd sock) 0) w
                  = (Returned,
                     FState r' (ConnBoundPkt pkt (fd sock) (len pkt)) (snd (sys_call e w))
                       CONN_IO_OK_EXHAUSTED false)).
  { unfold fill_ring. rewrite do_while_unfold. unfold fill_body. proj_simpl.
    destruct (Z.eqb_spec z en) as [|_]; [lia|].
    unfold fill_call, read_from_tun_buff. proj_simpl.
    rewrite Z.sub_0_r. cbn [Z.eqb andb].
    destruct (Z.ltb_spec (z - en) (len pkt)) as [|_]; [lia|].
    destruct (Z.ltb_spec (len pkt + st) (len pkt)) as [|_]; [lia|].
    unfold ptr_add at 2. simpl (Z.to_nat 0). rewrite skipn_0.
    rewrite memcpy_ok by (try lia; unfold ptr_add; rewrite length_skipn; lia).
    cbn [bind]. unfold add_through, ptr_to. cbn [displacement pointee Z.eqb bind].
    cbn [already_written pkt_buff dest_fd]. rewrite Z.add_0_l, Z.eqb_refl.
    cbn [h_buff h_tracker h_ctx h_world h_ret].
    unfold ptr_add at 1. rewrite store_memcpy_splice by lia. fold x.
    unfold set_end, set_buff. proj_simpl.
    unfold fill_push. proj_simpl.
    rewrite write_passthru_to_conn_first_span by lia.
    cbn [dest_fd Z.ltb Z.compare].
    assert (He : EvSend (fd sock)
                   (firstn (Z.to_nat (en + len pkt - st))
                      (ptr_add (splice b (Z.to_nat en) x) st)) = e).
    { unfold e, ring_bytes, r'. proj_simpl. reflexivity. }
    rewrite He.
    change (CONN_IO_OK =? CONN_IO_OK_EXHAUSTED) with false. reflexivity. }
  destruct (store_ring_conn_tx ctx c sock cd r' Hs Hd) as (ctx1 & Est & Hctr & Hld).
  exists ctx1, (snd (sys_call e w)), r'.
  split.
  - unfold write_to_conn. rewrite Els, Elr. cbn [bind]. rewrite Hfill. cbn [f_ring f_ret f_world].
    rewrite Est. cbn [bind]. reflexivity.
  - split; [exact Hld|]. split; [exact Hbytes|]. split; [apply sys_call_trace|exact Hctr].
Qed.

Lemma write_to_conn_resends_queued_bytes_witness :
  exists ctx' w' r',
    write_to_conn 1 example_ctx (Some 7) (TunPktBuff [69; 0; 0; 5; 9] 4096 2 0)
      (World [SysAns 5 0 []] [] [] []) = Done (ctx', w') /\
    load_ring ctx' (7, conn_tx) = Done r' /\
    ring_bytes r'
    = ring_bytes (c_tx example_conn)
      ++ firstn (Z.to_nat (len (TunPktBuff [69; 0; 0; 5; 9] 4096 2 0)))
           (tpb_buff (TunPktBuff [69; 0; 0; 5; 9] 4096 2 0)) /\
    trace w'
    = trace (World [SysAns 5 0 []] [] [] [])
      ++ [EvSend (fd (IoSock 7 conn (DConn example_conn))) (ring_bytes r')] /\
    c_world_tx ctx' = c_world_tx example_ctx.
Proof.
  apply (write_to_conn_resends_queued_bytes 0 example_ctx 7 (IoSock 7 conn (DConn example_conn))
           example_conn (TunPktBuff [69; 0; 0; 5; 9] 4096 2 0) (World [SysAns 5 0 []] [] [] [])).
  - reflexivity.
  - reflexivity.
  - unfold ring_wf, ring_inv, ring_occupied; simpl. intuition (try discriminate; lia).
  - reflexivity.
  - unfold pkt_wf; simpl. lia.
  - simpl. lia.
  - simpl. lia.
Defined.

(** ** Edge cases of the framer on the way to the tun device *)

(** X22.  With an empty first span, [parse_l3_packet_len] takes the
    length from the first two bytes of the second span (version/IHL and
    type of service of an IPv4 header), not from bytes 2 and 3 of the
    stream: for a header that starts 45 00 it returns 17664. *)
Theorem parse_l3_packet_len_empty_first_span (host_le : bool) (b1 : list Z) (x y : Z)
    (rest : list Z) (len2 : Z) :
  is_byte x -> is_byte y -> 4 <= len2 ->
  parse_l3_packet_len host_le (Some b1) 0 (Some (x :: y :: rest)) len2 = Done (256 * x + y).
Proof.
  intros Bx By Hlen. unfold parse_l3_packet_len.
  cbn [Z.leb Z.eqb Z.compare andb].
  destruct (Z.leb_spec 4 (0 + len2)) as [_|]; [|lia].
  apply (ntohs_load_u16 host_le (Some (x :: y :: rest)) 0 x y); try reflexivity; assumption.
Qed.

Lemma parse_l3_packet_len_empty_first_span_witness :
  parse_l3_packet_len true (Some [1; 2]) 0 (Some (69 :: 0 :: [0; 20])) 4 = Done (256 * 69 + 0).
Proof.
  apply (parse_l3_packet_len_empty_first_span true [1; 2] 69 0 [0; 20] 4);
    unfold is_byte; lia.
Defined.

(** X23.  An IPv4 packet whose first span holds at least its four
    header bytes and whose last byte is the last byte offered in the
    non-empty second span makes [push_to_tun] abort:
    [push_to_tun_ipv4] asserts that the second span holds more than the
    rest of the packet (io.c:942), so nothing is written and nothing is
    queued.  The case of fewer than four bytes in the first span is
    not covered. *)
Theorem push_to_tun_aborts_on_packet_ending_the_second_span (host_le : bool) (fuel : nat)
    (p1 p2 j1 j2 : list Z) (tun_tx : tun_tx_t) (w : world) :
  l3_packet (p1 ++ p2) -> (4 <= length p1)%nat -> p2 <> [] -> ip_version p1 = 4 ->
  push_to_tun host_le (S fuel) (Some (p1 ++ j1)) (Z.of_nat (length p1))
    (Some (p2 ++ j2)) (Z.of_nat (length p2)) tun_tx w
  = Abort.
Proof.
  intros Hp H4 Hne Hv.
  destruct (l3_packet_header _ Hp) as (a0 & a1 & a2 & a3 & tl & Hsplit & B2 & B3 & Hl).
  destruct p1 as [|b0 [|b1 [|b2 [|b3 tl1]]]]; simpl in H4; try lia.
  simpl in Hsplit. injection Hsplit as -> -> -> -> Htl.
  set (p1 := a0 :: a1 :: a2 :: a3 :: tl1) in *.
  assert (Hp2 : (0 < length p2)%nat) by (destruct p2; [congruence|simpl; lia]).
  rewrite length_app, Nat2Z.inj_add in Hl.
  assert (Hl1 : 4 <= Z.of_nat (length p1)) by (unfold p1; simpl length; lia).
  unfold push_to_tun.
  destruct (Z.ltb_spec 0 (Z.of_nat (length p1) + Z.of_nat (length p2))) as [_|]; [|lia].
  cbn [assert bind].
  destruct (Z.ltb_spec 0 (Z.of_nat (length p1))) as [_|]; [|lia].
  change (load_u8 (Some (p1 ++ j1)) 0) with (Done (A := Z) a0). cbn [bind].
  unfold ip_version in Hv. change (nth 0 p1 0) with a0 in Hv. rewrite Hv. cbn [Z.eqb Pos.eqb].
  unfold push_to_tun_ipv4.
  destruct (Z.ltb_spec 0 (Z.of_nat (length p1))) as [_|]; [|lia].
  cbn [assert bind].
  rewrite do_while_unfold. unfold push_to_tun_ipv4_step, push_to_tun_ipv4_body.
  cbn [ps_b1 ps_len1 ps_b2 ps_len2 ps_overall_pushed ps_full ps_tun_tx ps_world].
  unfold p1 at 1. simpl app at 1.
  rewrite parse_l3_packet_len_first_span by assumption.
  cbn [bind]. rewrite Hl.
  destruct (Z.eqb_spec (Z.of_nat (length p1) + Z.of_nat (length p2)) 0) as [|_]; [lia|].
  rewrite Z.ltb_irrefl. cbn [orb].
  destruct (Z.leb_spec (Z.of_nat (length p1) + Z.of_nat (length p2)) (Z.of_nat (length p1)))
    as [|_]; [lia|].
  replace (Z.of_nat (length p2) - (Z.of_nat (length p1) + Z.of_nat (length p2) - Z.of_nat (length p1)))
    with 0 by lia.
  reflexivity.
Qed.

Lemma push_to_tun_aborts_on_packet_ending_the_second_span_witness :
  push_to_tun true 1 (Some ([69; 0; 0; 6] ++ [])) (Z.of_nat (length [69; 0; 0; 6]))
    (Some ([1; 2] ++ [7])) (Z.of_nat (length [1; 2]))
    (TunTx (Ring [0; 0; 0; 0] 4 0 0 false) 5) (World [SysAns 6 0 []] [] [] [])
  = Abort.
Proof.
  apply (push_to_tun_aborts_on_packet_ending_the_second_span true 0 [69; 0; 0; 6] [1; 2] [] [7]
           (TunTx (Ring [0; 0; 0; 0] 4 0 0 false) 5) (World [SysAns 6 0 []] [] [] [])).
  - repeat constructor; unfold is_byte; simpl; lia.
  - simpl. lia.
  - discriminate.
  - reflexivity.
Defined.

(** X24.  A packet handed over in one span ([b2] is [NULL], [len2] is
    0) is not lost when the tun device would block: with an empty
    backlog that has room for it behind [end],
    [push_pkt_to_tun_or_ring] tries one [writev] and, on [EAGAIN]
    (also what an environment with no answer left gives), queues the
    packet whole; it returns the length of the packet, and the backlog
    then holds exactly the bytes of the packet.  A packet handed over
    in two spans is not covered: there the second span overwrites the
    first in the backlog. *)
Theorem push_pkt_to_tun_or_ring_queues_when_blocked (fuel : nat) (r : ring_buff_t) (tfd : Z)
    (p : list Z) (n : Z) (full : bool) (w : world) (rest : list sys_ans) :
  ring_wf r -> ring_empty r = true ->
  0 < n -> n <= Z.of_nat (length p) -> n <= contiguous_room r ->
  sock_ans w = [] \/ sock_ans w = would_block :: rest ->
  exists r',
    push_pkt_to_tun_or_ring (S fuel) (TunTx r tfd) (Some p) n None 0 full w
    = Done (n, TunTx r' tfd, full,
            World (tl (sock_ans w)) (tun_rx w) (allocs w)
              (trace w ++ [EvWritev tfd (firstn (Z.to_nat n) p) []])) /\
    ring_wf r' /\ ring_bytes r' = firstn (Z.to_nat n) p.
Proof.
  intros Hwf Hemp Hn Hp Hroom Hans.
  set (w1 := World (tl (sock_ans w)) (tun_rx w) (allocs w)
               (trace w ++ [EvWritev tfd (firstn (Z.to_nat n) p) []])).
  destruct (push_pkt_to_tun_backlog_ring_fits fuel r tfd p n full w1 Hwf Hn Hp Hroom)
    as (r' & E & Hwf' & Hbytes).
  exists r'. split; [|split; [exact Hwf'|]].
  - unfold push_pkt_to_tun_or_ring. cbn [backlog tt_fd deref]. rewrite Hemp.
    simpl (firstn (Z.to_nat 0) []).
    unfold sys_call.
    destruct Hans as [Ha|Ha]; rewrite Ha; unfold would_block, emit; cbn [rv errno];
      cbn [Z.ltb Z.compare]; rewrite Z.eqb_refl; cbn [orb].
    + rewrite <- E. unfold w1. rewrite Ha. reflexivity.
    + rewrite <- E. unfold w1. rewrite Ha. reflexivity.
  - rewrite Hbytes.
    assert (Hnil : ring_bytes r = []).
    { destruct r as [b z st en wr]. unfold ring_empty in Hemp. proj_simpl.
      apply andb_true_iff in Hemp. destruct Hemp as (Hw & Hse).
      destruct wr; [discriminate|]. apply Z.eqb_eq in Hse. subst en.
      unfold ring_bytes. proj_simpl. rewrite Z.sub_diag. reflexivity. }
    rewrite Hnil. reflexivity.
Qed.

Lemma push_pkt_to_tun_or_ring_queues_when_blocked_witness :
  exists r',
    push_pkt_to_tun_or_ring 1 (TunTx (Ring [0; 0; 0; 0; 0; 0; 0; 0] 8 2 2 false) 5)
      (Some [69; 0; 0; 4]) 4 None 0 false (World [] [] [] [])
    = Done (4, TunTx r' 5, false,
            World (tl (sock_ans (World [] [] [] []))) (tun_rx (World [] [] [] []))
              (allocs (World [] [] [] []))
              (trace (World [] [] [] [])
               ++ [EvWritev 5 (firstn (Z.to_nat 4) [69; 0; 0; 4]) []])) /\
    ring_wf r' /\ ring_bytes r' = firstn (Z.to_nat 4) [69; 0; 0; 4].
Proof.
  apply (push_pkt_to_tun_or_ring_queues_when_blocked 0
           (Ring [0; 0; 0; 0; 0; 0; 0; 0] 8 2 2 false) 5 [69; 0; 0; 4] 4 false
           (World [] [] [] []) []).
  - unfold ring_wf, ring_inv, ring_occupied; simpl. intuition (try discriminate; lia).
  - reflexivity.
  - lia.
  - simpl. lia.
  - unfold contiguous_room; simpl. lia.
  - left. reflexivity.
Defined.



(** ** The first event on a connection *)

(** X26.  An event on a connection whose rings hold no byte aborts,
    whatever the event mask: both tests of [conn_io] are [event | FLAG]
    and so always true; the drain of the empty tx ring returns
    [CONN_IO_OK] without a [send], and the fill of the rx ring then runs
    into the assertion of [push_to_tun] after its first [recv].  The
    rings of a connection are empty when [init_conn_sock] returns, and
    [recv_batch] leaves the rx ring empty. *)
Theorem conn_io_aborts_on_connection_with_empty_rings
    (destroy_sock : Z -> io_ctx_t -> world -> outcome (io_ctx_t * world))
    (host_le : bool) (fuel : nat) (tun_fd event conn_ : Z) (ctx : io_ctx_t) (w : world)
    (sock : io_sock_t) (cd : conn_data) (backlog_ptr : ring_ptr) (backlog_ring : ring_buff_t) :
  sockets ctx !! conn_ = Some sock -> d sock = DConn cd ->
  ring_inv (c_tx cd) -> ring_occupied (c_tx cd) = 0 -> ring_empty (c_rx cd) = true ->
  tun_tx ctx = Some backlog_ptr -> fst backlog_ptr <> conn_ ->
  load_ring ctx backlog_ptr = Done backlog_ring ->
  conn_io destroy_sock host_le (S (S fuel)) tun_fd event conn_ ctx w = Abort.
Proof.
  intros Hs Hd Hinv Hocc Hrx Htun Hneq Hbl.
  unfold conn_io.
  rewrite !lor_flag_nonzero by discriminate. cbn [negb].
  destruct (load_ring_conn_tx ctx conn_ sock cd Hs Hd) as (Els & Elr).
  rewrite Els, Elr. cbn [bind].
  destruct (drain_ring_no_byte fuel (fd sock) (c_tx cd) (@send_bl_batch unit) tt w Hinv Hocc)
    as (r' & -> & _).
  cbn [d_ring d_ret d_world].
  destruct (store_ring_conn_tx ctx conn_ sock cd r' Hs Hd) as (ctx1 & Est & _ & _).
  rewrite Est. cbn [bind]. change (CONN_KILL =? CONN_IO_OK) with false. cbn [bind].
  assert (Hctx1 : ctx1 = set_sockets ctx
                    (<[conn_ := IoSock (fd sock) (typ sock)
                                  (DConn (ConnData (c_peer cd) (c_af cd) (c_outbound cd)
                                            (c_rx cd) r'))]> (sockets ctx))).
  { unfold store_ring, load_sock in Est. cbn [fst snd] in Est.
    rewrite Hs in Est. cbn [of_option bind] in Est. rewrite Hd in Est.
    cbn [d_conn bind] in Est. injection Est as <-. reflexivity. }
  assert (Hs1 : load_sock ctx1 conn_
                = Done (IoSock (fd sock) (typ sock)
                          (DConn (ConnData (c_peer cd) (c_af cd) (c_outbound cd) (c_rx cd) r')))).
  { rewrite Hctx1. unfold load_sock, set_sockets. cbn [sockets].
    rewrite lookup_insert_eq. reflexivity. }
  assert (Hrx1 : load_ring ctx1 (conn_, conn_rx) = Done (c_rx cd)).
  { unfold load_ring. cbn [fst snd]. rewrite Hs1. reflexivity. }
  assert (Hbl1 : load_ring ctx1 backlog_ptr = Done backlog_ring).
  { unfold load_ring, load_sock in *. rewrite Hctx1. unfold set_sockets. cbn [sockets].
    rewrite lookup_insert_ne by congruence. exact Hbl. }
  assert (Htun1 : tun_tx ctx1 = Some backlog_ptr) by (rewrite Hctx1; exact Htun).
  rewrite Hs1. cbn [bind]. rewrite Hrx1. cbn [bind]. rewrite Htun1. cbn [of_option bind].
  rewrite Hbl1. cbn [bind fd].
  pose proof (fill_ring_recv_push_to_tun_empty host_le fuel (S (S fuel)) (fd sock) (c_rx cd)
                (TunTx backlog_ring tun_fd) w Hrx) as Hab.
  destruct (fill_ring _ _ _ _ _ _ _) as [e s]. cbn [fst] in Hab. subst e. reflexivity.
Qed.

Lemma conn_io_aborts_on_connection_with_empty_rings_witness :
  conn_io (fun _ ctx w => Done (ctx, w)) true 2 5 EPOLLIN 7
    (IoCtx (<[7 := IoSock 7 conn
                     (DConn (ConnData ([10; 0; 0; 2] ++ repeat 0 12) AF_INET 0
                               (Ring [0; 0; 0; 0] 4 0 0 false) (Ring [0; 0; 0; 0] 4 0 0 false)))]>
              (<[100 := IoSock 5 tun
                          (DTun (TunData (Ring [0; 0; 0; 0] 4 0 0 false) zero_pkt_buff
                                   zero_pkt_buff))]> ∅))
       ∅ (repeat 0 16) (repeat 0 16) USING_IPV4 (Some (100, tun_tx_member)) (IoCtr 0 0 0 0))
    (World [SysAns 4 0 [69; 0; 0; 4]] [] [] [])
  = Abort.
Proof.
  apply (conn_io_aborts_on_connection_with_empty_rings (fun _ ctx w => Done (ctx, w)) true 0 5
           EPOLLIN 7 _ _
           (IoSock 7 conn
              (DConn (ConnData ([10; 0; 0; 2] ++ repeat 0 12) AF_INET 0
                        (Ring [0; 0; 0; 0] 4 0 0 false) (Ring [0; 0; 0; 0] 4 0 0 false))))
           (ConnData ([10; 0; 0; 2] ++ repeat 0 12) AF_INET 0
              (Ring [0; 0; 0; 0] 4 0 0 false) (Ring [0; 0; 0; 0] 4 0 0 false))
           (100, tun_tx_member) (Ring [0; 0; 0; 0] 4 0 0 false)).
  - reflexivity.
  - reflexivity.
  - unfold ring_inv, ring_occupied; simpl. intuition (try discriminate; lia).
  - reflexivity.
  - reflexivity.
  - reflexivity.
  - simpl. lia.
  - reflexivity.
Defined.
